(** * Royal Stay Hotel: room availability and booking lifecycle

    A shallow embedding of [room.py], [booking.py] and the part of
    [guest.py] the booking lifecycle calls into, followed by the
    properties of the availability check, the cost computation and the
    confirm / cancel flags.

    Python objects are shared and mutated in place: a [Booking] holds
    references to [Room] objects that other bookings hold too, and a
    [Guest] holds references to its bookings.  The embedding therefore
    keeps one object store with a heap per class, and every method is a
    function from stores to outcomes.  Output on stdout ([print]) is not
    part of the model. *)

From Stdlib Require Import ZArith Bool List Lia PrimFloat Uint63 SpecFloat FloatOps.
From stdpp Require Import base option list gmap strings pretty.

Local Open Scope Z_scope.

(** ** Numbers

    Prices are duck-typed in the source: the docstrings say [float], and
    every use ([price * nights], [sum], [value < 0]) works as well on
    [int].  The operations the code applies to a price form the class
    [Number]; [ExactNumber] adds the two laws that exact arithmetic
    (Python [int]) satisfies and binary floating point does not. *)

Class Number (N : Type) := {
  nzero : N;                      (* the 0 that [sum] starts from, and 0.0 *)
  nadd : N -> N -> N;             (* a + b *)
  nscale : N -> Z -> N;           (* price * nights, nights an int *)
  nnegative : N -> bool           (* value < 0 *)
}.

Class ExactNumber (N : Type) `{Number N} : Prop := {
  nscale_zero : forall k, nscale nzero k = nzero;
  nscale_add : forall a b k, nscale (nadd a b) k = nadd (nscale a k) (nscale b k)
}.

#[export] Instance Z_Number : Number Z :=
  {| nzero := 0; nadd := Z.add; nscale := Z.mul; nnegative := fun v => v <? 0 |}.

(** Conversion of an [int] to a [float], exact below 2^53. *)
Definition float_of_int (k : Z) : float :=
  if k <? 0 then PrimFloat.opp (PrimFloat.of_uint63 (Uint63.of_Z (- k)))
  else PrimFloat.of_uint63 (Uint63.of_Z k).

#[export] Instance float_Number : Number float :=
  {| nzero := PrimFloat.zero;
     nadd := PrimFloat.add;
     nscale := fun p k => PrimFloat.mul p (float_of_int k);
     nnegative := fun v => PrimFloat.ltb v PrimFloat.zero |}.

(** ** Dates

    A naive [datetime] is a count of microseconds; comparison is the
    comparison of the counts, and [(b - a).days] is the floor of the
    difference divided by one day, as [timedelta] normalises it. *)

Definition datetime := Z.

Definition MICROSECONDS_PER_DAY : Z := 86400000000.

Definition timedelta_days (delta : Z) : Z := delta / MICROSECONDS_PER_DAY.

(** [today + timedelta(days=k)] *)
Definition plus_days (t : datetime) (k : Z) : datetime := t + k * MICROSECONDS_PER_DAY.

(** ** Objects *)

Inductive RoomType := SINGLE | DOUBLE | SUITE | DELUXE.

Inductive Status := Pending | Confirmed | Canceled.

Definition room_ref := nat.
Definition booking_ref := nat.
Definition guest_ref := nat.

Record Room (N : Type) := mkRoom {
  _room_number : Z;
  _room_type : RoomType;
  _amenities : list string;
  _price_per_night : N;
  _is_available : bool;
  _bookings : list (datetime * datetime)
}.
Arguments mkRoom {N}.
Arguments _room_number {N}.
Arguments _room_type {N}.
Arguments _amenities {N}.
Arguments _price_per_night {N}.
Arguments _is_available {N}.
Arguments _bookings {N}.

Record Booking (N : Type) := mkBooking {
  _booking_id : string;
  _guest : guest_ref;
  _rooms : list room_ref;
  _check_in_date : datetime;
  _check_out_date : datetime;
  _total_cost : N;
  _is_confirmed : bool;
  _is_canceled : bool
}.
Arguments mkBooking {N}.
Arguments _booking_id {N}.
Arguments _guest {N}.
Arguments _rooms {N}.
Arguments _check_in_date {N}.
Arguments _check_out_date {N}.
Arguments _total_cost {N}.
Arguments _is_confirmed {N}.
Arguments _is_canceled {N}.

Record Guest := mkGuest {
  _guest_id : Z;
  _name : string;
  _contact : string;
  _email : string;
  _loyalty_program : option nat;
  _reservations : list booking_ref
}.

(** The object store: one heap per class. *)
Record Store (N : Type) := mkStore {
  room_heap : gmap room_ref (Room N);
  booking_heap : gmap booking_ref (Booking N);
  guest_heap : gmap guest_ref Guest
}.
Arguments mkStore {N}.
Arguments room_heap {N}.
Arguments booking_heap {N}.
Arguments guest_heap {N}.

(** Every exception the three classes raise is a [ValueError]; the
    constructors keep the messages apart. *)
Inductive ValueError :=
  | InvalidRangeError
      (* "Check-in date must be before check-out date" *)
  | RoomUnavailableError (number : Z)
      (* "Room {number} is not available for the requested dates" *)
  | EmptyBookingError
      (* "Cannot create a booking with no rooms" *)
  | UnconfirmedBookingError
      (* "Cannot send confirmation for an unconfirmed booking" *)
  | NegativePriceError.
      (* "Price cannot be negative" *)

(** What a call does: it returns a value, or raises; both leave a store
    behind.  [Dangling] is the outcome of a call on a reference that names
    no object of the store, which no Python execution produces. *)
Inductive outcome (N A : Type) :=
  | Returns (a : A) (s : Store N)
  | Raises (e : ValueError) (s : Store N)
  | Dangling.
Arguments Returns {N A}.
Arguments Raises {N A}.
Arguments Dangling {N A}.

Definition M (N A : Type) := Store N -> outcome N A.

Definition ret {N A} (a : A) : M N A := fun s => Returns a s.

Definition raise {N A} (e : ValueError) : M N A := fun s => Raises e s.

Definition bind {N A B} (m : M N A) (k : A -> M N B) : M N B :=
  fun s =>
    match m s with
    | Returns a s' => k a s'
    | Raises e s' => Raises e s'
    | Dangling => Dangling
    end.

Notation "'let!' x ':=' m 'in' k" := (bind m (fun x => k))
  (at level 10, x name, m at level 100, k at level 200).

(** The store a call leaves behind; a call on a dangling reference is no
    call at all. *)
Definition store_after {N A} (s : Store N) (o : outcome N A) : Store N :=
  match o with
  | Returns _ s' => s'
  | Raises _ s' => s'
  | Dangling => s
  end.

Section Hotel.
Context {N : Type} `{Number N}.

(** *** Reading and writing objects *)

Definition get_room (r : room_ref) : M N (Room N) :=
  fun s => match room_heap s !! r with
           | Some room => Returns room s
           | None => Dangling
           end.

Definition put_room (r : room_ref) (room : Room N) : M N unit :=
  fun s => Returns tt (mkStore (<[r := room]> (room_heap s)) (booking_heap s) (guest_heap s)).

Definition get_booking (b : booking_ref) : M N (Booking N) :=
  fun s => match booking_heap s !! b with
           | Some bk => Returns bk s
           | None => Dangling
           end.

Definition put_booking (b : booking_ref) (bk : Booking N) : M N unit :=
  fun s => Returns tt (mkStore (room_heap s) (<[b := bk]> (booking_heap s)) (guest_heap s)).

Definition get_guest (g : guest_ref) : M N Guest :=
  fun s => match guest_heap s !! g with
           | Some guest => Returns guest s
           | None => Dangling
           end.

Definition put_guest (g : guest_ref) (guest : Guest) : M N unit :=
  fun s => Returns tt (mkStore (room_heap s) (booking_heap s) (<[g := guest]> (guest_heap s))).

(** Attribute assignments. *)
Definition set_bookings (room : Room N) (l : list (datetime * datetime)) : Room N :=
  mkRoom (_room_number room) (_room_type room) (_amenities room)
         (_price_per_night room) (_is_available room) l.

Definition set_is_available (room : Room N) (v : bool) : Room N :=
  mkRoom (_room_number room) (_room_type room) (_amenities room)
         (_price_per_night room) v (_bookings room).

Definition set_price_per_night (room : Room N) (v : N) : Room N :=
  mkRoom (_room_number room) (_room_type room) (_amenities room)
         v (_is_available room) (_bookings room).

Definition set_amenities (room : Room N) (v : list string) : Room N :=
  mkRoom (_room_number room) (_room_type room) v
         (_price_per_night room) (_is_available room) (_bookings room).

Definition set_rooms (bk : Booking N) (l : list room_ref) : Booking N :=
  mkBooking (_booking_id bk) (_guest bk) l (_check_in_date bk) (_check_out_date bk)
            (_total_cost bk) (_is_confirmed bk) (_is_canceled bk).

Definition set_total_cost (bk : Booking N) (v : N) : Booking N :=
  mkBooking (_booking_id bk) (_guest bk) (_rooms bk) (_check_in_date bk) (_check_out_date bk)
            v (_is_confirmed bk) (_is_canceled bk).

Definition set_is_confirmed (bk : Booking N) (v : bool) : Booking N :=
  mkBooking (_booking_id bk) (_guest bk) (_rooms bk) (_check_in_date bk) (_check_out_date bk)
            (_total_cost bk) v (_is_canceled bk).

Definition set_is_canceled (bk : Booking N) (v : bool) : Booking N :=
  mkBooking (_booking_id bk) (_guest bk) (_rooms bk) (_check_in_date bk) (_check_out_date bk)
            (_total_cost bk) (_is_confirmed bk) v.

Definition set_reservations (guest : Guest) (l : list booking_ref) : Guest :=
  mkGuest (_guest_id guest) (_name guest) (_contact guest) (_email guest)
          (_loyalty_program guest) l.

(** *** room.py *)

(** [Room.__init__] *)
Definition Room_init (room_number : Z) (room_type : RoomType)
    (amenities : list string) (price_per_night : N) : Room N :=
  mkRoom room_number room_type amenities price_per_night true [].

(** The condition of the [if] inside the loop of [check_availability]. *)
Definition overlaps (check_in_date check_out_date : datetime)
    (stored : datetime * datetime) : bool :=
  let '(booking_check_in, booking_check_out) := stored in
  (check_in_date <? booking_check_out) && (check_out_date >? booking_check_in).

(** The [for] loop of [check_availability]: [return False] at the first
    stored period that overlaps, [return True] after the last one. *)
Fixpoint scan_bookings (check_in_date check_out_date : datetime)
    (l : list (datetime * datetime)) : bool :=
  match l with
  | [] => true
  | stored :: rest =>
      if overlaps check_in_date check_out_date stored then false
      else scan_bookings check_in_date check_out_date rest
  end.

Definition check_availability (r : room_ref)
    (check_in_date check_out_date : datetime) : M N bool :=
  let! room := get_room r in
  if check_in_date >=? check_out_date then raise InvalidRangeError
  else ret (scan_bookings check_in_date check_out_date (_bookings room)).

Definition add_booking (r : room_ref)
    (check_in_date check_out_date : datetime) : M N bool :=
  let! available := check_availability r check_in_date check_out_date in
  let! room := get_room r in
  if negb available then raise (RoomUnavailableError (_room_number room))
  else
    let! _ := put_room r (set_bookings room
                (_bookings room ++ [(check_in_date, check_out_date)])) in
    ret true.

Definition update_status (r : room_ref) (is_available : bool) : M N unit :=
  let! room := get_room r in
  put_room r (set_is_available room is_available).

(** The [price_per_night] and [amenities] property setters. *)
Definition price_per_night_setter (r : room_ref) (value : N) : M N unit :=
  let! room := get_room r in
  if nnegative value then raise NegativePriceError
  else put_room r (set_price_per_night room value).

Definition amenities_setter (r : room_ref) (value : list string) : M N unit :=
  let! room := get_room r in
  put_room r (set_amenities room value).

(** *** guest.py *)

(** [Guest.__init__] *)
Definition Guest_init (guest_id : Z) (name contact email : string) : Guest :=
  mkGuest guest_id name contact email None [].

Definition add_reservation (g : guest_ref) (reservation : booking_ref) : M N bool :=
  let! guest := get_guest g in
  let! _ := put_guest g (set_reservations guest (_reservations guest ++ [reservation])) in
  ret true.

Definition view_reservations (g : guest_ref) : M N (list booking_ref) :=
  let! guest := get_guest g in
  ret (_reservations guest).

(** [if name:] holds for a string that is given and not empty. *)
Definition truthy (v : option string) : bool :=
  match v with
  | Some EmptyString => false
  | Some _ => true
  | None => false
  end.

Definition update_profile (g : guest_ref) (name contact email : option string) : M N bool :=
  let! guest := get_guest g in
  let name' := if truthy name then default (_name guest) name else _name guest in
  let contact' := if truthy contact then default (_contact guest) contact else _contact guest in
  let email' := if truthy email then default (_email guest) email else _email guest in
  let! _ := put_guest g (mkGuest (_guest_id guest) name' contact' email'
                           (_loyalty_program guest) (_reservations guest)) in
  ret true.

Definition set_loyalty_program (g : guest_ref) (loyalty_program : option nat) : M N unit :=
  let! guest := get_guest g in
  put_guest g (mkGuest (_guest_id guest) (_name guest) (_contact guest) (_email guest)
                 loyalty_program (_reservations guest)).

(** The [name], [contact] and [email] property setters. *)
Definition name_setter (g : guest_ref) (value : string) : M N unit :=
  let! guest := get_guest g in
  put_guest g (mkGuest (_guest_id guest) value (_contact guest) (_email guest)
                 (_loyalty_program guest) (_reservations guest)).

Definition contact_setter (g : guest_ref) (value : string) : M N unit :=
  let! guest := get_guest g in
  put_guest g (mkGuest (_guest_id guest) (_name guest) value (_email guest)
                 (_loyalty_program guest) (_reservations guest)).

Definition email_setter (g : guest_ref) (value : string) : M N unit :=
  let! guest := get_guest g in
  put_guest g (mkGuest (_guest_id guest) (_name guest) (_contact guest) value
                 (_loyalty_program guest) (_reservations guest)).

(** *** booking.py *)

(** [Booking.__init__]; the identifier is drawn by [uuid4] in the source
    and is an argument here. *)
Definition Booking_init (booking_id : string) (guest : guest_ref)
    (check_in_date check_out_date : datetime) : Booking N :=
  mkBooking booking_id guest [] check_in_date check_out_date nzero false false.

(** [sum(room.price_per_night * nights for room in self._rooms)]: the
    running total starts at 0 and takes the rooms in list order, each
    price read from the room object at that moment. *)
Fixpoint sum_charges (nights : Z) (rooms : list room_ref) (acc : N) : M N N :=
  match rooms with
  | [] => ret acc
  | r :: rest =>
      let! room := get_room r in
      sum_charges nights rest (nadd acc (nscale (_price_per_night room) nights))
  end.

Definition _update_total_cost (b : booking_ref) : M N unit :=
  let! bk := get_booking b in
  let nights := timedelta_days (_check_out_date bk - _check_in_date bk) in
  let! total := sum_charges nights (_rooms bk) nzero in
  put_booking b (set_total_cost bk total).

Definition add_room (b : booking_ref) (r : room_ref) : M N bool :=
  let! bk := get_booking b in
  let! available := check_availability r (_check_in_date bk) (_check_out_date bk) in
  let! room := get_room r in
  if negb available then raise (RoomUnavailableError (_room_number room))
  else
    let! _ := add_booking r (_check_in_date bk) (_check_out_date bk) in
    let! bk := get_booking b in
    let! _ := put_booking b (set_rooms bk (_rooms bk ++ [r])) in
    let! _ := _update_total_cost b in
    ret true.

(** [room in self._rooms]: [Room] defines no [__eq__], so membership is
    identity of the objects, that is equality of the references. *)
Fixpoint contains (r : room_ref) (l : list room_ref) : bool :=
  match l with
  | [] => false
  | x :: rest => if Nat.eqb x r then true else contains r rest
  end.

(** [list.remove]: the first occurrence goes. *)
Fixpoint remove_first (r : room_ref) (l : list room_ref) : list room_ref :=
  match l with
  | [] => []
  | x :: rest => if Nat.eqb x r then rest else x :: remove_first r rest
  end.

Definition remove_room (b : booking_ref) (r : room_ref) : M N bool :=
  let! bk := get_booking b in
  if contains r (_rooms bk) then
    let! _ := put_booking b (set_rooms bk (remove_first r (_rooms bk))) in
    let! _ := _update_total_cost b in
    ret true
  else ret false.

Definition create_booking (b : booking_ref) : M N bool :=
  let! bk := get_booking b in
  match _rooms bk with
  | [] => raise EmptyBookingError
  | _ :: _ =>
      let! _ := put_booking b (set_is_confirmed bk true) in
      let! _ := add_reservation (_guest bk) b in
      ret true
  end.

Definition cancel_booking (b : booking_ref) : M N bool :=
  let! bk := get_booking b in
  if _is_canceled bk then ret false
  else
    let! _ := put_booking b (set_is_confirmed (set_is_canceled bk true) false) in
    ret true.

Definition send_confirmation (b : booking_ref) : M N bool :=
  let! bk := get_booking b in
  if negb (_is_confirmed bk) then raise UnconfirmedBookingError
  else
    let! _ := get_guest (_guest bk) in
    ret true.

(** The status [__str__] prints: Confirmed or Pending by the confirmed
    flag, overridden by Canceled when the canceled flag is set. *)
Definition status (bk : Booking N) : Status :=
  let status := if _is_confirmed bk then Confirmed else Pending in
  if _is_canceled bk then Canceled else status.

Definition calculate_total (b : booking_ref) : M N N :=
  let! _ := _update_total_cost b in
  let! bk := get_booking b in
  ret (_total_cost bk).

(** *** Construction of objects

    A constructor call yields an object no reference named before; the
    reference is an argument, and a reference already in use is not a
    constructor call. *)

Definition new_room (r : room_ref) (room_number : Z) (room_type : RoomType)
    (amenities : list string) (price_per_night : N) : M N room_ref :=
  fun s => match room_heap s !! r with
           | Some _ => Dangling
           | None =>
               Returns r (mkStore
                 (<[r := Room_init room_number room_type amenities price_per_night]> (room_heap s))
                 (booking_heap s) (guest_heap s))
           end.

Definition new_guest (g : guest_ref) (guest_id : Z) (name contact email : string)
    : M N guest_ref :=
  fun s => match guest_heap s !! g with
           | Some _ => Dangling
           | None =>
               Returns g (mkStore (room_heap s) (booking_heap s)
                 (<[g := Guest_init guest_id name contact email]> (guest_heap s)))
           end.

(** [Booking(guest, check_in, check_out)] takes a guest object, so the
    guest reference names one. *)
Definition new_booking (b : booking_ref) (booking_id : string) (guest : guest_ref)
    (check_in_date check_out_date : datetime) : M N booking_ref :=
  fun s => match booking_heap s !! b, guest_heap s !! guest with
           | None, Some _ =>
               Returns b (mkStore (room_heap s)
                 (<[b := Booking_init booking_id guest check_in_date check_out_date]>
                    (booking_heap s))
                 (guest_heap s))
           | _, _ => Dangling
           end.

End Hotel.

(** ** The system as a whole

    The calls a client of the three classes can make that write to an
    object, or raise: the constructors, the methods and the property
    setters.  The property getters, [get_details], [get_loyalty_program],
    [create_account] and [__str__] only read.  Payment, invoice, loyalty,
    service and feedback objects only read bookings and rooms, and have no
    place here. *)

Inductive operation (N : Type) :=
  | OpNewRoom (r : room_ref) (room_number : Z) (room_type : RoomType)
      (amenities : list string) (price_per_night : N)
  | OpNewGuest (g : guest_ref) (guest_id : Z) (name contact email : string)
  | OpNewBooking (b : booking_ref) (booking_id : string) (guest : guest_ref)
      (check_in_date check_out_date : datetime)
  | OpCheckAvailability (r : room_ref) (check_in_date check_out_date : datetime)
  | OpAddBooking (r : room_ref) (check_in_date check_out_date : datetime)
  | OpUpdateStatus (r : room_ref) (is_available : bool)
  | OpSetPrice (r : room_ref) (value : N)
  | OpSetAmenities (r : room_ref) (value : list string)
  | OpAddRoom (b : booking_ref) (r : room_ref)
  | OpRemoveRoom (b : booking_ref) (r : room_ref)
  | OpCreateBooking (b : booking_ref)
  | OpCancelBooking (b : booking_ref)
  | OpSendConfirmation (b : booking_ref)
  | OpCalculateTotal (b : booking_ref)
  | OpAddReservation (g : guest_ref) (reservation : booking_ref)
  | OpViewReservations (g : guest_ref)
  | OpUpdateProfile (g : guest_ref) (name contact email : option string)
  | OpSetLoyaltyProgram (g : guest_ref) (loyalty_program : option nat)
  | OpSetName (g : guest_ref) (value : string)
  | OpSetContact (g : guest_ref) (value : string)
  | OpSetEmail (g : guest_ref) (value : string).
Arguments OpNewRoom {N}.
Arguments OpNewGuest {N}.
Arguments OpNewBooking {N}.
Arguments OpCheckAvailability {N}.
Arguments OpAddBooking {N}.
Arguments OpUpdateStatus {N}.
Arguments OpSetPrice {N}.
Arguments OpSetAmenities {N}.
Arguments OpAddRoom {N}.
Arguments OpRemoveRoom {N}.
Arguments OpCreateBooking {N}.
Arguments OpCancelBooking {N}.
Arguments OpSendConfirmation {N}.
Arguments OpCalculateTotal {N}.
Arguments OpAddReservation {N}.
Arguments OpViewReservations {N}.
Arguments OpUpdateProfile {N}.
Arguments OpSetLoyaltyProgram {N}.
Arguments OpSetName {N}.
Arguments OpSetContact {N}.
Arguments OpSetEmail {N}.

Section System.
Context {N : Type} `{Number N}.

(** The store after one call, whether it returned or raised. *)
Definition step (s : Store N) (op : operation N) : Store N :=
  match op with
  | OpNewRoom r n t a p => store_after s (new_room r n t a p s)
  | OpNewGuest g i n c e => store_after s (new_guest g i n c e s)
  | OpNewBooking b i g ci co => store_after s (new_booking b i g ci co s)
  | OpCheckAvailability r ci co => store_after s (check_availability r ci co s)
  | OpAddBooking r ci co => store_after s (add_booking r ci co s)
  | OpUpdateStatus r v => store_after s (update_status r v s)
  | OpSetPrice r v => store_after s (price_per_night_setter r v s)
  | OpSetAmenities r v => store_after s (amenities_setter r v s)
  | OpAddRoom b r => store_after s (add_room b r s)
  | OpRemoveRoom b r => store_after s (remove_room b r s)
  | OpCreateBooking b => store_after s (create_booking b s)
  | OpCancelBooking b => store_after s (cancel_booking b s)
  | OpSendConfirmation b => store_after s (send_confirmation b s)
  | OpCalculateTotal b => store_after s (calculate_total b s)
  | OpAddReservation g b => store_after s (add_reservation g b s)
  | OpViewReservations g => store_after s (view_reservations g s)
  | OpUpdateProfile g n c e => store_after s (update_profile g n c e s)
  | OpSetLoyaltyProgram g l => store_after s (set_loyalty_program g l s)
  | OpSetName g v => store_after s (name_setter g v s)
  | OpSetContact g v => store_after s (contact_setter g v s)
  | OpSetEmail g v => store_after s (email_setter g v s)
  end.

Definition run (ops : list (operation N)) (s : Store N) : Store N :=
  fold_left step ops s.

Definition empty_store : Store N := mkStore ∅ ∅ ∅.

End System.


(** ** Vocabulary of the properties *)

(** Some stored period passes the half-open overlap test against the
    requested one. *)
Definition overlapping (check_in_date check_out_date : datetime)
    (l : list (datetime * datetime)) : Prop :=
  exists st en, (st, en) ∈ l /\ st < check_out_date /\ en > check_in_date.

(** No two periods at different positions of the list overlap. *)
Definition no_overlap (l : list (datetime * datetime)) : Prop :=
  forall i j p q, i <> j -> l !! i = Some p -> l !! j = Some q ->
    ~ (fst p < snd q /\ snd p > fst q).

(** The rooms of every store entry keep their periods apart. *)
Definition ledgers_ok {N} (s : Store N) : Prop :=
  forall r room, room_heap s !! r = Some room -> no_overlap (_bookings room).

(** [prices] are the nightly prices, in order, of the rooms [rooms] refer
    to in store [s]. *)
Definition attached_prices {N} (s : Store N) (rooms : list room_ref) (prices : list N) : Prop :=
  Forall2 (fun r p => exists room, room_heap s !! r = Some room /\ _price_per_night room = p)
          rooms prices.

Definition nights_of {N} (bk : Booking N) : Z :=
  timedelta_days (_check_out_date bk - _check_in_date bk).

(** The value the code stores: the per-room charges, added up from 0 in
    list order. *)
Definition charges {N} `{Number N} (nights : Z) (prices : list N) : N :=
  fold_left nadd (map (fun p => nscale p nights) prices) nzero.

(** The value the specification names: [sum(room.nightly_price) * nights]. *)
Definition spec_total {N} `{Number N} (nights : Z) (prices : list N) : N :=
  nscale (fold_left nadd prices nzero) nights.

(** The total cost of booking [bk] is [formula] of its nights and of the
    current prices of its rooms. *)
Definition cost_is {N} (formula : Z -> list N -> N) (s : Store N) (bk : Booking N) : Prop :=
  exists prices, attached_prices s (_rooms bk) prices /\
                 _total_cost bk = formula (nights_of bk) prices.

(** The booking [b] of store [s] carries the total the code computes from
    the rooms and prices of [s]; in exact arithmetic that is the total the
    specification names. *)
Definition up_to_date {N} `{Number N} (s : Store N) (b : booking_ref) : Prop :=
  exists bk, booking_heap s !! b = Some bk /\
             cost_is charges s bk /\
             (ExactNumber N -> cost_is spec_total s bk).

(** A call relates the store before to the store after by [R]. *)
Definition ensures {N A} (R : Store N -> Store N -> Prop) (m : M N A) : Prop :=
  forall s, R s (store_after s (m s)).

(** The same at one store. *)
Definition after {N A} (R : Store N -> Store N -> Prop) (s : Store N) (m : M N A) : Prop :=
  R s (store_after s (m s)).

Definition same_rooms {N} (s s' : Store N) : Prop := room_heap s' = room_heap s.

(** Every room is still there and its list of periods has only grown at
    the end; periods that were apart stay apart. *)
Definition ledgers_grow {N} (s s' : Store N) : Prop :=
  (ledgers_ok s -> ledgers_ok s') /\
  forall r room, room_heap s !! r = Some room ->
    exists room', room_heap s' !! r = Some room' /\
                  _bookings room `prefix_of` _bookings room'.

(** Every confirmed booking has exactly one entry in the reservation
    list of its guest. *)
Definition one_entry_per_confirmed_booking {N} (s : Store N) : Prop :=
  forall b bk guest,
    booking_heap s !! b = Some bk -> _is_confirmed bk = true ->
    guest_heap s !! _guest bk = Some guest ->
    count_occ Nat.eq_dec (_reservations guest) b = 1%nat.

(** Every reference a booking holds names an object of the store. *)
Definition well_formed {N} (s : Store N) : Prop :=
  forall b bk, booking_heap s !! b = Some bk ->
    is_Some (guest_heap s !! _guest bk) /\
    Forall (fun r => is_Some (room_heap s !! r)) (_rooms bk).

Definition keeps_well_formed {N} (s s' : Store N) : Prop :=
  well_formed s -> well_formed s'.

(** Every room is still there with the list of periods it had. *)
Definition ledgers_kept {N} (s s' : Store N) : Prop :=
  forall r room, room_heap s !! r = Some room ->
    exists room', room_heap s' !! r = Some room' /\ _bookings room' = _bookings room.

(** The two calls that reach the [append] of [add_booking]. *)
Definition reserves {N} (op : operation N) : bool :=
  match op with
  | OpAddBooking _ _ _ | OpAddRoom _ _ => true
  | _ => false
  end.

(** ** Concrete stores

    The dates count days from a reference day 0.  Room 101 at 100 a night
    and room 201 at 150 a night are those of [test_hotel_system.py]. *)

Definition day (k : Z) : datetime := plus_days 0 k.

(** A guest, two rooms, and a booking of room 101 for days 5 to 8. *)
Definition setup : list (operation Z) :=
  [ OpNewGuest 0%nat 1 "John Smith" "+1-555-123-4567" "john.smith@email.com";
    OpNewRoom 0%nat 101 SINGLE ["Wi-Fi"; "TV"; "Air Conditioning"]%string 100;
    OpNewRoom 1%nat 201 DOUBLE ["Wi-Fi"; "TV"; "Mini-bar"; "Air Conditioning"]%string 150;
    OpNewBooking 0%nat "b0000001" 0%nat (day 5) (day 8);
    OpAddRoom 0%nat 0%nat ].

Definition store_booked : Store Z := run setup empty_store.

(** The room, the guest and the booking as [store_booked] holds them. *)
Definition room101 : Room Z :=
  mkRoom 101 SINGLE ["Wi-Fi"; "TV"; "Air Conditioning"]%string 100 true [(day 5, day 8)].

Definition guest0 : Guest :=
  Guest_init 1 "John Smith" "+1-555-123-4567" "john.smith@email.com".

Definition booking0 : Booking Z :=
  mkBooking "b0000001" 0%nat [0%nat] (day 5) (day 8) 300 false false.

(** The same, with an empty second booking for the same dates. *)
Definition store_two_bookings : Store Z :=
  run [OpNewBooking 1%nat "b0000002" 0%nat (day 5) (day 8)] store_booked.

(** The same, with an empty second booking whose dates are the wrong way
    round. *)
Definition store_backwards : Store Z :=
  run [OpNewBooking 1%nat "b0000003" 0%nat (day 8) (day 5)] store_booked.

(** The booking confirmed. *)
Definition store_confirmed : Store Z := run [OpCreateBooking 0%nat] store_booked.

(** The booking confirmed, then canceled. *)
Definition store_canceled : Store Z := run [OpCancelBooking 0%nat] store_confirmed.

(** The price of the booked room raised after the booking took it. *)
Definition store_repriced : Store Z := run [OpSetPrice 0%nat 200] store_booked.

(** Float prices 149.99 and 89.95, both rooms booked for three nights. *)
Definition store_float : Store float :=
  run [ OpNewGuest 0%nat 1 "John Smith" "+1-555-123-4567" "john.smith@email.com";
        OpNewRoom 0%nat 101 SINGLE [] 0x1.2bfae147ae148p+7%float;
        OpNewRoom 1%nat 201 DOUBLE [] 0x1.67ccccccccccdp+6%float;
        OpNewBooking 0%nat "b0000001" 0%nat (day 5) (day 8);
        OpAddRoom 0%nat 0%nat;
        OpAddRoom 0%nat 1%nat ] empty_store.

(** ** What a call can do to the store

    Each constructor is the whole effect of one call that went through;
    a call that raises, and a call that finds nothing to do, leaves the
    store as it was. *)

Inductive effect {N} `{Number N} : Store N -> Store N -> Prop :=
  | effect_new_room s r n t a p :
      room_heap s !! r = None ->
      effect s (mkStore (<[r := Room_init n t a p]> (room_heap s))
                        (booking_heap s) (guest_heap s))
  | effect_new_guest s g i n c e :
      guest_heap s !! g = None ->
      effect s (mkStore (room_heap s) (booking_heap s)
                        (<[g := Guest_init i n c e]> (guest_heap s)))
  | effect_new_booking s b i g ci co :
      booking_heap s !! b = None ->
      is_Some (guest_heap s !! g) ->
      effect s (mkStore (room_heap s)
                        (<[b := Booking_init i g ci co]> (booking_heap s))
                        (guest_heap s))
  | effect_room_attribute s r room room' :
      (* update_status, the amenities setter *)
      room_heap s !! r = Some room ->
      _bookings room' = _bookings room ->
      _price_per_night room' = _price_per_night room ->
      effect s (mkStore (<[r := room']> (room_heap s)) (booking_heap s) (guest_heap s))
  | effect_reprice s r room v :
      (* the price_per_night setter *)
      room_heap s !! r = Some room ->
      nnegative v = false ->
      effect s (mkStore (<[r := set_price_per_night room v]> (room_heap s))
                        (booking_heap s) (guest_heap s))
  | effect_reserve s r room ci co :
      (* add_booking *)
      room_heap s !! r = Some room ->
      ci < co ->
      ~ overlapping ci co (_bookings room) ->
      effect s (mkStore (<[r := set_bookings room (_bookings room ++ [(ci, co)])]>
                           (room_heap s))
                        (booking_heap s) (guest_heap s))
  | effect_attach s b bk r room prices :
      (* add_room *)
      booking_heap s !! b = Some bk ->
      room_heap s !! r = Some room ->
      _check_in_date bk < _check_out_date bk ->
      ~ overlapping (_check_in_date bk) (_check_out_date bk) (_bookings room) ->
      attached_prices s (_rooms bk) prices ->
      effect s (mkStore
                  (<[r := set_bookings room
                            (_bookings room ++ [(_check_in_date bk, _check_out_date bk)])]>
                     (room_heap s))
                  (<[b := set_total_cost (set_rooms bk (_rooms bk ++ [r]))
                            (charges (nights_of bk) (prices ++ [_price_per_night room]))]>
                     (booking_heap s))
                  (guest_heap s))
  | effect_detach s b bk r prices :
      (* remove_room *)
      booking_heap s !! b = Some bk ->
      r ∈ _rooms bk ->
      attached_prices s (remove_first r (_rooms bk)) prices ->
      effect s (mkStore (room_heap s)
                  (<[b := set_total_cost (set_rooms bk (remove_first r (_rooms bk)))
                            (charges (nights_of bk) prices)]> (booking_heap s))
                  (guest_heap s))
  | effect_confirm s b bk guest :
      (* create_booking *)
      booking_heap s !! b = Some bk ->
      _rooms bk <> [] ->
      guest_heap s !! _guest bk = Some guest ->
      effect s (mkStore (room_heap s)
                  (<[b := set_is_confirmed bk true]> (booking_heap s))
                  (<[_guest bk := set_reservations guest (_reservations guest ++ [b])]>
                     (guest_heap s)))
  | effect_cancel s b bk :
      (* cancel_booking *)
      booking_heap s !! b = Some bk ->
      _is_canceled bk = false ->
      effect s (mkStore (room_heap s)
                  (<[b := set_is_confirmed (set_is_canceled bk true) false]> (booking_heap s))
                  (guest_heap s))
  | effect_total s b bk prices :
      (* calculate_total *)
      booking_heap s !! b = Some bk ->
      attached_prices s (_rooms bk) prices ->
      effect s (mkStore (room_heap s)
                  (<[b := set_total_cost bk (charges (nights_of bk) prices)]> (booking_heap s))
                  (guest_heap s))
  | effect_register s g guest b :
      (* add_reservation *)
      guest_heap s !! g = Some guest ->
      effect s (mkStore (room_heap s) (booking_heap s)
                  (<[g := set_reservations guest (_reservations guest ++ [b])]>
                     (guest_heap s)))
  | effect_profile s g guest guest' :
      (* update_profile, set_loyalty_program, the name, contact and email setters *)
      guest_heap s !! g = Some guest ->
      _reservations guest' = _reservations guest ->
      effect s (mkStore (room_heap s) (booking_heap s) (<[g := guest']> (guest_heap s))).

(** ** Vocabulary of the properties of whole runs *)

(** Every room a booking lists is in the store and holds the booking's
    dates in its list of periods. *)
Definition attached_reserved {N} (s : Store N) : Prop :=
  forall b bk r, booking_heap s !! b = Some bk -> r ∈ _rooms bk ->
    exists room, room_heap s !! r = Some room /\
                 (_check_in_date bk, _check_out_date bk) ∈ _bookings room.

(** Two different bookings that list the same room have dates that do not
    overlap under the half-open test. *)
Definition no_double_booking {N} (s : Store N) : Prop :=
  forall b1 b2 bk1 bk2 r,
    b1 <> b2 ->
    booking_heap s !! b1 = Some bk1 -> booking_heap s !! b2 = Some bk2 ->
    r ∈ _rooms bk1 -> r ∈ _rooms bk2 ->
    ~ (_check_in_date bk1 < _check_out_date bk2 /\ _check_out_date bk1 > _check_in_date bk2).

(** No booking lists a room twice. *)
Definition rooms_distinct {N} (s : Store N) : Prop :=
  forall b bk, booking_heap s !! b = Some bk -> NoDup (_rooms bk).

(** A booking that lists a room has its check-in before its check-out. *)
Definition rooms_dated {N} (s : Store N) : Prop :=
  forall b bk, booking_heap s !! b = Some bk -> _rooms bk <> [] ->
    _check_in_date bk < _check_out_date bk.

Definition attachments_ok {N} (s : Store N) : Prop :=
  attached_reserved s /\ no_double_booking s /\ rooms_distinct s /\ rooms_dated s.

(** Every booking is still there with the identifier, guest and dates it
    had, and canceled if it was. *)
Definition bookings_persist {N} (s s' : Store N) : Prop :=
  forall b bk, booking_heap s !! b = Some bk ->
    exists bk', booking_heap s' !! b = Some bk' /\
      _booking_id bk' = _booking_id bk /\ _guest bk' = _guest bk /\
      _check_in_date bk' = _check_in_date bk /\ _check_out_date bk' = _check_out_date bk /\
      (_is_canceled bk = true -> _is_canceled bk' = true).

(** Every guest is still there and the reservation list it had is a prefix
    of the one it has. *)
Definition histories_grow {N} (s s' : Store N) : Prop :=
  forall g guest, guest_heap s !! g = Some guest ->
    exists guest', guest_heap s' !! g = Some guest' /\
      _reservations guest `prefix_of` _reservations guest'.

(** Every booking whose confirmed flag is set is in the reservation list of
    its guest. *)
Definition confirmed_registered {N} (s : Store N) : Prop :=
  forall b bk, booking_heap s !! b = Some bk -> _is_confirmed bk = true ->
    exists guest, guest_heap s !! _guest bk = Some guest /\ b ∈ _reservations guest.

(** Every booking carries the total the code computes from its rooms and
    their current prices. *)
Definition totals_current {N} `{Number N} (s : Store N) : Prop :=
  forall b bk, booking_heap s !! b = Some bk -> cost_is charges s bk.

(** The one call that changes a price. *)
Definition reprices {N} (op : operation N) : bool :=
  match op with
  | OpSetPrice _ _ => true
  | _ => false
  end.

(** Every room is still there at the price it had. *)
Definition prices_kept {N} (s s' : Store N) : Prop :=
  forall r room, room_heap s !! r = Some room ->
    exists room', room_heap s' !! r = Some room' /\
                  _price_per_night room' = _price_per_night room.

(** ** The collaborators

    Payments, invoices, loyalty programs, service requests and feedback
    are objects outside the store: none of them is shared between two
    owners in the source, and each method writes to its own object only.
    A method takes the object and gives it back; a method that reads a
    booking takes the store as well.  [datetime.now()] and the identifiers
    drawn by [uuid4] are arguments. *)

Inductive PyException :=
  | PyValueError (message : string)
  | PyOverflowError (message : string)
  | PyZeroDivisionError (message : string).

(** A call on an object [S]: it returns a value, or raises; both leave
    the object behind. *)
Inductive reply (S A : Type) :=
  | Replied (a : A) (self : S)
  | Threw (e : PyException) (self : S).
Arguments Replied {S A}.
Arguments Threw {S A}.

Definition and_then {S A B} (m : reply S A) (k : A -> S -> reply S B) : reply S B :=
  match m with
  | Replied a self => k a self
  | Threw e self => Threw e self
  end.

Definition object_after {S A} (m : reply S A) : S :=
  match m with
  | Replied _ self => self
  | Threw _ self => self
  end.

(** *** Python numbers *)

(** A value that is an [int] or a [float] at run time. *)
Inductive number :=
  | Int (k : Z)
  | Float (f : float).

(** [int(x)] on a float: truncation toward zero; NaN and the infinities
    raise. *)
Definition int_of_float (f : float) : PyException + Z :=
  match Prim2SF f with
  | S754_zero _ => inr 0
  | S754_finite s m e =>
      let magnitude := if e <? 0 then Z.shiftr (Zpos m) (- e) else Z.shiftl (Zpos m) e in
      inr (if s then - magnitude else magnitude)
  | S754_nan => inl (PyValueError "cannot convert float NaN to integer")
  | S754_infinity _ => inl (PyOverflowError "cannot convert float infinity to integer")
  end.

(** [int(x)] *)
Definition py_int (x : number) : PyException + Z :=
  match x with
  | Int k => inr k
  | Float f => int_of_float f
  end.

(** [round(x)] on a float: the nearest integer, a tie going to the even
    one. *)
Definition py_round (f : float) : PyException + Z :=
  match Prim2SF f with
  | S754_zero _ => inr 0
  | S754_finite s m e =>
      let magnitude :=
        if e <? 0 then
          let q := Z.shiftr (Zpos m) (- e) in
          let r := Z.land (Zpos m) (Z.ones (- e)) in
          let half := Z.shiftl 1 (- e - 1) in
          match r ?= half with
          | Lt => q
          | Gt => q + 1
          | Eq => if Z.even q then q else q + 1
          end
        else Z.shiftl (Zpos m) e in
      inr (if s then - magnitude else magnitude)
  | S754_nan => inl (PyValueError "cannot convert float NaN to integer")
  | S754_infinity _ => inl (PyOverflowError "cannot convert float infinity to integer")
  end.

(** The conversion of an [int] operand that meets a [float]: the nearest
    float, a tie going to the even one; too large an [int] raises. *)
Definition float_of_py_int (k : Z) : PyException + float :=
  let f := SF2Prim (binary_normalize prec emax k 0 false) in
  if PrimFloat.is_infinity f then inl (PyOverflowError "int too large to convert to float")
  else inr f.

(** [a / b] on two [int]s: the float nearest to the quotient, a tie going
    to the even one; the quotient is taken with two bits more than a float
    holds and a last bit that tells whether anything was left over. *)
Definition true_divide (a b : Z) : PyException + float :=
  if b =? 0 then inl (PyZeroDivisionError "division by zero")
  else
    let negate := xorb (a <? 0) (b <? 0) in
    let x := Z.abs a in
    let y := Z.abs b in
    let k := Z.max 0 (Z.log2 y - Z.log2 x + 55) in
    let q := Z.shiftl x k / y in
    let sticky := if Z.shiftl x k mod y =? 0 then 0 else 1 in
    let m := 2 * q + sticky in
    let f := SF2Prim (binary_normalize prec emax (if negate then - m else m)
                                       (- k - 1) negate) in
    if PrimFloat.is_infinity f
    then inl (PyOverflowError "integer division result too large for a float")
    else inr f.

(** What a payment does with its amount besides what [Number] has:
    [a < b] and [a - b]. *)
Class Money (N : Type) := {
  nless : N -> N -> bool;
  nsub : N -> N -> N
}.

#[export] Instance Z_Money : Money Z := {| nless := Z.ltb; nsub := Z.sub |}.

#[export] Instance float_Money : Money float :=
  {| nless := PrimFloat.ltb; nsub := PrimFloat.sub |}.

Definition payment_ref := nat.

(** [room_type.value] *)
Definition RoomType_value (t : RoomType) : string :=
  match t with
  | SINGLE => "Single Room"
  | DOUBLE => "Double Room"
  | SUITE => "Suite"
  | DELUXE => "Deluxe Room"
  end.

(** *** invoice.py *)

Module invoice.
Section Invoice.
Context {N : Type} `{Number N}.

(** A line item, a [dict] with the keys "description" and "amount". *)
Record Item := mkItem {
  description : string;
  amount : N
}.

(** The invoice keeps a reference to its payment and reads nothing
    through it. *)
Record Invoice := mkInvoice {
  _invoice_id : string;
  _booking : booking_ref;
  _payment : payment_ref;
  _issue_date : datetime;
  _due_date : datetime;
  _items : list Item
}.

Definition set_items (self : Invoice) (items : list Item) : Invoice :=
  mkInvoice (_invoice_id self) (_booking self) (_payment self)
            (_issue_date self) (_due_date self) items.

(** The loop of [_generate_line_items]: one item per room, in the order
    of the booking's list; [None] when a reference names no room. *)
Fixpoint room_charges (s : Store N) (nights : Z) (rooms : list room_ref)
    (items : list Item) : option (list Item) :=
  match rooms with
  | [] => Some items
  | r :: rest =>
      match room_heap s !! r with
      | None => None
      | Some room =>
          let room_charge := nscale (_price_per_night room) nights in
          room_charges s nights rest
            (items ++ [mkItem ("Room " +:+ pretty (_room_number room) +:+ " ("
                                 +:+ RoomType_value (_room_type room) +:+ ") - "
                                 +:+ pretty nights +:+ " nights")
                              room_charge])
      end
  end.

Definition _generate_line_items (s : Store N) (self : Invoice) : option Invoice :=
  match booking_heap s !! _booking self with
  | None => None
  | Some bk =>
      let nights := timedelta_days (_check_out_date bk - _check_in_date bk) in
      match room_charges s nights (_rooms bk) (_items self) with
      | None => None
      | Some items => Some (set_items self items)
      end
  end.

(** [Invoice.__init__] *)
Definition Invoice_init (s : Store N) (now : datetime) (invoice_id : string)
    (booking : booking_ref) (payment : payment_ref) : option Invoice :=
  _generate_line_items s (mkInvoice invoice_id booking payment now now []).

Definition add_item (description : string) (amount : N) (self : Invoice) : Invoice :=
  set_items self (_items self ++ [mkItem description amount]).

(** [sum(item["amount"] for item in self._items)] *)
Definition calculate_total (self : Invoice) : N :=
  fold_left nadd (map amount (_items self)) nzero.

(** [send_invoice] reads the e-mail address of the booking's guest. *)
Definition send_invoice (s : Store N) (self : Invoice) : option bool :=
  match booking_heap s !! _booking self with
  | None => None
  | Some bk =>
      match guest_heap s !! _guest bk with
      | None => None
      | Some _ => Some true
      end
  end.

Definition generate_pdf (self : Invoice) : string :=
  "invoice_" +:+ _invoice_id self +:+ ".pdf".

End Invoice.
Arguments Item : clear implicits.
Arguments Invoice : clear implicits.
End invoice.

(** *** payment.py *)

Module payment.

Definition PAYMENT_METHODS : list string :=
  ["Credit Card"; "Debit Card"; "Cash"; "Mobile Wallet"; "Bank Transfer"].

Section Payment.
Context {N : Type} `{Number N} `{Money N}.

Record Payment := mkPayment {
  _payment_id : string;
  _booking : booking_ref;
  _amount : N;
  _payment_method : string;
  _transaction_date : option datetime;
  _is_successful : bool;
  _payment_details : list (string * string)
}.

(** [payment_method not in self.PAYMENT_METHODS] *)
Fixpoint listed (method : string) (methods : list string) : bool :=
  match methods with
  | [] => false
  | m :: rest => if String.eqb m method then true else listed method rest
  end.

(** [Payment.__init__]; [payment_details or {}] *)
Definition Payment_init (payment_id : string) (booking : booking_ref) (amount : N)
    (payment_method : string) (payment_details : option (list (string * string)))
    : PyException + Payment :=
  if negb (listed payment_method PAYMENT_METHODS) then
    inl (PyValueError ("Invalid payment method. Choose from: "
                         +:+ String.concat ", " PAYMENT_METHODS))
  else
    inr (mkPayment payment_id booking amount payment_method None false
           (default [] payment_details)).

Definition process_payment (now : datetime) (self : Payment) : reply Payment bool :=
  Replied true
    (mkPayment (_payment_id self) (_booking self) (_amount self) (_payment_method self)
               (Some now) true (_payment_details self)).

(** [generate_invoice]; [self_ref] is the reference the invoice keeps. *)
Definition generate_invoice (s : Store N) (now : datetime) (self_ref : payment_ref)
    (self : Payment) : option (PyException + invoice.Invoice N) :=
  if negb (_is_successful self) then
    Some (inl (PyValueError "Cannot generate invoice for an unsuccessful payment"))
  else
    match invoice.Invoice_init s now (_payment_id self) (_booking self) self_ref with
    | None => None
    | Some inv => Some (inr inv)
    end.

Definition apply_discount (discount_amount : N) (self : Payment) : reply Payment N :=
  if nnegative discount_amount then
    Threw (PyValueError "Discount amount cannot be negative") self
  else if nless (_amount self) discount_amount then
    Threw (PyValueError "Discount amount cannot exceed payment amount") self
  else
    let amount := nsub (_amount self) discount_amount in
    Replied amount
      (mkPayment (_payment_id self) (_booking self) amount (_payment_method self)
                 (_transaction_date self) (_is_successful self) (_payment_details self)).

(** A discount attempt whose error, if any, is caught by the caller. *)
Definition try_discount (self : Payment) (discount_amount : N) : Payment :=
  object_after (apply_discount discount_amount self).

End Payment.
Arguments Payment : clear implicits.
End payment.

(** *** loyalty_program.py *)

Module loyalty_program.

Record LoyaltyProgram := mkLoyaltyProgram {
  _member_id : Z;
  _points : Z;
  _tier : string;
  _guest : guest_ref
}.

(** The [dict], in the order it is written. *)
Definition TIER_THRESHOLDS : list (string * Z) :=
  [("Bronze", 0); ("Silver", 1000); ("Gold", 5000); ("Platinum", 10000)].

(** [sorted(..., key=lambda x: x[1], reverse=True)]: by threshold, largest
    first, equal thresholds in their original order. *)
Fixpoint insert_by_threshold (x : string * Z) (l : list (string * Z))
    : list (string * Z) :=
  match l with
  | [] => [x]
  | y :: rest =>
      if snd y <? snd x then x :: y :: rest else y :: insert_by_threshold x rest
  end.

Definition sorted_by_threshold (l : list (string * Z)) : list (string * Z) :=
  fold_left (fun acc x => insert_by_threshold x acc) l [].

(** [LoyaltyProgram.__init__] *)
Definition LoyaltyProgram_init (member_id : Z) (guest : guest_ref) : LoyaltyProgram :=
  mkLoyaltyProgram member_id 0 "Bronze" guest.

(** The loop of [_update_tier]: the first tier whose threshold the points
    reach, where the loop breaks. *)
Fixpoint first_reached (points : Z) (tiers : list (string * Z)) : option string :=
  match tiers with
  | [] => None
  | (tier, threshold) :: rest =>
      if points >=? threshold then Some tier else first_reached points rest
  end.

Definition _update_tier (self : LoyaltyProgram) : LoyaltyProgram :=
  match first_reached (_points self) (sorted_by_threshold TIER_THRESHOLDS) with
  | Some tier =>
      if negb (String.eqb (_tier self) tier)
      then mkLoyaltyProgram (_member_id self) (_points self) tier (_guest self)
      else self
  | None => self
  end.

Definition set_points (self : LoyaltyProgram) (points : Z) : LoyaltyProgram :=
  mkLoyaltyProgram (_member_id self) points (_tier self) (_guest self).

Definition earn_points (stay_value : number) (self : LoyaltyProgram)
    : reply LoyaltyProgram Z :=
  match py_int stay_value with
  | inl e => Threw e self
  | inr points_earned =>
      Replied points_earned (_update_tier (set_points self (_points self + points_earned)))
  end.

(** [points_to_redeem * 0.10] converts the [int] to a [float] first. *)
Definition redeem_points (points_to_redeem : Z) (self : LoyaltyProgram)
    : reply LoyaltyProgram float :=
  if points_to_redeem >? _points self then
    Threw (PyValueError "Insufficient points for redemption") self
  else
    match float_of_py_int points_to_redeem with
    | inl e => Threw e self
    | inr p =>
        let redemption_value := PrimFloat.mul p 0x1.999999999999ap-4%float in
        Replied redemption_value
          (_update_tier (set_points self (_points self - points_to_redeem)))
    end.

Definition check_balance (self : LoyaltyProgram) : Z := _points self.

(** The tier of the highest threshold a balance reaches. *)
Definition tier_reached (points : Z) : string :=
  if 10000 <=? points then "Platinum"
  else if 5000 <=? points then "Gold"
  else if 1000 <=? points then "Silver"
  else "Bronze".

(** A balance that is not negative carries the tier it reaches. *)
Definition tier_current (self : LoyaltyProgram) : Prop :=
  0 <= _points self -> _tier self = tier_reached (_points self).

(** The calls that write, and a member's history: each call in turn, an
    error caught by the caller. *)
Inductive call :=
  | Earn (stay_value : number)
  | Redeem (points_to_redeem : Z).

Definition perform (self : LoyaltyProgram) (c : call) : LoyaltyProgram :=
  match c with
  | Earn stay_value => object_after (earn_points stay_value self)
  | Redeem points_to_redeem => object_after (redeem_points points_to_redeem self)
  end.

Definition history (calls : list call) (self : LoyaltyProgram) : LoyaltyProgram :=
  fold_left perform calls self.

(** The call earns a stay value whose [int] is below zero. *)
Definition earns_negative (c : call) : bool :=
  match c with
  | Earn stay_value =>
      match py_int stay_value with
      | inr points_earned => points_earned <? 0
      | inl _ => false
      end
  | Redeem _ => false
  end.

End loyalty_program.

(** *** guest_service.py *)

Module guest_service.

Inductive ServiceType :=
  | HOUSEKEEPING | ROOM_SERVICE | MAINTENANCE | TRANSPORTATION
  | CONCIERGE | WAKE_UP_CALL | LAUNDRY.

Inductive ServiceStatus := REQUESTED | ASSIGNED | IN_PROGRESS | COMPLETED | CANCELED.

Definition ServiceStatus_eqb (a b : ServiceStatus) : bool :=
  match a, b with
  | REQUESTED, REQUESTED | ASSIGNED, ASSIGNED | IN_PROGRESS, IN_PROGRESS
  | COMPLETED, COMPLETED | CANCELED, CANCELED => true
  | _, _ => false
  end.

Record GuestService := mkGuestService {
  _service_id : string;
  _guest : guest_ref;
  _room_number : Z;
  _service_type : ServiceType;
  _description : string;
  _request_time : datetime;
  _status : ServiceStatus;
  _assigned_staff : option string;
  _completion_time : option datetime
}.

(** [GuestService.__init__]; the [isinstance] tests of the constructor and
    of [update_status] hold by typing. *)
Definition GuestService_init (service_id : string) (now : datetime) (guest : guest_ref)
    (room_number : Z) (service_type : ServiceType) (description : string)
    : GuestService :=
  mkGuestService service_id guest room_number service_type description now
                 REQUESTED None None.

Definition set_status (self : GuestService) (v : ServiceStatus) : GuestService :=
  mkGuestService (_service_id self) (_guest self) (_room_number self) (_service_type self)
                 (_description self) (_request_time self) v
                 (_assigned_staff self) (_completion_time self).

Definition set_completion_time (self : GuestService) (v : option datetime)
    : GuestService :=
  mkGuestService (_service_id self) (_guest self) (_room_number self) (_service_type self)
                 (_description self) (_request_time self) (_status self)
                 (_assigned_staff self) v.

Definition set_assigned_staff (self : GuestService) (v : option string) : GuestService :=
  mkGuestService (_service_id self) (_guest self) (_room_number self) (_service_type self)
                 (_description self) (_request_time self) (_status self)
                 v (_completion_time self).

(** [now] is read only on the way to COMPLETED. *)
Definition update_status (now : datetime) (new_status : ServiceStatus)
    (self : GuestService) : bool * GuestService :=
  let self := set_status self new_status in
  if ServiceStatus_eqb new_status COMPLETED
  then (true, set_completion_time self (Some now))
  else (true, self).

Definition assign_staff (now : datetime) (staff_name : string) (self : GuestService)
    : bool * GuestService :=
  let self := set_assigned_staff self (Some staff_name) in
  let '(_, self) := update_status now ASSIGNED self in
  (true, self).

Definition complete_service (now : datetime) (self : GuestService)
    : bool * GuestService :=
  if ServiceStatus_eqb (_status self) COMPLETED then (false, self)
  else update_status now COMPLETED self.

Definition cancel_service (now : datetime) (self : GuestService)
    : bool * GuestService :=
  if ServiceStatus_eqb (_status self) COMPLETED then (false, self)
  else update_status now CANCELED self.

(** The calls that write, each with the clock at the time of the call. *)
Inductive call :=
  | UpdateStatus (new_status : ServiceStatus)
  | AssignStaff (staff_name : string)
  | CompleteService
  | CancelService.

Definition perform (self : GuestService) (c : datetime * call) : GuestService :=
  match c with
  | (now, UpdateStatus new_status) => snd (update_status now new_status self)
  | (now, AssignStaff staff_name) => snd (assign_staff now staff_name self)
  | (now, CompleteService) => snd (complete_service now self)
  | (now, CancelService) => snd (cancel_service now self)
  end.

Definition history (calls : list (datetime * call)) (self : GuestService)
    : GuestService :=
  fold_left perform calls self.

End guest_service.

(** *** feedback.py *)

Module feedback.

(** [_categories] is a [dict]; the list keeps its order of insertion. *)
Record Feedback := mkFeedback {
  _feedback_id : string;
  _guest : guest_ref;
  _booking : booking_ref;
  _rating : Z;
  _comment : string;
  _submission_date : datetime;
  _categories : list (string * Z)
}.

Definition invalid_rating (rating : Z) : bool := (rating <? 1) || (rating >? 5).

(** [Feedback.__init__]; [isinstance(rating, int)] holds by typing. *)
Definition Feedback_init (feedback_id : string) (now : datetime) (guest : guest_ref)
    (booking : booking_ref) (rating : Z) (comment : string) : PyException + Feedback :=
  if invalid_rating rating then
    inl (PyValueError "Rating must be an integer between 1 and 5")
  else
    inr (mkFeedback feedback_id guest booking rating comment now
           [("cleanliness", 0); ("comfort", 0); ("staff", 0); ("value", 0);
            ("location", 0)]).

(** [category in self._categories] *)
Fixpoint has_key (category : string) (d : list (string * Z)) : bool :=
  match d with
  | [] => false
  | (k, _) :: rest => if String.eqb k category then true else has_key category rest
  end.

(** [self._categories[category] = rating] on a key that is there. *)
Fixpoint set_key (category : string) (rating : Z) (d : list (string * Z))
    : list (string * Z) :=
  match d with
  | [] => []
  | (k, v) :: rest =>
      if String.eqb k category then (k, rating) :: rest
      else (k, v) :: set_key category rating rest
  end.

Definition set_categories (self : Feedback) (d : list (string * Z)) : Feedback :=
  mkFeedback (_feedback_id self) (_guest self) (_booking self) (_rating self)
             (_comment self) (_submission_date self) d.

Definition set_rating (self : Feedback) (v : Z) : Feedback :=
  mkFeedback (_feedback_id self) (_guest self) (_booking self) v
             (_comment self) (_submission_date self) (_categories self).

Definition rate_category (category : string) (rating : Z) (self : Feedback)
    : reply Feedback bool :=
  if negb (has_key category (_categories self)) then
    Threw (PyValueError ("Invalid category. Choose from: "
                           +:+ String.concat ", " (map fst (_categories self)))) self
  else if invalid_rating rating then
    Threw (PyValueError "Rating must be an integer between 1 and 5") self
  else
    Replied true (set_categories self (set_key category rating (_categories self))).

(** [round(total_rating / len(self._categories))] *)
Definition average_rating (self : Feedback) : PyException + Z :=
  let total_rating := fold_left Z.add (map snd (_categories self)) 0 in
  match true_divide total_rating (Z.of_nat (length (_categories self))) with
  | inl e => inl e
  | inr mean => py_round mean
  end.

Definition rate_experience (cleanliness comfort staff value location : Z)
    (self : Feedback) : reply Feedback bool :=
  and_then (rate_category "cleanliness" cleanliness self) (fun _ self =>
  and_then (rate_category "comfort" comfort self) (fun _ self =>
  and_then (rate_category "staff" staff self) (fun _ self =>
  and_then (rate_category "value" value self) (fun _ self =>
  and_then (rate_category "location" location self) (fun _ self =>
  match average_rating self with
  | inl e => Threw e self
  | inr avg_rating => Replied true (set_rating self avg_rating)
  end))))).

(** The [comment] setter. *)
Definition comment_setter (value : string) (self : Feedback) : Feedback :=
  mkFeedback (_feedback_id self) (_guest self) (_booking self) (_rating self)
             value (_submission_date self) (_categories self).

(** The calls that write, an error caught by the caller. *)
Inductive call :=
  | RateCategory (category : string) (rating : Z)
  | RateExperience (cleanliness comfort staff value location : Z)
  | SetComment (value : string).

Definition perform (self : Feedback) (c : call) : Feedback :=
  match c with
  | RateCategory category rating => object_after (rate_category category rating self)
  | RateExperience cleanliness comfort staff value location =>
      object_after (rate_experience cleanliness comfort staff value location self)
  | SetComment value => comment_setter value self
  end.

Definition history (calls : list call) (self : Feedback) : Feedback :=
  fold_left perform calls self.

(** What every call keeps of a feedback: an overall rating from 1 to 5,
    the five categories of the constructor, each with 0 or a rating from 1
    to 5. *)
Definition feedback_ok (self : Feedback) : Prop :=
  1 <= _rating self <= 5 /\
  map fst (_categories self) = ["cleanliness"; "comfort"; "staff"; "value"; "location"] /\
  Forall (fun v => 0 <= v <= 5) (map snd (_categories self)).

End feedback.

(** ** The availability check *)

Section RoomProperties.
Context {N : Type} `{Number N}.

Lemma overlaps_spec ci co st en :
  overlaps ci co (st, en) = true <-> st < co /\ en > ci.
Proof.
  unfold overlaps. rewrite andb_true_iff, Z.ltb_lt, Z.gtb_gt. lia.
Qed.

Lemma scan_bookings_false ci co l :
  scan_bookings ci co l = false <-> overlapping ci co l.
Proof.
  unfold overlapping. induction l as [| [st en] rest IH]; cbn [scan_bookings].
  - split; [discriminate |]. intros (st & en & Hin & _).
    apply elem_of_nil in Hin. contradiction.
  - destruct (overlaps ci co (st, en)) eqn:Hov.
    + split; [| reflexivity]. intros _. exists st, en.
      apply overlaps_spec in Hov. split; [apply elem_of_cons; left; reflexivity | exact Hov].
    + rewrite IH. split.
      * intros (st' & en' & Hin & Hlt). exists st', en'.
        split; [apply elem_of_cons; right; exact Hin | exact Hlt].
      * intros (st' & en' & Hin & Hlt). apply elem_of_cons in Hin as [Heq | Hin].
        -- inversion Heq; subst. apply overlaps_spec in Hlt. congruence.
        -- exists st', en'. split; assumption.
Qed.

Lemma scan_bookings_true ci co l :
  scan_bookings ci co l = true <-> ~ overlapping ci co l.
Proof.
  rewrite <- scan_bookings_false. destruct (scan_bookings ci co l); split; congruence.
Qed.

Lemma check_availability_valid (s : Store N) r room ci co :
  room_heap s !! r = Some room -> ci < co ->
  check_availability r ci co s = Returns (scan_bookings ci co (_bookings room)) s.
Proof.
  intros Hr Hlt. unfold check_availability, bind, get_room. rewrite Hr.
  destruct (Z.geb_spec ci co) as [Hge | _]; [lia | reflexivity].
Qed.

Lemma check_availability_invalid (s : Store N) r room ci co :
  room_heap s !! r = Some room -> ci >= co ->
  check_availability r ci co s = Raises InvalidRangeError s.
Proof.
  intros Hr Hge. unfold check_availability, bind, get_room. rewrite Hr.
  destruct (Z.geb_spec ci co) as [_ | Hlt]; [reflexivity | lia].
Qed.

Lemma add_booking_overlapping (s : Store N) r room ci co :
  room_heap s !! r = Some room -> ci < co -> overlapping ci co (_bookings room) ->
  add_booking r ci co s = Raises (RoomUnavailableError (_room_number room)) s.
Proof.
  intros Hr Hlt Hov. unfold add_booking, bind.
  rewrite (check_availability_valid s r room) by assumption.
  unfold get_room. rewrite Hr.
  apply scan_bookings_false in Hov. rewrite Hov. reflexivity.
Qed.

Lemma add_booking_free (s : Store N) r room ci co :
  room_heap s !! r = Some room -> ci < co -> ~ overlapping ci co (_bookings room) ->
  add_booking r ci co s =
    Returns true (mkStore (<[r := set_bookings room (_bookings room ++ [(ci, co)])]> (room_heap s))
                          (booking_heap s) (guest_heap s)).
Proof.
  intros Hr Hlt Hov. unfold add_booking, bind.
  rewrite (check_availability_valid s r room) by assumption.
  unfold get_room. rewrite Hr.
  apply scan_bookings_true in Hov. rewrite Hov. reflexivity.
Qed.

Lemma add_booking_invalid (s : Store N) r room ci co :
  room_heap s !! r = Some room -> ci >= co ->
  add_booking r ci co s = Raises InvalidRangeError s.
Proof.
  intros Hr Hge. unfold add_booking, bind.
  rewrite (check_availability_invalid s r room) by assumption. reflexivity.
Qed.

Lemma add_room_invalid (s : Store N) b bk r room :
  booking_heap s !! b = Some bk -> room_heap s !! r = Some room ->
  _check_in_date bk >= _check_out_date bk ->
  add_room b r s = Raises InvalidRangeError s.
Proof.
  intros Hb Hr Hge. unfold add_room, bind at 1, get_booking. rewrite Hb.
  unfold bind at 1. rewrite (check_availability_invalid s r room) by assumption. reflexivity.
Qed.

Lemma add_room_overlapping (s : Store N) b bk r room :
  booking_heap s !! b = Some bk -> room_heap s !! r = Some room ->
  _check_in_date bk < _check_out_date bk ->
  overlapping (_check_in_date bk) (_check_out_date bk) (_bookings room) ->
  add_room b r s = Raises (RoomUnavailableError (_room_number room)) s.
Proof.
  intros Hb Hr Hlt Hov. unfold add_room, bind at 1, get_booking. rewrite Hb.
  unfold bind at 1. rewrite (check_availability_valid s r room) by assumption.
  unfold bind at 1, get_room. rewrite Hr.
  apply scan_bookings_false in Hov. rewrite Hov. reflexivity.
Qed.

(** C1: for check_in strictly before check_out, check_availability
    returns (leaving the store as it was) and its answer is false exactly
    when a stored period (st, en) has st < check_out and en > check_in; the
    answer is true on an empty list, true when every stored period ends at
    or before check_in or starts at or after check_out, and so true for a
    request that only touches the one stored period at either end. *)
Theorem check_availability_half_open (s : Store N) (r : room_ref) (room : Room N)
    (check_in_date check_out_date : datetime) :
  room_heap s !! r = Some room ->
  check_in_date < check_out_date ->
  exists available : bool,
    check_availability r check_in_date check_out_date s = Returns available s /\
    (available = false <->
       exists st en, (st, en) ∈ _bookings room /\ st < check_out_date /\ en > check_in_date) /\
    (_bookings room = [] -> available = true) /\
    (Forall (fun p => snd p <= check_in_date \/ check_out_date <= fst p) (_bookings room) ->
       available = true) /\
    (forall st en, _bookings room = [(st, en)] ->
       check_in_date = en \/ check_out_date = st -> available = true).
Proof.
  intros Hr Hlt. exists (scan_bookings check_in_date check_out_date (_bookings room)).
  split; [apply (check_availability_valid s r room); assumption |].
  split; [apply scan_bookings_false |].
  assert (Hall : Forall (fun p => snd p <= check_in_date \/ check_out_date <= fst p)
                   (_bookings room) ->
                 scan_bookings check_in_date check_out_date (_bookings room) = true).
  { intros Hall. apply scan_bookings_true. intros (st & en & Hin & Hov).
    rewrite Forall_forall in Hall. specialize (Hall (st, en) Hin). simpl in Hall. lia. }
  split; [| split].
  - intros Hnil. rewrite Hnil. reflexivity.
  - exact Hall.
  - intros st en Hone Htouch. apply Hall. rewrite Hone.
    constructor; [simpl; lia | constructor].
Qed.

(** C9: when check_in is not strictly before check_out,
    check_availability raises the invalid-range error, and so do
    add_booking and, for a booking with these dates, add_room; each leaves
    the store exactly as it was. *)
Theorem invalid_range_raises (s : Store N) (r : room_ref) (room : Room N)
    (check_in_date check_out_date : datetime) :
  room_heap s !! r = Some room ->
  check_in_date >= check_out_date ->
  check_availability r check_in_date check_out_date s = Raises InvalidRangeError s /\
  add_booking r check_in_date check_out_date s = Raises InvalidRangeError s /\
  (forall b bk, booking_heap s !! b = Some bk ->
     _check_in_date bk = check_in_date -> _check_out_date bk = check_out_date ->
     add_room b r s = Raises InvalidRangeError s).
Proof.
  intros Hr Hge. split; [| split].
  - apply (check_availability_invalid s r room); assumption.
  - apply (add_booking_invalid s r room); assumption.
  - intros b bk Hb Hci Hco. apply (add_room_invalid s b bk r room); [assumption .. | lia].
Qed.

(** C3: add_booking decides on the store it is called on: for a valid
    range that overlaps a stored period it raises the room-unavailable
    error and the store is untouched, and add_room of a booking with these
    dates does the same (room list and total cost included); when nothing
    overlaps, add_booking returns True and the room's list is the old one
    with the requested period appended, nothing else changed. *)
Theorem add_booking_checks_itself (s : Store N) (r : room_ref) (room : Room N)
    (check_in_date check_out_date : datetime) :
  room_heap s !! r = Some room ->
  check_in_date < check_out_date ->
  (overlapping check_in_date check_out_date (_bookings room) ->
     add_booking r check_in_date check_out_date s
       = Raises (RoomUnavailableError (_room_number room)) s /\
     forall b bk, booking_heap s !! b = Some bk ->
       _check_in_date bk = check_in_date -> _check_out_date bk = check_out_date ->
       add_room b r s = Raises (RoomUnavailableError (_room_number room)) s) /\
  (~ overlapping check_in_date check_out_date (_bookings room) ->
     add_booking r check_in_date check_out_date s
       = Returns true
           (mkStore (<[r := set_bookings room
                             (_bookings room ++ [(check_in_date, check_out_date)])]>
                       (room_heap s))
                    (booking_heap s) (guest_heap s))).
Proof.
  intros Hr Hlt. split.
  - intros Hov. split.
    + apply add_booking_overlapping; assumption.
    + intros b bk Hb Hci Hco.
      apply (add_room_overlapping s b bk r room); [assumption .. | lia | congruence].
  - intros Hfree. apply add_booking_free; assumption.
Qed.

End RoomProperties.

Lemma check_availability_half_open_witness :
  exists available : bool,
    check_availability 0%nat (day 8) (day 10) store_booked = Returns available store_booked /\
    (available = false <->
       exists st en, (st, en) ∈ _bookings room101 /\ st < day 10 /\ en > day 8) /\
    (_bookings room101 = [] -> available = true) /\
    (Forall (fun p => snd p <= day 8 \/ day 10 <= fst p) (_bookings room101) ->
       available = true) /\
    (forall st en, _bookings room101 = [(st, en)] ->
       day 8 = en \/ day 10 = st -> available = true).
Proof.
  apply (check_availability_half_open store_booked 0%nat room101 (day 8) (day 10)).
  - reflexivity.
  - vm_compute. reflexivity.
Defined.

Lemma invalid_range_raises_witness :
  check_availability 0%nat (day 8) (day 5) store_backwards
    = Raises InvalidRangeError store_backwards /\
  add_booking 0%nat (day 8) (day 5) store_backwards
    = Raises InvalidRangeError store_backwards /\
  add_room 1%nat 0%nat store_backwards = Raises InvalidRangeError store_backwards.
Proof.
  destruct (invalid_range_raises store_backwards 0%nat room101 (day 8) (day 5))
    as (Hcheck & Hadd & Hroom).
  - reflexivity.
  - vm_compute. discriminate.
  - split; [exact Hcheck | split; [exact Hadd |]].
    apply (Hroom 1%nat (Booking_init "b0000003" 0%nat (day 8) (day 5))); reflexivity.
Defined.

Lemma add_booking_checks_itself_witness :
  (add_booking 0%nat (day 5) (day 8) store_two_bookings
     = Raises (RoomUnavailableError 101) store_two_bookings /\
   add_room 1%nat 0%nat store_two_bookings
     = Raises (RoomUnavailableError 101) store_two_bookings) /\
  (~ overlapping (day 8) (day 10) (_bookings room101) ->
   add_booking 0%nat (day 8) (day 10) store_two_bookings
     = Returns true
         (mkStore (<[0%nat := set_bookings room101 (_bookings room101 ++ [(day 8, day 10)])]>
                     (room_heap store_two_bookings))
                  (booking_heap store_two_bookings) (guest_heap store_two_bookings))).
Proof.
  split.
  - destruct (add_booking_checks_itself store_two_bookings 0%nat room101 (day 5) (day 8))
      as [Hov _].
    + reflexivity.
    + vm_compute. reflexivity.
    + destruct Hov as [Hadd Hroom].
      * exists (day 5), (day 8). split; [apply elem_of_cons; left; reflexivity |].
        vm_compute. split; reflexivity.
      * split; [exact Hadd |].
        apply (Hroom 1%nat (Booking_init "b0000002" 0%nat (day 5) (day 8))); reflexivity.
  - apply (add_booking_checks_itself store_two_bookings 0%nat room101 (day 8) (day 10)).
    + reflexivity.
    + vm_compute. reflexivity.
Defined.

(** A stale read: room 101 answers available for days 8 to 10, the room
    is then reserved for days 9 to 12 by someone else, and the reserve call
    for days 8 to 10 refuses. *)
Example add_booking_after_stale_read :
  check_availability 0%nat (day 8) (day 10) store_booked = Returns true store_booked /\
  add_booking 0%nat (day 8) (day 10) (run [OpAddBooking 0%nat (day 9) (day 12)] store_booked)
    = Raises (RoomUnavailableError 101)
             (run [OpAddBooking 0%nat (day 9) (day 12)] store_booked).
Proof. split; vm_compute; reflexivity. Qed.

(** ** The booking lifecycle *)

Section BookingProperties.
Context {N : Type} `{Number N}.

Lemma bind_returns {A B} (m : M N A) (k : A -> M N B) s b s' :
  bind m k s = Returns b s' ->
  exists a s1, m s = Returns a s1 /\ k a s1 = Returns b s'.
Proof.
  unfold bind. destruct (m s) as [a s1 | e s1 |]; [| discriminate | discriminate].
  intros Hk. exists a, s1. split; [reflexivity | exact Hk].
Qed.

Lemma get_booking_returns b (bk : Booking N) s s' :
  get_booking b s = Returns bk s' -> s' = s /\ booking_heap s !! b = Some bk.
Proof.
  unfold get_booking. destruct (booking_heap s !! b); [| discriminate].
  intros Heq. inversion Heq; subst. split; reflexivity.
Qed.

Lemma get_room_returns r (room : Room N) s s' :
  get_room r s = Returns room s' -> s' = s /\ room_heap s !! r = Some room.
Proof.
  unfold get_room. destruct (room_heap s !! r); [| discriminate].
  intros Heq. inversion Heq; subst. split; reflexivity.
Qed.

Lemma create_booking_empty (s : Store N) b bk :
  booking_heap s !! b = Some bk -> _rooms bk = [] ->
  create_booking b s = Raises EmptyBookingError s.
Proof.
  intros Hb Hnil. unfold create_booking, bind, get_booking. rewrite Hb, Hnil. reflexivity.
Qed.

Lemma create_booking_rooms (s : Store N) b bk guest :
  booking_heap s !! b = Some bk -> _rooms bk <> [] ->
  guest_heap s !! _guest bk = Some guest ->
  create_booking b s =
    Returns true
      (mkStore (room_heap s)
               (<[b := set_is_confirmed bk true]> (booking_heap s))
               (<[_guest bk := set_reservations guest (_reservations guest ++ [b])]>
                  (guest_heap s))).
Proof.
  intros Hb Hrooms Hg. unfold create_booking, bind at 1, get_booking. rewrite Hb.
  destruct (_rooms bk) as [| r rest]; [congruence |].
  unfold add_reservation, bind, put_booking, get_guest, put_guest, ret. cbn.
  rewrite Hg. reflexivity.
Qed.


Lemma contains_spec r l : contains r l = true <-> r ∈ l.
Proof.
  induction l as [| x rest IH]; simpl.
  - rewrite elem_of_nil. split; [discriminate | contradiction].
  - rewrite elem_of_cons. destruct (Nat.eqb_spec x r) as [Heq | Hne].
    + split; [intros _; left; congruence | reflexivity].
    + rewrite IH. split; [intros Hin; right; exact Hin |].
      intros [Heq | Hin]; [congruence | exact Hin].
Qed.

Lemma cancel_booking_canceled (s : Store N) b bk :
  booking_heap s !! b = Some bk -> _is_canceled bk = true ->
  cancel_booking b s = Returns false s.
Proof.
  intros Hb Hc. unfold cancel_booking, bind, get_booking. rewrite Hb, Hc. reflexivity.
Qed.

Lemma cancel_booking_live (s : Store N) b bk :
  booking_heap s !! b = Some bk -> _is_canceled bk = false ->
  cancel_booking b s =
    Returns true
      (mkStore (room_heap s)
               (<[b := set_is_confirmed (set_is_canceled bk true) false]> (booking_heap s))
               (guest_heap s)).
Proof.
  intros Hb Hc. unfold cancel_booking, bind, get_booking. rewrite Hb, Hc. reflexivity.
Qed.

Lemma remove_room_absent (s : Store N) b bk r :
  booking_heap s !! b = Some bk -> r ∉ _rooms bk ->
  remove_room b r s = Returns false s.
Proof.
  intros Hb Hnot. unfold remove_room, bind, get_booking. rewrite Hb.
  destruct (contains r (_rooms bk)) eqn:Hc; [| reflexivity].
  apply contains_spec in Hc. contradiction.
Qed.

(** C7: cancel_booking on a booking already canceled returns False and
    the store is untouched; on any other booking it returns True and the
    only change is that booking's canceled flag set and confirmed flag
    cleared; remove_room of a room that is not in the booking's list
    returns False, raises nothing, and the store (room list and total cost
    included) is untouched. *)
Theorem already_satisfied_calls_are_noops (s : Store N) (b : booking_ref) (bk : Booking N) :
  booking_heap s !! b = Some bk ->
  (_is_canceled bk = true -> cancel_booking b s = Returns false s) /\
  (_is_canceled bk = false ->
     cancel_booking b s =
       Returns true
         (mkStore (room_heap s)
                  (<[b := mkBooking (_booking_id bk) (_guest bk) (_rooms bk)
                            (_check_in_date bk) (_check_out_date bk) (_total_cost bk)
                            false true]> (booking_heap s))
                  (guest_heap s))) /\
  (forall r, r ∉ _rooms bk -> remove_room b r s = Returns false s).
Proof.
  intros Hb. split; [| split].
  - apply cancel_booking_canceled; assumption.
  - intros Hc. rewrite (cancel_booking_live s b bk) by assumption. reflexivity.
  - intros r Hnot. apply (remove_room_absent s b bk); assumption.
Qed.


Lemma count_occ_snoc (l : list nat) x :
  count_occ Nat.eq_dec (l ++ [x]) x = S (count_occ Nat.eq_dec l x).
Proof.
  rewrite count_occ_app. simpl. destruct (Nat.eq_dec x x); [lia | congruence].
Qed.

(** C5 (amended): on a booking with at least one room, every call of
    create_booking returns True and appends one entry for the booking to
    the guest's reservation list, so the list holds one entry per
    successful call; when the booking was confirmed already the call is
    allowed, the entry is a second one for the same booking, and nothing
    but the guest's list changes. *)
Theorem create_booking_appends_on_every_call (s : Store N) (b : booking_ref)
    (bk : Booking N) (guest : Guest) :
  booking_heap s !! b = Some bk ->
  _rooms bk <> [] ->
  guest_heap s !! _guest bk = Some guest ->
  exists s' guest',
    create_booking b s = Returns true s' /\
    guest_heap s' !! _guest bk = Some guest' /\
    _reservations guest' = _reservations guest ++ [b] /\
    count_occ Nat.eq_dec (_reservations guest') b
      = S (count_occ Nat.eq_dec (_reservations guest) b) /\
    room_heap s' = room_heap s /\
    (_is_confirmed bk = true -> booking_heap s' = booking_heap s).
Proof.
  intros Hb Hrooms Hg.
  eexists. exists (set_reservations guest (_reservations guest ++ [b])).
  split; [apply create_booking_rooms; eassumption |].
  cbn. rewrite lookup_insert_eq. repeat split.
  - apply count_occ_snoc.
  - intros Hconf. apply insert_id. rewrite Hb. f_equal.
    destruct bk; cbn in *. subst. reflexivity.
Qed.

End BookingProperties.


Lemma already_satisfied_calls_are_noops_witness :
  cancel_booking 0%nat store_canceled = Returns false store_canceled /\
  remove_room 0%nat 1%nat store_canceled = Returns false store_canceled.
Proof.
  destruct (already_satisfied_calls_are_noops store_canceled 0%nat
              (mkBooking "b0000001" 0%nat [0%nat] (day 5) (day 8) 300 false true))
    as (Hcancel & _ & Hremove).
  - reflexivity.
  - split; [apply Hcancel; reflexivity |].
    apply Hremove. cbn. intros Hin. apply elem_of_cons in Hin as [Heq | Hin].
    + discriminate.
    + apply elem_of_nil in Hin. contradiction.
Defined.


(** The booking confirmed, canceled and confirmed again: both flags are
    set, and the status [__str__] prints is Canceled. *)
Example status_after_confirming_a_canceled_booking :
  (fun bk => (_is_confirmed bk, _is_canceled bk, status bk))
    <$> booking_heap (run [OpCreateBooking 0%nat] store_canceled) !! 0%nat
  = Some (true, true, Canceled).
Proof. reflexivity. Qed.

(** C5 as stated fails: after confirming the one booking of the store
    twice, the guest's list holds two entries for it, and the second call
    was not a no-op. *)
Lemma reconfirm_adds_a_second_entry :
  ~ one_entry_per_confirmed_booking (run [OpCreateBooking 0%nat] store_confirmed) /\
  create_booking 0%nat store_confirmed <> Returns true store_confirmed /\
  _reservations <$> guest_heap store_confirmed !! 0%nat = Some [0%nat] /\
  _reservations <$> guest_heap (run [OpCreateBooking 0%nat] store_confirmed) !! 0%nat
    = Some [0%nat; 0%nat].
Proof.
  split; [| split; [| split]].
  - intros Hone.
    specialize (Hone 0%nat (set_is_confirmed booking0 true)
                  (set_reservations guest0 [0%nat; 0%nat])).
    assert (Hcount : count_occ Nat.eq_dec [0%nat; 0%nat] 0%nat = 1%nat)
      by (apply Hone; reflexivity).
    vm_compute in Hcount. discriminate.
  - intros Heq.
    assert (Hg : _reservations <$> guest_heap (store_after store_confirmed
                   (create_booking 0%nat store_confirmed)) !! 0%nat = Some [0%nat])
      by (rewrite Heq; reflexivity).
    vm_compute in Hg. discriminate.
  - reflexivity.
  - reflexivity.
Qed.

Lemma create_booking_appends_on_every_call_witness :
  exists s' guest',
    create_booking 0%nat store_confirmed = Returns true s' /\
    guest_heap s' !! 0%nat = Some guest' /\
    _reservations guest' = [0%nat] ++ [0%nat] /\
    count_occ Nat.eq_dec (_reservations guest') 0%nat
      = S (count_occ Nat.eq_dec [0%nat] 0%nat) /\
    room_heap s' = room_heap store_confirmed /\
    (true = true -> booking_heap s' = booking_heap store_confirmed).
Proof.
  apply (create_booking_appends_on_every_call store_confirmed 0%nat
           (set_is_confirmed booking0 true) (set_reservations guest0 [0%nat])).
  - reflexivity.
  - discriminate.
  - reflexivity.
Defined.

(** ** The total cost *)

#[export] Instance Z_ExactNumber : ExactNumber Z.
Proof.
  split.
  - intros k. reflexivity.
  - intros a b k. cbn. lia.
Qed.

Section CostProperties.
Context {N : Type} `{Number N}.

Lemma attached_prices_functional (s : Store N) rooms prices prices' :
  attached_prices s rooms prices -> attached_prices s rooms prices' -> prices = prices'.
Proof.
  intros Hatt. revert prices'.
  induction Hatt as [| r p rooms prices (room & Hr & Hp) _ IH]; intros prices' Hatt'.
  - inversion Hatt'. reflexivity.
  - inversion Hatt' as [| r' p' rooms' rest' (room' & Hr' & Hp') Hrest]; subst.
    rewrite Hr in Hr'. inversion Hr'; subst. f_equal. apply IH. exact Hrest.
Qed.

Lemma sum_charges_attached nights (s : Store N) rooms prices :
  attached_prices s rooms prices ->
  forall acc,
    sum_charges nights rooms acc s
      = Returns (fold_left nadd (map (fun p => nscale p nights) prices) acc) s.
Proof.
  induction 1 as [| r p rooms prices (room & Hr & Hp) _ IH]; intros acc.
  - reflexivity.
  - cbn [sum_charges]. unfold bind, get_room. rewrite Hr, IH, Hp. reflexivity.
Qed.

Lemma sum_charges_returns nights rooms :
  forall acc (s : Store N) total s',
    sum_charges nights rooms acc s = Returns total s' ->
    s' = s /\
    exists prices, attached_prices s rooms prices /\
      total = fold_left nadd (map (fun p => nscale p nights) prices) acc.
Proof.
  induction rooms as [| r rest IH]; intros acc s total s' Hsum.
  - inversion Hsum; subst. split; [reflexivity |]. exists []. split; [constructor | reflexivity].
  - cbn [sum_charges] in Hsum. apply bind_returns in Hsum as (room & s1 & Hget & Hrest).
    apply get_room_returns in Hget as [-> Hr].
    apply IH in Hrest as (-> & prices & Hatt & ->).
    split; [reflexivity |]. exists (_price_per_night room :: prices). split.
    + constructor; [exists room; split; [exact Hr | reflexivity] | exact Hatt].
    + reflexivity.
Qed.

Lemma fold_scaled `{!ExactNumber N} nights (prices : list N) :
  forall acc,
    fold_left nadd (map (fun p => nscale p nights) prices) (nscale acc nights)
      = nscale (fold_left nadd prices acc) nights.
Proof.
  induction prices as [| p rest IH]; intros acc; [reflexivity |].
  cbn [map fold_left]. rewrite <- nscale_add. apply IH.
Qed.

(** With exact arithmetic the two formulas agree. *)
Lemma charges_exact `{!ExactNumber N} nights (prices : list N) :
  charges nights prices = spec_total nights prices.
Proof.
  unfold charges, spec_total. rewrite <- (nscale_zero nights) at 1. apply fold_scaled.
Qed.

Lemma _update_total_cost_attached (s : Store N) b bk prices :
  booking_heap s !! b = Some bk ->
  attached_prices s (_rooms bk) prices ->
  _update_total_cost b s =
    Returns tt (mkStore (room_heap s)
                  (<[b := set_total_cost bk (charges (nights_of bk) prices)]> (booking_heap s))
                  (guest_heap s)).
Proof.
  intros Hb Hatt. unfold _update_total_cost, bind at 1, get_booking. rewrite Hb.
  unfold bind. rewrite (sum_charges_attached _ s _ prices Hatt). reflexivity.
Qed.

Lemma _update_total_cost_returns (s s' : Store N) b u :
  _update_total_cost b s = Returns u s' ->
  exists bk prices,
    booking_heap s !! b = Some bk /\
    attached_prices s (_rooms bk) prices /\
    s' = mkStore (room_heap s)
           (<[b := set_total_cost bk (charges (nights_of bk) prices)]> (booking_heap s))
           (guest_heap s).
Proof.
  intros Hup. unfold _update_total_cost in Hup.
  apply bind_returns in Hup as (bk & s1 & Hget & Hup).
  apply get_booking_returns in Hget as [-> Hb].
  apply bind_returns in Hup as (total & s2 & Hsum & Hput).
  apply sum_charges_returns in Hsum as (-> & prices & Hatt & ->).
  exists bk, prices. split; [exact Hb | split; [exact Hatt |]].
  unfold put_booking in Hput. inversion Hput. reflexivity.
Qed.

Lemma _update_total_cost_up_to_date (s s' : Store N) b u :
  _update_total_cost b s = Returns u s' -> up_to_date s' b.
Proof.
  intros Hup. apply _update_total_cost_returns in Hup as (bk & prices & Hb & Hatt & ->).
  exists (set_total_cost bk (charges (nights_of bk) prices)).
  split; [cbn; apply lookup_insert_eq |].
  split.
  - exists prices. split; [exact Hatt | reflexivity].
  - intros Hexact. exists prices. split; [exact Hatt |]. cbn. apply charges_exact.
Qed.

Lemma up_to_date_ret {A} (s1 s' : Store N) b (v w : A) :
  up_to_date s1 b -> ret v s1 = Returns w s' -> up_to_date s' b.
Proof. intros Hup Hret. inversion Hret; subst. exact Hup. Qed.

Lemma add_room_up_to_date (s s' : Store N) b r v :
  add_room b r s = Returns v s' -> up_to_date s' b.
Proof.
  intros Hadd. unfold add_room in Hadd.
  apply bind_returns in Hadd as (bk & s1 & _ & Hadd).
  apply bind_returns in Hadd as (available & s2 & _ & Hadd).
  apply bind_returns in Hadd as (room & s3 & _ & Hadd).
  destruct (negb available); [discriminate |].
  apply bind_returns in Hadd as (v1 & s4 & _ & Hadd).
  apply bind_returns in Hadd as (bk' & s5 & _ & Hadd).
  apply bind_returns in Hadd as (u1 & s6 & _ & Hadd).
  apply bind_returns in Hadd as (u2 & s7 & Hup & Hret).
  apply _update_total_cost_up_to_date in Hup. exact (up_to_date_ret _ _ _ _ _ Hup Hret).
Qed.

Lemma remove_room_up_to_date (s s' : Store N) b r :
  remove_room b r s = Returns true s' -> up_to_date s' b.
Proof.
  intros Hrem. unfold remove_room in Hrem.
  apply bind_returns in Hrem as (bk & s1 & _ & Hrem).
  destruct (contains r (_rooms bk)); [| discriminate].
  apply bind_returns in Hrem as (u1 & s2 & _ & Hrem).
  apply bind_returns in Hrem as (u2 & s3 & Hup & Hret).
  apply _update_total_cost_up_to_date in Hup. exact (up_to_date_ret _ _ _ _ _ Hup Hret).
Qed.

Lemma calculate_total_returns (s s' : Store N) b total :
  calculate_total b s = Returns total s' ->
  up_to_date s' b /\
  _total_cost <$> booking_heap s' !! b = Some total /\
  calculate_total b s' = Returns total s'.
Proof.
  intros Hcalc. unfold calculate_total in Hcalc.
  apply bind_returns in Hcalc as (u & s1 & Hup & Hcalc).
  apply bind_returns in Hcalc as (bk1 & s2 & Hget & Hret).
  apply get_booking_returns in Hget as [-> Hb1]. inversion Hret; subst.
  split; [apply (_update_total_cost_up_to_date s s' b u Hup) |].
  split; [rewrite Hb1; reflexivity |].
  apply _update_total_cost_returns in Hup as (bk & prices & Hb & Hatt & ->).
  cbn in Hb1. rewrite lookup_insert_eq in Hb1. inversion Hb1; subst bk1. clear Hb1.
  unfold calculate_total, bind at 1.
  erewrite _update_total_cost_attached;
    [| cbn; apply lookup_insert_eq | cbn; exact Hatt].
  cbn. unfold bind, get_booking. cbn.
  rewrite insert_insert_eq, lookup_insert_eq. reflexivity.
Qed.

Lemma calculate_total_attached (s : Store N) b bk prices :
  booking_heap s !! b = Some bk ->
  attached_prices s (_rooms bk) prices ->
  calculate_total b s =
    Returns (charges (nights_of bk) prices)
      (mkStore (room_heap s)
         (<[b := set_total_cost bk (charges (nights_of bk) prices)]> (booking_heap s))
         (guest_heap s)).
Proof.
  intros Hb Hatt. unfold calculate_total, bind at 1.
  rewrite (_update_total_cost_attached s b bk prices Hb Hatt).
  unfold bind, get_booking. cbn. rewrite lookup_insert_eq. reflexivity.
Qed.

Lemma attached_prices_put_room (s : Store N) r room room' rooms prices :
  room_heap s !! r = Some room ->
  _price_per_night room' = _price_per_night room ->
  attached_prices s rooms prices ->
  attached_prices (mkStore (<[r := room']> (room_heap s)) (booking_heap s) (guest_heap s))
                  rooms prices.
Proof.
  intros Hr Hprice Hatt. unfold attached_prices in *. cbn.
  eapply Forall2_impl; [exact Hatt |]. cbn.
  intros r0 p (room0 & Hr0 & Hp). destruct (decide (r = r0)) as [<- | Hne].
  - exists room'. rewrite lookup_insert_eq. split; [reflexivity | congruence].
  - exists room0. rewrite lookup_insert_ne by exact Hne. split; assumption.
Qed.

Lemma attached_prices_remove_first (s : Store N) r rooms prices :
  attached_prices s rooms prices ->
  exists prices', attached_prices s (remove_first r rooms) prices'.
Proof.
  induction 1 as [| r0 p rooms prices Hr0 Hrest (prices' & IH)]; cbn.
  - exists []. constructor.
  - destruct (Nat.eqb r0 r).
    + exists prices. exact Hrest.
    + exists (p :: prices'). constructor; assumption.
Qed.

Lemma add_room_free (s : Store N) b bk r room prices :
  booking_heap s !! b = Some bk ->
  room_heap s !! r = Some room ->
  _check_in_date bk < _check_out_date bk ->
  ~ overlapping (_check_in_date bk) (_check_out_date bk) (_bookings room) ->
  attached_prices s (_rooms bk) prices ->
  add_room b r s =
    Returns true
      (mkStore
         (<[r := set_bookings room
                   (_bookings room ++ [(_check_in_date bk, _check_out_date bk)])]>
            (room_heap s))
         (<[b := set_total_cost (set_rooms bk (_rooms bk ++ [r]))
                   (charges (nights_of bk) (prices ++ [_price_per_night room]))]>
            (booking_heap s))
         (guest_heap s)).
Proof.
  intros Hb Hr Hlt Hfree Hatt. unfold add_room, bind at 1, get_booking. rewrite Hb.
  unfold bind at 1. rewrite (check_availability_valid s r room) by assumption.
  unfold bind at 1, get_room. rewrite Hr.
  rewrite (proj2 (scan_bookings_true _ _ _) Hfree). cbn [negb].
  unfold bind at 1. rewrite (add_booking_free s r room) by assumption.
  unfold bind at 1. cbn. rewrite Hb.
  cbn [room_heap booking_heap guest_heap]. unfold bind at 1.
  erewrite (_update_total_cost_attached _ b (set_rooms bk (_rooms bk ++ [r]))
              (prices ++ [_price_per_night room])).
  - cbn. rewrite insert_insert_eq. reflexivity.
  - cbn. apply lookup_insert_eq.
  - cbn. apply Forall2_app.
    + apply (attached_prices_put_room s r room); [exact Hr | reflexivity | exact Hatt].
    + constructor; [| constructor]. cbn. rewrite lookup_insert_eq.
      eexists. split; reflexivity.
Qed.

Lemma remove_room_present (s : Store N) b bk r prices :
  booking_heap s !! b = Some bk ->
  r ∈ _rooms bk ->
  attached_prices s (_rooms bk) prices ->
  exists prices',
    attached_prices s (remove_first r (_rooms bk)) prices' /\
    remove_room b r s =
      Returns true
        (mkStore (room_heap s)
           (<[b := set_total_cost (set_rooms bk (remove_first r (_rooms bk)))
                     (charges (nights_of bk) prices')]> (booking_heap s))
           (guest_heap s)).
Proof.
  intros Hb Hin Hatt.
  destruct (attached_prices_remove_first s r _ _ Hatt) as (prices' & Hatt').
  exists prices'. split; [exact Hatt' |].
  unfold remove_room, bind at 1, get_booking. rewrite Hb.
  rewrite (proj2 (contains_spec r (_rooms bk)) Hin).
  unfold bind at 1, put_booking. cbn. unfold bind at 1.
  erewrite (_update_total_cost_attached _ b (set_rooms bk (remove_first r (_rooms bk)))
              prices').
  - cbn. rewrite insert_insert_eq. reflexivity.
  - cbn. apply lookup_insert_eq.
  - exact Hatt'.
Qed.

Lemma remove_room_false_unchanged (s s' : Store N) b r :
  remove_room b r s = Returns false s' -> s' = s.
Proof.
  intros Hrem. unfold remove_room in Hrem.
  apply bind_returns in Hrem as (bk & s1 & [-> _]%get_booking_returns & Hrem).
  destruct (contains r (_rooms bk)).
  - apply bind_returns in Hrem as (u1 & s2 & _ & Hrem).
    apply bind_returns in Hrem as (u2 & s3 & _ & Hret). discriminate.
  - inversion Hrem. reflexivity.
Qed.

(** C2 (amended): after an add_room call that returns, after a
    remove_room call that returns True and after a calculate_total call,
    the booking's total cost is the sum, over the rooms attached at that
    moment in list order, of nightly price times nights, with
    nights = (check_out - check_in).days; in exact arithmetic that is
    nights times the sum of the nightly prices.  A remove_room call that
    returns False leaves the store, total cost included, as it was.
    calculate_total returns the stored total, and a second call right
    after returns the same value and leaves the same store.  The three
    calls do return: calculate_total whenever the booking's rooms are in
    the store, add_room whenever in addition the room is free for the
    booking's valid range, remove_room whenever the room is in the
    booking's list. *)
Theorem total_cost_after_recomputation (s s' : Store N) (b : booking_ref) :
  (forall r v, add_room b r s = Returns v s' -> up_to_date s' b) /\
  (forall r, remove_room b r s = Returns true s' -> up_to_date s' b) /\
  (forall r, remove_room b r s = Returns false s' -> s' = s) /\
  (forall total, calculate_total b s = Returns total s' ->
     up_to_date s' b /\
     _total_cost <$> booking_heap s' !! b = Some total /\
     calculate_total b s' = Returns total s') /\
  (forall bk prices, booking_heap s !! b = Some bk ->
     attached_prices s (_rooms bk) prices ->
     (exists s1, calculate_total b s = Returns (charges (nights_of bk) prices) s1) /\
     (forall r room, room_heap s !! r = Some room ->
        _check_in_date bk < _check_out_date bk ->
        ~ overlapping (_check_in_date bk) (_check_out_date bk) (_bookings room) ->
        exists s1, add_room b r s = Returns true s1) /\
     (forall r, r ∈ _rooms bk -> exists s1, remove_room b r s = Returns true s1)).
Proof.
  split; [| split; [| split; [| split]]].
  - intros r v. apply add_room_up_to_date.
  - intros r. apply remove_room_up_to_date.
  - intros r. apply remove_room_false_unchanged.
  - intros total. apply calculate_total_returns.
  - intros bk prices Hb Hatt. split; [| split].
    + eexists. apply calculate_total_attached; assumption.
    + intros r room Hr Hlt Hfree. eexists. apply (add_room_free s b bk r room prices); assumption.
    + intros r Hin.
      destruct (remove_room_present s b bk r prices Hb Hin Hatt) as (prices' & _ & Hrem).
      eexists. exact Hrem.
Qed.

End CostProperties.

Lemma total_cost_after_recomputation_witness :
  exists bk,
    booking_heap (run [OpAddRoom 0%nat 1%nat] store_booked) !! 0%nat = Some bk /\
    cost_is spec_total (run [OpAddRoom 0%nat 1%nat] store_booked) bk /\
    _rooms bk = [0%nat; 1%nat] /\
    _total_cost bk = 3 * (100 + 150).
Proof.
  destruct (total_cost_after_recomputation store_booked
              (run [OpAddRoom 0%nat 1%nat] store_booked) 0%nat) as (Hadd & _).
  destruct (Hadd 1%nat true) as (bk & Hb & _ & Hexact).
  - vm_compute. reflexivity.
  - exists bk. split; [exact Hb |]. split; [apply Hexact, Z_ExactNumber |].
    assert (Hbk : Some bk = Some (mkBooking "b0000001" 0%nat [0%nat; 1%nat] (day 5) (day 8)
                                    750 false false))
      by (rewrite <- Hb; reflexivity).
    inversion Hbk. split; reflexivity.
Defined.

(** C2 as stated fails: room 101 is attached for three nights and then
    repriced from 100 to 200; remove_room of room 201, which is not
    attached, returns False and recomputes nothing, so right after that call
    the total cost is still 300 while nights times the sum of the current
    prices is 600. *)
Lemma absent_remove_room_leaves_stale_total :
  remove_room 0%nat 1%nat store_repriced = Returns false store_repriced /\
  booking_heap store_repriced !! 0%nat = Some booking0 /\
  attached_prices store_repriced (_rooms booking0) [200] /\
  _total_cost booking0 = 300 /\
  spec_total (nights_of booking0) [200] = 600 /\
  ~ cost_is spec_total store_repriced booking0.
Proof.
  assert (Hatt : attached_prices store_repriced (_rooms booking0) [200]).
  { constructor; [| constructor].
    exists (set_price_per_night room101 200). split; reflexivity. }
  split; [vm_compute; reflexivity |].
  split; [reflexivity |].
  split; [exact Hatt |].
  split; [reflexivity |].
  split; [reflexivity |].
  intros (prices & Hatt' & Htotal).
  rewrite <- (attached_prices_functional _ _ _ _ Hatt Hatt') in Htotal.
  vm_compute in Htotal. discriminate.
Qed.

(** With float prices the stored total and the specification's formula
    part in the last digit: rooms at 149.99 and 89.95 for three nights give
    719.82 as the code adds the charges up, and 719.8199999999999 as three
    times the sum of the prices. *)
Example float_total_differs_from_spec_formula :
  exists bk,
    booking_heap store_float !! 0%nat = Some bk /\
    attached_prices store_float (_rooms bk)
      [0x1.2bfae147ae148p+7%float; 0x1.67ccccccccccdp+6%float] /\
    nights_of bk = 3 /\
    _total_cost bk = 0x1.67e8f5c28f5c3p+9%float /\
    spec_total 3 [0x1.2bfae147ae148p+7%float; 0x1.67ccccccccccdp+6%float]
      = 0x1.67e8f5c28f5c2p+9%float /\
    _total_cost bk
      <> spec_total 3 [0x1.2bfae147ae148p+7%float; 0x1.67ccccccccccdp+6%float].
Proof.
  eexists. split; [vm_compute; reflexivity |].
  split.
  { constructor; [| constructor; [| constructor]]; eexists; split; vm_compute; reflexivity. }
  split; [reflexivity |].
  split; [reflexivity |].
  split; [vm_compute; reflexivity |].
  intros Heq.
  apply (f_equal (fun x => PrimFloat.eqb x 0x1.67e8f5c28f5c3p+9%float)) in Heq.
  vm_compute in Heq. discriminate.
Qed.

(** The scenarios of the test suite: 150 a night for 3 nights is 450, and
    rooms at 100 and 150 for 5 nights are 1250. *)
Example scenario_totals :
  _total_cost <$> booking_heap
      (run [ OpNewGuest 0%nat 2 "Jane Doe" "+1-555-987-6543" "jane.doe@email.com";
             OpNewRoom 0%nat 201 DOUBLE [] 150;
             OpNewBooking 0%nat "b0000001" 0%nat (day 5) (day 8);
             OpAddRoom 0%nat 0%nat ] empty_store) !! 0%nat = Some 450 /\
  _total_cost <$> booking_heap
      (run [ OpNewGuest 0%nat 2 "Jane Doe" "+1-555-987-6543" "jane.doe@email.com";
             OpNewRoom 0%nat 101 SINGLE [] 100;
             OpNewRoom 1%nat 201 DOUBLE [] 150;
             OpNewBooking 0%nat "b0000001" 0%nat (day 15) (day 20);
             OpAddRoom 0%nat 0%nat;
             OpAddRoom 0%nat 1%nat ] empty_store) !! 0%nat = Some 1250.
Proof. split; vm_compute; reflexivity. Qed.

(** ** The ledgers over whole runs *)

Create HintDb frame.

Section LedgerProperties.
Context {N : Type} `{Number N}.

#[local] Instance same_rooms_refl : Reflexive (@same_rooms N).
Proof. intros s. reflexivity. Qed.

#[local] Instance same_rooms_trans : Transitive (@same_rooms N).
Proof. intros s1 s2 s3 H12 H23. unfold same_rooms in *. congruence. Qed.

#[local] Instance ledgers_grow_refl : Reflexive (@ledgers_grow N).
Proof.
  intros s. split; [tauto |]. intros r room Hr. exists room. split; [exact Hr | reflexivity].
Qed.

#[local] Instance ledgers_grow_trans : Transitive (@ledgers_grow N).
Proof.
  intros s1 s2 s3 [Hok12 Hpre12] [Hok23 Hpre23]. split; [tauto |].
  intros r room Hr.
  destruct (Hpre12 r room Hr) as (room2 & Hr2 & Hp2).
  destruct (Hpre23 r room2 Hr2) as (room3 & Hr3 & Hp3).
  exists room3. split; [exact Hr3 | etrans; eassumption].
Qed.

Lemma same_rooms_grow (s s' : Store N) : same_rooms s s' -> ledgers_grow s s'.
Proof.
  unfold same_rooms. intros Heq. split.
  - unfold ledgers_ok. rewrite Heq. tauto.
  - intros r room Hr. exists room. rewrite Heq. split; [exact Hr | reflexivity].
Qed.

Lemma ensures_at {A} (R : Store N -> Store N -> Prop) (m : M N A) s :
  ensures R m -> R s (store_after s (m s)).
Proof. intros Hm. apply Hm. Qed.

Lemma ensures_weaken {A} (R R' : Store N -> Store N -> Prop) (m : M N A) :
  (forall s s', R s s' -> R' s s') -> ensures R m -> ensures R' m.
Proof. intros Himp Hm s. apply Himp, Hm. Qed.

Lemma ensures_bind {A B} (R : Store N -> Store N -> Prop)
    `{!Reflexive R} `{!Transitive R} (m : M N A) (k : A -> M N B) :
  ensures R m -> (forall a, ensures R (k a)) -> ensures R (bind m k).
Proof.
  intros Hm Hk s. specialize (Hm s). unfold bind.
  destruct (m s) as [a s1 | e s1 |]; cbn in *.
  - specialize (Hk a s1). destruct (k a s1) as [b s2 | e s2 |]; cbn in *.
    + etrans; eassumption.
    + etrans; eassumption.
    + reflexivity.
  - exact Hm.
  - reflexivity.
Qed.

Lemma ensures_ret {A} (R : Store N -> Store N -> Prop) `{!Reflexive R} (a : A) :
  ensures R (ret a).
Proof. intros s. cbn. reflexivity. Qed.

Lemma ensures_raise {A} (R : Store N -> Store N -> Prop) `{!Reflexive R} e :
  ensures R (raise e : M N A).
Proof. intros s. cbn. reflexivity. Qed.

Lemma ensures_get_room (R : Store N -> Store N -> Prop) `{!Reflexive R} r :
  ensures R (get_room r).
Proof. intros s. unfold get_room. destruct (room_heap s !! r); cbn; reflexivity. Qed.

Lemma ensures_get_booking (R : Store N -> Store N -> Prop) `{!Reflexive R} b :
  ensures R (get_booking b).
Proof. intros s. unfold get_booking. destruct (booking_heap s !! b); cbn; reflexivity. Qed.

Lemma ensures_get_guest (R : Store N -> Store N -> Prop) `{!Reflexive R} g :
  ensures R (get_guest g).
Proof. intros s. unfold get_guest. destruct (guest_heap s !! g); cbn; reflexivity. Qed.

Lemma same_rooms_put_booking b (bk : Booking N) : ensures same_rooms (put_booking b bk).
Proof. intros s. reflexivity. Qed.

Lemma same_rooms_put_guest g guest : ensures (@same_rooms N) (put_guest g guest).
Proof. intros s. reflexivity. Qed.

(** One step of a proof that a method leaves the room heap alone: split
    a sequence, take a branch, or close a primitive. *)
Ltac frame_step :=
  lazymatch goal with
  | |- ensures _ (bind _ _) => apply ensures_bind; [typeclasses eauto .. | | intros ?]
  | |- ensures _ (if ?c then _ else _) => destruct c
  | |- ensures _ (match ?l with [] => _ | _ :: _ => _ end) => destruct l
  | |- ensures _ (ret _) => apply ensures_ret; typeclasses eauto
  | |- ensures _ (raise _) => apply ensures_raise; typeclasses eauto
  | |- ensures _ (get_room _) => apply ensures_get_room; typeclasses eauto
  | |- ensures _ (get_booking _) => apply ensures_get_booking; typeclasses eauto
  | |- ensures _ (get_guest _) => apply ensures_get_guest; typeclasses eauto
  | |- ensures same_rooms (put_booking _ _) => apply same_rooms_put_booking
  | |- ensures same_rooms (put_guest _ _) => apply same_rooms_put_guest
  end.

(** Calls that write nothing satisfy every relation that holds of a
    store and itself. *)
Lemma ensures_sum_charges (R : Store N -> Store N -> Prop)
    `{!Reflexive R} `{!Transitive R} nights rooms :
  forall acc : N, ensures R (sum_charges nights rooms acc).
Proof.
  induction rooms as [| r rest IH]; intros acc; cbn [sum_charges].
  - frame_step.
  - frame_step; [frame_step | apply IH].
Qed.

Lemma ensures_check_availability (R : Store N -> Store N -> Prop)
    `{!Reflexive R} `{!Transitive R} r ci co :
  ensures R (check_availability r ci co).
Proof. unfold check_availability. repeat frame_step. Qed.

Lemma ensures_view_reservations (R : Store N -> Store N -> Prop)
    `{!Reflexive R} `{!Transitive R} g :
  ensures R (view_reservations g : M N _).
Proof. unfold view_reservations. repeat frame_step. Qed.

Lemma ensures_send_confirmation (R : Store N -> Store N -> Prop)
    `{!Reflexive R} `{!Transitive R} b :
  ensures R (send_confirmation b : M N _).
Proof. unfold send_confirmation. repeat frame_step. Qed.

Lemma same_rooms__update_total_cost b : ensures (@same_rooms N) (_update_total_cost b).
Proof.
  unfold _update_total_cost. frame_step; [frame_step |].
  frame_step; [apply ensures_sum_charges; typeclasses eauto | frame_step].
Qed.

Lemma same_rooms_check_availability r ci co :
  ensures (@same_rooms N) (check_availability r ci co).
Proof. apply ensures_check_availability; typeclasses eauto. Qed.

Lemma same_rooms_add_reservation g b : ensures (@same_rooms N) (add_reservation g b).
Proof. unfold add_reservation. repeat frame_step. Qed.

Lemma same_rooms_remove_room b r : ensures (@same_rooms N) (remove_room b r).
Proof.
  unfold remove_room. frame_step; [frame_step |]. frame_step; [| frame_step].
  frame_step; [frame_step |]. frame_step; [apply same_rooms__update_total_cost | frame_step].
Qed.

Lemma same_rooms_create_booking b : ensures (@same_rooms N) (create_booking b).
Proof.
  unfold create_booking. frame_step; [frame_step |]. frame_step; [frame_step |].
  frame_step; [frame_step |]. frame_step; [apply same_rooms_add_reservation | frame_step].
Qed.

Lemma same_rooms_cancel_booking b : ensures (@same_rooms N) (cancel_booking b).
Proof. unfold cancel_booking. repeat frame_step. Qed.

Lemma same_rooms_send_confirmation b : ensures (@same_rooms N) (send_confirmation b).
Proof. apply ensures_send_confirmation; typeclasses eauto. Qed.

Lemma same_rooms_calculate_total b : ensures (@same_rooms N) (calculate_total b).
Proof.
  unfold calculate_total. frame_step; [apply same_rooms__update_total_cost |].
  repeat frame_step.
Qed.

Lemma same_rooms_view_reservations g : ensures (@same_rooms N) (view_reservations g).
Proof. apply ensures_view_reservations; typeclasses eauto. Qed.

Lemma same_rooms_update_profile g n c e : ensures (@same_rooms N) (update_profile g n c e).
Proof. unfold update_profile. repeat frame_step. Qed.

Lemma same_rooms_set_loyalty_program g l :
  ensures (@same_rooms N) (set_loyalty_program g l).
Proof. unfold set_loyalty_program. repeat frame_step. Qed.

Lemma same_rooms_name_setter g v : ensures (@same_rooms N) (name_setter g v).
Proof. unfold name_setter. repeat frame_step. Qed.

Lemma same_rooms_contact_setter g v : ensures (@same_rooms N) (contact_setter g v).
Proof. unfold contact_setter. repeat frame_step. Qed.

Lemma same_rooms_email_setter g v : ensures (@same_rooms N) (email_setter g v).
Proof. unfold email_setter. repeat frame_step. Qed.

Lemma same_rooms_new_guest g i n c e : ensures (@same_rooms N) (new_guest g i n c e).
Proof. intros s. unfold new_guest. destruct (guest_heap s !! g); reflexivity. Qed.

Lemma same_rooms_new_booking b i g ci co :
  ensures (@same_rooms N) (new_booking b i g ci co).
Proof.
  intros s. unfold new_booking.
  destruct (booking_heap s !! b), (guest_heap s !! g); reflexivity.
Qed.

#[local] Hint Resolve same_rooms_new_guest same_rooms_new_booking
  same_rooms_check_availability same_rooms_remove_room same_rooms_create_booking
  same_rooms_cancel_booking same_rooms_send_confirmation same_rooms_calculate_total
  same_rooms_add_reservation same_rooms_view_reservations same_rooms_update_profile
  same_rooms_set_loyalty_program same_rooms_name_setter same_rooms_contact_setter
  same_rooms_email_setter : frame.

Lemma no_overlap_nil : no_overlap [].
Proof. intros i j p q _ Hp. rewrite lookup_nil in Hp. discriminate. Qed.

Lemma no_overlap_snoc l ci co :
  no_overlap l -> ~ overlapping ci co l -> no_overlap (l ++ [(ci, co)]).
Proof.
  intros Hl Hfree i j p q Hne Hp Hq.
  apply lookup_app_Some in Hp as [Hp | [Hi Hp]];
    apply lookup_app_Some in Hq as [Hq | [Hj Hq]].
  - exact (Hl i j p q Hne Hp Hq).
  - apply list_lookup_singleton_Some in Hq as [_ <-]. cbn.
    intros Hov. apply Hfree. exists (fst p), (snd p).
    split; [| lia]. apply (list_elem_of_lookup_2 l i). destruct p; exact Hp.
  - apply list_lookup_singleton_Some in Hp as [_ <-]. cbn.
    intros Hov. apply Hfree. exists (fst q), (snd q).
    split; [| lia]. apply (list_elem_of_lookup_2 l j). destruct q; exact Hq.
  - apply list_lookup_singleton_Some in Hp as [Hi0 _].
    apply list_lookup_singleton_Some in Hq as [Hj0 _]. lia.
Qed.

Lemma ledgers_grow_insert (s : Store N) r room room' :
  room_heap s !! r = Some room ->
  (no_overlap (_bookings room) -> no_overlap (_bookings room')) ->
  _bookings room `prefix_of` _bookings room' ->
  ledgers_grow s (mkStore (<[r := room']> (room_heap s)) (booking_heap s) (guest_heap s)).
Proof.
  intros Hr Hno Hpre. split.
  - intros Hok r0 room0. cbn. destruct (decide (r = r0)) as [<- | Hne].
    + rewrite lookup_insert_eq. intros Heq. inversion Heq; subst.
      apply Hno, (Hok r room Hr).
    + rewrite lookup_insert_ne by exact Hne. apply Hok.
  - intros r0 room0 Hr0. cbn. destruct (decide (r = r0)) as [<- | Hne].
    + rewrite lookup_insert_eq. exists room'. split; [reflexivity |]. congruence.
    + rewrite lookup_insert_ne by exact Hne. exists room0. split; [exact Hr0 | reflexivity].
Qed.

Lemma ledgers_grow_add_booking r ci co : ensures (@ledgers_grow N) (add_booking r ci co).
Proof.
  intros s. destruct (room_heap s !! r) as [room |] eqn:Hr.
  - destruct (Z_lt_ge_dec ci co) as [Hlt | Hge].
    + destruct (scan_bookings ci co (_bookings room)) eqn:Hscan.
      * apply scan_bookings_true in Hscan.
        rewrite (add_booking_free s r room) by assumption. cbn.
        apply (ledgers_grow_insert s r room); [exact Hr | |].
        -- intros Hno. cbn. apply no_overlap_snoc; assumption.
        -- cbn. apply prefix_app_r. reflexivity.
      * apply scan_bookings_false in Hscan.
        rewrite (add_booking_overlapping s r room) by assumption. cbn. reflexivity.
    + rewrite (add_booking_invalid s r room) by assumption. cbn. reflexivity.
  - unfold add_booking, bind, check_availability, bind, get_room. rewrite Hr. cbn. reflexivity.
Qed.

Lemma ledgers_kept_grow (s s' : Store N) :
  ledgers_kept s s' -> (ledgers_ok s -> ledgers_ok s') -> ledgers_grow s s'.
Proof.
  intros Hkept Hok. split; [exact Hok |].
  intros r room Hr. destruct (Hkept r room Hr) as (room' & Hr' & Heq).
  exists room'. split; [exact Hr' |]. rewrite Heq. reflexivity.
Qed.

(** Assigning to an attribute of a room other than its list of periods. *)
Lemma put_room_other_attribute (s : Store N) r room room' :
  room_heap s !! r = Some room -> _bookings room' = _bookings room ->
  ledgers_kept s (store_after s (put_room r room' s)) /\
  ledgers_grow s (store_after s (put_room r room' s)).
Proof.
  intros Hr Heq. split.
  - intros r0 room0 Hr0. cbn. destruct (decide (r = r0)) as [<- | Hne].
    + rewrite lookup_insert_eq. exists room'. split; [reflexivity | congruence].
    + rewrite lookup_insert_ne by exact Hne. exists room0. split; [exact Hr0 | reflexivity].
  - apply (ledgers_grow_insert s r room); [exact Hr | rewrite Heq; tauto |].
    rewrite Heq. reflexivity.
Qed.

Lemma ledgers_kept_refl (s : Store N) : ledgers_kept s s.
Proof. intros r room Hr. exists room. split; [exact Hr | reflexivity]. Qed.

Lemma same_rooms_kept (s s' : Store N) : same_rooms s s' -> ledgers_kept s s'.
Proof.
  unfold same_rooms. intros Heq r room Hr. exists room. rewrite Heq.
  split; [exact Hr | reflexivity].
Qed.

Lemma update_status_ledgers r v (s : Store N) :
  ledgers_kept s (store_after s (update_status r v s)) /\
  ledgers_grow s (store_after s (update_status r v s)).
Proof.
  unfold update_status, bind, get_room. destruct (room_heap s !! r) as [room |] eqn:Hr.
  - apply (put_room_other_attribute s r room); [exact Hr | reflexivity].
  - cbn. split; [apply ledgers_kept_refl | reflexivity].
Qed.

Lemma price_per_night_setter_ledgers r v (s : Store N) :
  ledgers_kept s (store_after s (price_per_night_setter r v s)) /\
  ledgers_grow s (store_after s (price_per_night_setter r v s)).
Proof.
  unfold price_per_night_setter, bind, get_room.
  destruct (room_heap s !! r) as [room |] eqn:Hr.
  - destruct (nnegative v).
    + cbn. split; [apply ledgers_kept_refl | reflexivity].
    + apply (put_room_other_attribute s r room); [exact Hr | reflexivity].
  - cbn. split; [apply ledgers_kept_refl | reflexivity].
Qed.

Lemma amenities_setter_ledgers r v (s : Store N) :
  ledgers_kept s (store_after s (amenities_setter r v s)) /\
  ledgers_grow s (store_after s (amenities_setter r v s)).
Proof.
  unfold amenities_setter, bind, get_room. destruct (room_heap s !! r) as [room |] eqn:Hr.
  - apply (put_room_other_attribute s r room); [exact Hr | reflexivity].
  - cbn. split; [apply ledgers_kept_refl | reflexivity].
Qed.

Lemma new_room_ledgers r n t a p (s : Store N) :
  ledgers_kept s (store_after s (new_room r n t a p s)) /\
  ledgers_grow s (store_after s (new_room r n t a p s)).
Proof.
  unfold new_room. destruct (room_heap s !! r) as [room |] eqn:Hr.
  - cbn. split; [apply ledgers_kept_refl | reflexivity].
  - cbn. assert (Hkept : ledgers_kept s
      (mkStore (<[r := Room_init n t a p]> (room_heap s)) (booking_heap s) (guest_heap s))).
    { intros r0 room0 Hr0. cbn. exists room0. split; [| reflexivity].
      rewrite lookup_insert_ne; [exact Hr0 | congruence]. }
    split; [exact Hkept |]. apply ledgers_kept_grow; [exact Hkept |].
    intros Hok r0 room0. cbn. destruct (decide (r = r0)) as [<- | Hne].
    + rewrite lookup_insert_eq. intros Heq. inversion Heq; subst. apply no_overlap_nil.
    + rewrite lookup_insert_ne by exact Hne. apply Hok.
Qed.

Lemma ledgers_grow_add_room b r : ensures (@ledgers_grow N) (add_room b r).
Proof.
  unfold add_room. frame_step; [frame_step |].
  frame_step; [apply (ensures_weaken same_rooms);
                 [apply same_rooms_grow | apply same_rooms_check_availability] |].
  frame_step; [frame_step |]. frame_step; [frame_step |].
  frame_step; [apply ledgers_grow_add_booking |].
  frame_step; [frame_step |].
  frame_step; [apply (ensures_weaken same_rooms);
                 [apply same_rooms_grow | apply same_rooms_put_booking] |].
  frame_step; [apply (ensures_weaken same_rooms);
                 [apply same_rooms_grow | apply same_rooms__update_total_cost] |].
  frame_step.
Qed.

Lemma step_ledgers_grow (s : Store N) op : ledgers_grow s (step s op).
Proof.
  destruct op; cbn [step];
    try (apply same_rooms_grow, ensures_at; solve [auto with frame]).
  - apply new_room_ledgers.
  - apply ledgers_grow_add_booking.
  - apply update_status_ledgers.
  - apply price_per_night_setter_ledgers.
  - apply amenities_setter_ledgers.
  - apply ledgers_grow_add_room.
Qed.

Lemma step_ledgers_kept (s : Store N) op : reserves op = false -> ledgers_kept s (step s op).
Proof.
  destruct op; cbn [step reserves]; intros Hres; try discriminate;
    try (apply same_rooms_kept, ensures_at; solve [auto with frame]).
  - apply new_room_ledgers.
  - apply update_status_ledgers.
  - apply price_per_night_setter_ledgers.
  - apply amenities_setter_ledgers.
Qed.

Lemma run_ledgers_grow ops : forall s : Store N, ledgers_grow s (run ops s).
Proof.
  induction ops as [| op rest IH]; intros s; cbn.
  - reflexivity.
  - etrans; [apply step_ledgers_grow | apply IH].
Qed.

Lemma ledgers_ok_empty : ledgers_ok (@empty_store N).
Proof. intros r room Hr. cbn in Hr. rewrite lookup_empty in Hr. discriminate. Qed.

(** C4: a new room starts with an empty list of periods; every call of
    the system takes a store whose rooms keep their periods apart to such a
    store again; every call other than add_booking and add_room leaves the
    list of every room as it was; hence in every store reached from the
    empty one no two periods at different positions of a room's list
    overlap under the half-open test. *)
Theorem ledger_periods_never_overlap :
  (forall n t a (p : N), _bookings (Room_init n t a p) = []) /\
  (forall (s : Store N) op, ledgers_ok s -> ledgers_ok (step s op)) /\
  (forall (s : Store N) op, reserves op = false -> ledgers_kept s (step s op)) /\
  (forall (ops : list (operation N)) r room,
     room_heap (run ops empty_store) !! r = Some room ->
     forall i j p q, i <> j ->
       _bookings room !! i = Some p -> _bookings room !! j = Some q ->
       ~ (fst p < snd q /\ snd p > fst q)).
Proof.
  split; [reflexivity |]. split; [| split].
  - intros s op. apply step_ledgers_grow.
  - apply step_ledgers_kept.
  - intros ops r room Hr.
    apply (proj1 (run_ledgers_grow ops empty_store) ledgers_ok_empty r room Hr).
Qed.

(** C8: cancel_booking and remove_room leave the room heap exactly as it
    was, so no period leaves any room's list; and over any sequence of
    calls every room stays in the store and the list it had is a prefix of
    the list it has afterwards. *)
Theorem ledger_periods_stay (s : Store N) :
  (forall b, room_heap (store_after s (cancel_booking b s)) = room_heap s) /\
  (forall b r, room_heap (store_after s (remove_room b r s)) = room_heap s) /\
  (forall ops r room, room_heap s !! r = Some room ->
     exists room', room_heap (run ops s) !! r = Some room' /\
                   _bookings room `prefix_of` _bookings room').
Proof.
  split; [| split].
  - intros b. apply same_rooms_cancel_booking.
  - intros b r. apply same_rooms_remove_room.
  - intros ops. apply (run_ledgers_grow ops s).
Qed.

(** *** References stay valid

    In every store the calls can reach, the guest and the rooms of every
    booking are objects of the store, so the lookups the methods make never
    come back empty. *)

#[local] Instance keeps_well_formed_refl : Reflexive (@keeps_well_formed N).
Proof. intros s Hwf. exact Hwf. Qed.

#[local] Instance keeps_well_formed_trans : Transitive (@keeps_well_formed N).
Proof. intros s1 s2 s3 H12 H23 Hwf. apply H23, H12, Hwf. Qed.

Lemma after_bind {A B} (R : Store N -> Store N -> Prop)
    `{!Reflexive R} `{!Transitive R} (m : M N A) (k : A -> M N B) s :
  after R s m ->
  (forall a s1, m s = Returns a s1 -> after R s1 (k a)) ->
  after R s (bind m k).
Proof.
  unfold after, bind. intros Hm Hk.
  destruct (m s) as [a s1 | e s1 |]; cbn in *.
  - specialize (Hk a s1 eq_refl). destruct (k a s1) as [b s2 | e s2 |]; cbn in *.
    + etrans; eassumption.
    + etrans; eassumption.
    + reflexivity.
  - exact Hm.
  - reflexivity.
Qed.

Lemma ensures_after {A} (R : Store N -> Store N -> Prop) (m : M N A) s :
  ensures R m -> after R s m.
Proof. intros Hm. apply Hm. Qed.

Lemma after_keeps {A} (m : M N A) s :
  after keeps_well_formed s m -> well_formed s -> well_formed (store_after s (m s)).
Proof. intros Hm. exact Hm. Qed.

Lemma get_guest_returns g guest (s s' : Store N) :
  get_guest g s = Returns guest s' -> s' = s /\ guest_heap s !! g = Some guest.
Proof.
  unfold get_guest. destruct (guest_heap s !! g); [| discriminate].
  intros Heq. inversion Heq; subst. split; reflexivity.
Qed.

Lemma well_formed_put_room (s : Store N) r room :
  well_formed s ->
  well_formed (mkStore (<[r := room]> (room_heap s)) (booking_heap s) (guest_heap s)).
Proof.
  intros Hwf b bk Hb. destruct (Hwf b bk Hb) as [Hg Hrooms]. split; [exact Hg |].
  eapply Forall_impl; [exact Hrooms |]. cbn. intros r0 Hr0.
  destruct (decide (r = r0)) as [<- | Hne].
  - rewrite lookup_insert_eq. eexists. reflexivity.
  - rewrite lookup_insert_ne by exact Hne. exact Hr0.
Qed.

Lemma well_formed_put_guest (s : Store N) g guest :
  well_formed s ->
  well_formed (mkStore (room_heap s) (booking_heap s) (<[g := guest]> (guest_heap s))).
Proof.
  intros Hwf b bk Hb. destruct (Hwf b bk Hb) as [Hg Hrooms]. split; [| exact Hrooms].
  cbn. destruct (decide (g = _guest bk)) as [<- | Hne].
  - rewrite lookup_insert_eq. eexists. reflexivity.
  - rewrite lookup_insert_ne by exact Hne. exact Hg.
Qed.

Lemma well_formed_put_booking (s : Store N) b bk :
  well_formed s ->
  is_Some (guest_heap s !! _guest bk) ->
  Forall (fun r => is_Some (room_heap s !! r)) (_rooms bk) ->
  well_formed (mkStore (room_heap s) (<[b := bk]> (booking_heap s)) (guest_heap s)).
Proof.
  intros Hwf Hg Hrooms b0 bk0. cbn. destruct (decide (b = b0)) as [<- | Hne].
  - rewrite lookup_insert_eq. intros Heq. inversion Heq; subst. split; assumption.
  - rewrite lookup_insert_ne by exact Hne. apply Hwf.
Qed.

Lemma after_put_booking (s : Store N) b bk :
  (well_formed s ->
   is_Some (guest_heap s !! _guest bk) /\
   Forall (fun r => is_Some (room_heap s !! r)) (_rooms bk)) ->
  after keeps_well_formed s (put_booking b bk).
Proof.
  intros Hrefs Hwf. cbn. destruct (Hrefs Hwf) as [Hg Hrooms].
  apply well_formed_put_booking; assumption.
Qed.

(** Writing back a booking read from the store, with the same guest and
    rooms. *)
Lemma after_put_booking_same_refs (s : Store N) b bk bk' :
  booking_heap s !! b = Some bk ->
  _guest bk' = _guest bk -> _rooms bk' = _rooms bk ->
  after keeps_well_formed s (put_booking b bk').
Proof.
  intros Hb Hg Hrooms Hwf. cbn. destruct (Hwf b bk Hb) as [Hguest Hall].
  apply well_formed_put_booking; [exact Hwf | rewrite Hg; exact Hguest |].
  rewrite Hrooms. exact Hall.
Qed.

Lemma after_put_room (s : Store N) r room : after keeps_well_formed s (put_room r room).
Proof. intros Hwf. cbn. apply well_formed_put_room, Hwf. Qed.

Lemma after_put_guest (s : Store N) g guest : after keeps_well_formed s (put_guest g guest).
Proof. intros Hwf. cbn. apply well_formed_put_guest, Hwf. Qed.

(** The opening move of most methods: read the object, go on with it. *)
Ltac read_booking bk Hb :=
  apply after_bind;
    [typeclasses eauto | typeclasses eauto
    | apply ensures_after, ensures_get_booking; typeclasses eauto
    | intros bk ? [-> Hb]%get_booking_returns].

Ltac read_room room Hr :=
  apply after_bind;
    [typeclasses eauto | typeclasses eauto
    | apply ensures_after, ensures_get_room; typeclasses eauto
    | intros room ? [-> Hr]%get_room_returns].

Ltac read_guest guest Hg :=
  apply after_bind;
    [typeclasses eauto | typeclasses eauto
    | apply ensures_after, ensures_get_guest; typeclasses eauto
    | intros guest ? [-> Hg]%get_guest_returns].

Ltac then_return :=
  apply after_bind;
    [typeclasses eauto | typeclasses eauto | |
     intros ? ? _; apply ensures_after, ensures_ret; typeclasses eauto].

Lemma well_formed__update_total_cost b (s : Store N) :
  after keeps_well_formed s (_update_total_cost b).
Proof.
  unfold _update_total_cost. read_booking bk Hb.
  apply after_bind; [typeclasses eauto | typeclasses eauto | |].
  - apply ensures_after, ensures_sum_charges; typeclasses eauto.
  - intros total s1 [-> _]%sum_charges_returns.
    apply (after_put_booking_same_refs s b bk); [exact Hb | reflexivity | reflexivity].
Qed.

Lemma well_formed_add_booking r ci co (s : Store N) :
  after keeps_well_formed s (add_booking r ci co).
Proof.
  unfold add_booking.
  apply after_bind; [typeclasses eauto | typeclasses eauto | |].
  - apply ensures_after, ensures_check_availability; typeclasses eauto.
  - intros available s1 Hcheck.
    assert (s1 = s) as ->.
    { unfold check_availability in Hcheck.
      apply bind_returns in Hcheck as (room & s2 & [-> _]%get_room_returns & Hcheck).
      destruct (ci >=? co); [discriminate |]. inversion Hcheck. reflexivity. }
    read_room room Hr. destruct (negb available).
    + apply ensures_after, ensures_raise; typeclasses eauto.
    + then_return. apply after_put_room.
Qed.

Lemma add_booking_returns r ci co (s s' : Store N) v :
  add_booking r ci co s = Returns v s' ->
  exists room',
    s' = mkStore (<[r := room']> (room_heap s)) (booking_heap s) (guest_heap s).
Proof.
  intros Hadd. unfold add_booking in Hadd.
  apply bind_returns in Hadd as (available & s1 & Hcheck & Hadd).
  unfold check_availability in Hcheck.
  apply bind_returns in Hcheck as (room0 & s2 & [-> _]%get_room_returns & Hcheck).
  destruct (ci >=? co); [discriminate |]. inversion Hcheck; subst. clear Hcheck.
  apply bind_returns in Hadd as (room & s2 & [-> _]%get_room_returns & Hadd).
  destruct (negb _); [discriminate |].
  apply bind_returns in Hadd as (u & s2 & Hput & Hret).
  unfold put_room in Hput. inversion Hput; subst. inversion Hret; subst.
  eexists. reflexivity.
Qed.

Lemma well_formed_add_room b r (s : Store N) : after keeps_well_formed s (add_room b r).
Proof.
  unfold add_room. read_booking bk Hb.
  apply after_bind; [typeclasses eauto | typeclasses eauto | |].
  { apply ensures_after, ensures_check_availability; typeclasses eauto. }
  intros available s1 _. clear dependent s. rename s1 into s.
  read_room room Hr. destruct (negb available).
  { apply ensures_after, ensures_raise; typeclasses eauto. }
  apply after_bind; [typeclasses eauto | typeclasses eauto | |].
  { apply well_formed_add_booking. }
  intros v s1 (room' & ->)%add_booking_returns.
  read_booking bk' Hb'.
  apply after_bind; [typeclasses eauto | typeclasses eauto | |].
  - apply after_put_booking. intros Hwf. destruct (Hwf b bk' Hb') as [Hg Hrooms].
    split; [exact Hg |].
    cbn [_rooms set_rooms]. apply Forall_app. split; [exact Hrooms |].
    constructor; [| constructor]. cbn [room_heap]. rewrite lookup_insert_eq.
    eexists. reflexivity.
  - intros u s1 _. then_return. apply well_formed__update_total_cost.
Qed.

Lemma remove_first_subset r (l : list room_ref) x : x ∈ remove_first r l -> x ∈ l.
Proof.
  induction l as [| y rest IH]; cbn; [tauto |].
  destruct (Nat.eqb y r).
  - intros Hin. apply elem_of_cons. right. exact Hin.
  - rewrite !elem_of_cons. intros [Heq | Hin]; [left; exact Heq | right; apply IH, Hin].
Qed.

Lemma well_formed_remove_room b r (s : Store N) : after keeps_well_formed s (remove_room b r).
Proof.
  unfold remove_room. read_booking bk Hb. destruct (contains r (_rooms bk)).
  - apply after_bind; [typeclasses eauto | typeclasses eauto | |].
    + apply after_put_booking. intros Hwf. destruct (Hwf b bk Hb) as [Hg Hrooms].
      split; [exact Hg |].
      cbn [_rooms set_rooms]. rewrite Forall_forall in *. intros x Hx. apply Hrooms, (remove_first_subset r), Hx.
    + intros u s1 _. then_return. apply well_formed__update_total_cost.
  - apply ensures_after, ensures_ret; typeclasses eauto.
Qed.

Lemma well_formed_add_reservation g b (s : Store N) :
  after keeps_well_formed s (add_reservation g b).
Proof. unfold add_reservation. read_guest guest Hg. then_return. apply after_put_guest. Qed.

Lemma well_formed_create_booking b (s : Store N) :
  after keeps_well_formed s (create_booking b).
Proof.
  unfold create_booking. read_booking bk Hb. destruct (_rooms bk) eqn:Hrooms.
  - apply ensures_after, ensures_raise; typeclasses eauto.
  - apply after_bind; [typeclasses eauto | typeclasses eauto | |].
    + apply (after_put_booking_same_refs s b bk); [exact Hb | reflexivity | reflexivity].
    + intros u s1 _. then_return. apply well_formed_add_reservation.
Qed.

Lemma well_formed_cancel_booking b (s : Store N) :
  after keeps_well_formed s (cancel_booking b).
Proof.
  unfold cancel_booking. read_booking bk Hb. destruct (_is_canceled bk).
  - apply ensures_after, ensures_ret; typeclasses eauto.
  - then_return.
    apply (after_put_booking_same_refs s b bk); [exact Hb | reflexivity | reflexivity].
Qed.

Lemma well_formed_calculate_total b (s : Store N) :
  after keeps_well_formed s (calculate_total b).
Proof.
  unfold calculate_total.
  apply after_bind; [typeclasses eauto | typeclasses eauto | |].
  - apply well_formed__update_total_cost.
  - intros u s1 _. apply ensures_after. repeat frame_step.
Qed.

Lemma well_formed_step (s : Store N) op : well_formed s -> well_formed (step s op).
Proof.
  destruct op; cbn [step]; apply after_keeps.
  - unfold after, new_room. destruct (room_heap s !! r); [exact id |].
    intros Hwf. apply well_formed_put_room, Hwf.
  - unfold after, new_guest. destruct (guest_heap s !! g); [exact id |].
    intros Hwf. apply well_formed_put_guest, Hwf.
  - unfold after, new_booking.
    destruct (booking_heap s !! b); [exact id |].
    destruct (guest_heap s !! guest) eqn:Hg; [| exact id].
    intros Hwf. apply well_formed_put_booking; [exact Hwf | |]; cbn.
    + rewrite Hg. eexists. reflexivity.
    + constructor.
  - apply ensures_after, ensures_check_availability; typeclasses eauto.
  - apply well_formed_add_booking.
  - unfold update_status. read_room room Hr. apply after_put_room.
  - unfold price_per_night_setter. read_room room Hr. destruct (nnegative value).
    + apply ensures_after, ensures_raise; typeclasses eauto.
    + apply after_put_room.
  - unfold amenities_setter. read_room room Hr. apply after_put_room.
  - apply well_formed_add_room.
  - apply well_formed_remove_room.
  - apply well_formed_create_booking.
  - apply well_formed_cancel_booking.
  - apply ensures_after, ensures_send_confirmation; typeclasses eauto.
  - apply well_formed_calculate_total.
  - apply well_formed_add_reservation.
  - apply ensures_after, ensures_view_reservations; typeclasses eauto.
  - unfold update_profile. read_guest guest Hg. then_return. apply after_put_guest.
  - unfold set_loyalty_program. read_guest guest Hg. apply after_put_guest.
  - unfold name_setter. read_guest guest Hg. apply after_put_guest.
  - unfold contact_setter. read_guest guest Hg. apply after_put_guest.
  - unfold email_setter. read_guest guest Hg. apply after_put_guest.
Qed.

Lemma well_formed_run ops : forall s : Store N, well_formed s -> well_formed (run ops s).
Proof.
  induction ops as [| op rest IH]; intros s Hwf; cbn; [exact Hwf |].
  apply IH, well_formed_step, Hwf.
Qed.

(** Every store reached from the empty one is well formed, and in it the
    prices of the rooms of every booking can be read. *)
Lemma reachable_well_formed (ops : list (operation N)) :
  well_formed (run ops empty_store).
Proof.
  apply well_formed_run. intros b bk Hb. cbn in Hb. rewrite lookup_empty in Hb. discriminate.
Qed.

Lemma well_formed_attached_prices (s : Store N) b bk :
  well_formed s -> booking_heap s !! b = Some bk ->
  exists prices, attached_prices s (_rooms bk) prices.
Proof.
  intros Hwf Hb. destruct (Hwf b bk Hb) as [_ Hrooms].
  induction Hrooms as [| r rest [room Hr] _ (prices & IH)].
  - exists []. constructor.
  - exists (_price_per_night room :: prices).
    constructor; [exists room; split; [exact Hr | reflexivity] | exact IH].
Qed.

(** *** How the calls on a booking end

    On objects of a well-formed store the calls never find a reference
    empty, and end in one of the ways listed. *)

Lemma add_room_outcomes (s : Store N) b bk r room :
  well_formed s ->
  booking_heap s !! b = Some bk -> room_heap s !! r = Some room ->
  add_room b r s = Raises InvalidRangeError s \/
  add_room b r s = Raises (RoomUnavailableError (_room_number room)) s \/
  exists s', add_room b r s = Returns true s' /\ up_to_date s' b.
Proof.
  intros Hwf Hb Hr.
  destruct (Z_lt_ge_dec (_check_in_date bk) (_check_out_date bk)) as [Hlt | Hge].
  - destruct (scan_bookings (_check_in_date bk) (_check_out_date bk) (_bookings room))
      eqn:Hscan.
    + apply scan_bookings_true in Hscan.
      destruct (well_formed_attached_prices s b bk Hwf Hb) as (prices & Hatt).
      right. right. eexists. split.
      * apply (add_room_free s b bk r room prices); assumption.
      * eapply add_room_up_to_date. apply (add_room_free s b bk r room prices); assumption.
    + apply scan_bookings_false in Hscan.
      right. left. apply (add_room_overlapping s b bk r room); assumption.
  - left. apply (add_room_invalid s b bk r room); assumption.
Qed.

Lemma remove_room_outcomes (s : Store N) b bk r :
  well_formed s -> booking_heap s !! b = Some bk ->
  ((r ∉ _rooms bk) /\ remove_room b r s = Returns false s) \/
  ((r ∈ _rooms bk) /\ exists s', remove_room b r s = Returns true s' /\ up_to_date s' b).
Proof.
  intros Hwf Hb. destruct (contains r (_rooms bk)) eqn:Hc.
  - apply contains_spec in Hc. right. split; [exact Hc |].
    destruct (well_formed_attached_prices s b bk Hwf Hb) as (prices & Hatt).
    destruct (remove_room_present s b bk r prices Hb Hc Hatt) as (prices' & _ & Hrem).
    eexists. split; [exact Hrem |]. eapply remove_room_up_to_date. exact Hrem.
  - assert (Hnot : r ∉ _rooms bk).
    { intros Hin. apply contains_spec in Hin. congruence. }
    left. split; [exact Hnot |]. apply (remove_room_absent s b bk); assumption.
Qed.

Lemma calculate_total_responds (s : Store N) b bk :
  well_formed s -> booking_heap s !! b = Some bk ->
  exists total s', calculate_total b s = Returns total s' /\ up_to_date s' b.
Proof.
  intros Hwf Hb. destruct (well_formed_attached_prices s b bk Hwf Hb) as (prices & Hatt).
  eexists. eexists. split.
  - apply (calculate_total_attached s b bk prices); assumption.
  - eapply calculate_total_returns.
    apply (calculate_total_attached s b bk prices); assumption.
Qed.

Lemma create_booking_responds (s : Store N) b bk :
  well_formed s -> booking_heap s !! b = Some bk ->
  create_booking b s = Raises EmptyBookingError s \/
  exists s', create_booking b s = Returns true s'.
Proof.
  intros Hwf Hb. destruct (Hwf b bk Hb) as [[guest Hg] _].
  destruct (_rooms bk) eqn:Hrooms.
  - left. apply (create_booking_empty s b bk); assumption.
  - right. eexists. apply (create_booking_rooms s b bk guest); [exact Hb | | exact Hg].
    rewrite Hrooms. discriminate.
Qed.

End LedgerProperties.

Lemma ledger_periods_never_overlap_witness :
  exists room,
    room_heap (run [OpAddBooking 0%nat (day 8) (day 10); OpAddBooking 0%nat (day 7) (day 9)]
                 store_booked) !! 0%nat = Some room /\
    _bookings room = [(day 5, day 8); (day 8, day 10)] /\
    ~ (fst (day 5, day 8) < snd (day 8, day 10) /\ snd (day 5, day 8) > fst (day 8, day 10)).
Proof.
  eexists. split; [vm_compute; reflexivity |]. split; [reflexivity |].
  destruct (@ledger_periods_never_overlap Z _) as (_ & _ & _ & Hreach).
  apply (Hreach (setup ++ [OpAddBooking 0%nat (day 8) (day 10);
                           OpAddBooking 0%nat (day 7) (day 9)])
                0%nat
                (set_bookings room101 [(day 5, day 8); (day 8, day 10)])
                eq_refl 0%nat 1%nat); [lia | reflexivity | reflexivity].
Defined.

Lemma ledger_periods_stay_witness :
  room_heap (run [OpCreateBooking 0%nat; OpCancelBooking 0%nat; OpRemoveRoom 0%nat 0%nat]
               store_booked) !! 0%nat = Some room101 /\
  exists room',
    room_heap (run [OpCreateBooking 0%nat; OpCancelBooking 0%nat; OpRemoveRoom 0%nat 0%nat]
                 store_booked) !! 0%nat = Some room' /\
    _bookings room101 `prefix_of` _bookings room'.
Proof.
  split; [reflexivity |].
  apply (ledger_periods_stay store_booked). reflexivity.
Defined.

(** ** Every call as one effect *)

Section Effects.
Context {N : Type} `{Number N}.

Lemma add_room_no_booking (s : Store N) b r :
  booking_heap s !! b = None -> add_room b r s = Dangling.
Proof. intros Hb. unfold add_room, bind, get_booking. rewrite Hb. reflexivity. Qed.

Lemma add_room_no_room (s : Store N) b bk r :
  booking_heap s !! b = Some bk -> room_heap s !! r = None -> add_room b r s = Dangling.
Proof.
  intros Hb Hr. unfold add_room, bind at 1, get_booking. rewrite Hb.
  unfold bind at 1, check_availability, bind, get_room. rewrite Hr. reflexivity.
Qed.

Lemma calculate_total_no_booking (s : Store N) b :
  booking_heap s !! b = None -> calculate_total b s = Dangling.
Proof.
  intros Hb. unfold calculate_total, _update_total_cost, bind, get_booking.
  rewrite Hb. reflexivity.
Qed.

(** In a well-formed store a call either leaves the store as it was or
    has exactly one of the listed effects. *)
Lemma step_effect (s : Store N) op :
  well_formed s -> step s op = s \/ effect s (step s op).
Proof.
  intros Hwf. destruct op; cbn [step].
  - unfold new_room. destruct (room_heap s !! r) eqn:Hr; [left; reflexivity |].
    right. apply effect_new_room, Hr.
  - unfold new_guest. destruct (guest_heap s !! g) eqn:Hg; [left; reflexivity |].
    right. apply effect_new_guest, Hg.
  - unfold new_booking. destruct (booking_heap s !! b) eqn:Hb; [left; reflexivity |].
    destruct (guest_heap s !! guest) eqn:Hg; [| left; reflexivity].
    right. apply effect_new_booking; [exact Hb | rewrite Hg; eexists; reflexivity].
  - left. unfold check_availability, bind, get_room.
    destruct (room_heap s !! r); [| reflexivity].
    destruct (check_in_date >=? check_out_date); reflexivity.
  - destruct (room_heap s !! r) as [room |] eqn:Hr.
    + destruct (Z_lt_ge_dec check_in_date check_out_date) as [Hlt | Hge].
      * destruct (scan_bookings check_in_date check_out_date (_bookings room)) eqn:Hscan.
        -- apply scan_bookings_true in Hscan. right.
           rewrite (add_booking_free s r room) by assumption. cbn [store_after].
           apply effect_reserve; assumption.
        -- apply scan_bookings_false in Hscan. left.
           rewrite (add_booking_overlapping s r room) by assumption. reflexivity.
      * left. rewrite (add_booking_invalid s r room) by assumption. reflexivity.
    + left. unfold add_booking, bind, check_availability, bind, get_room.
      rewrite Hr. reflexivity.
  - unfold update_status, bind, get_room.
    destruct (room_heap s !! r) as [room |] eqn:Hr; [| left; reflexivity].
    right. apply (effect_room_attribute s r room); [exact Hr | reflexivity | reflexivity].
  - unfold price_per_night_setter, bind, get_room.
    destruct (room_heap s !! r) as [room |] eqn:Hr; [| left; reflexivity].
    destruct (nnegative value) eqn:Hneg; [left; reflexivity |].
    right. apply effect_reprice; assumption.
  - unfold amenities_setter, bind, get_room.
    destruct (room_heap s !! r) as [room |] eqn:Hr; [| left; reflexivity].
    right. apply (effect_room_attribute s r room); [exact Hr | reflexivity | reflexivity].
  - destruct (booking_heap s !! b) as [bk |] eqn:Hb;
      [| left; rewrite add_room_no_booking by assumption; reflexivity].
    destruct (room_heap s !! r) as [room |] eqn:Hr;
      [| left; rewrite (add_room_no_room s b bk) by assumption; reflexivity].
    destruct (Z_lt_ge_dec (_check_in_date bk) (_check_out_date bk)) as [Hlt | Hge].
    + destruct (scan_bookings (_check_in_date bk) (_check_out_date bk) (_bookings room))
        eqn:Hscan.
      * apply scan_bookings_true in Hscan.
        destruct (well_formed_attached_prices s b bk Hwf Hb) as (prices & Hatt).
        right. rewrite (add_room_free s b bk r room prices) by assumption.
        cbn [store_after]. apply effect_attach; assumption.
      * apply scan_bookings_false in Hscan. left.
        rewrite (add_room_overlapping s b bk r room) by assumption. reflexivity.
    + left. rewrite (add_room_invalid s b bk r room) by assumption. reflexivity.
  - destruct (booking_heap s !! b) as [bk |] eqn:Hb.
    + destruct (remove_room_outcomes s b bk r Hwf Hb) as [[Hnot Hrem] | [Hin _]].
      * left. rewrite Hrem. reflexivity.
      * destruct (well_formed_attached_prices s b bk Hwf Hb) as (prices & Hatt).
        destruct (remove_room_present s b bk r prices Hb Hin Hatt) as (prices' & Hatt' & Hrem).
        right. rewrite Hrem. cbn [store_after]. apply effect_detach; assumption.
    + left. unfold remove_room, bind, get_booking. rewrite Hb. reflexivity.
  - destruct (booking_heap s !! b) as [bk |] eqn:Hb.
    + destruct (Hwf b bk Hb) as [[guest Hg] _].
      destruct (_rooms bk) as [| r0 rest] eqn:Hrooms.
      * left. rewrite (create_booking_empty s b bk) by assumption. reflexivity.
      * right. rewrite (create_booking_rooms s b bk guest); [| exact Hb | | exact Hg].
        -- cbn [store_after]. apply effect_confirm; [exact Hb | | exact Hg].
           rewrite Hrooms. discriminate.
        -- rewrite Hrooms. discriminate.
    + left. unfold create_booking, bind, get_booking. rewrite Hb. reflexivity.
  - destruct (booking_heap s !! b) as [bk |] eqn:Hb.
    + destruct (_is_canceled bk) eqn:Hc.
      * left. rewrite (cancel_booking_canceled s b bk) by assumption. reflexivity.
      * right. rewrite (cancel_booking_live s b bk) by assumption.
        cbn [store_after]. apply effect_cancel; assumption.
    + left. unfold cancel_booking, bind, get_booking. rewrite Hb. reflexivity.
  - left. unfold send_confirmation, bind, get_booking, get_guest.
    destruct (booking_heap s !! b) as [bk |]; [| reflexivity].
    destruct (negb (_is_confirmed bk)); [reflexivity |].
    destruct (guest_heap s !! _guest bk); reflexivity.
  - destruct (booking_heap s !! b) as [bk |] eqn:Hb.
    + destruct (well_formed_attached_prices s b bk Hwf Hb) as (prices & Hatt).
      right. rewrite (calculate_total_attached s b bk prices) by assumption.
      cbn [store_after]. apply effect_total; assumption.
    + left. rewrite calculate_total_no_booking by assumption. reflexivity.
  - unfold add_reservation, bind, get_guest.
    destruct (guest_heap s !! g) as [guest |] eqn:Hg; [| left; reflexivity].
    right. apply effect_register, Hg.
  - left. unfold view_reservations, bind, get_guest.
    destruct (guest_heap s !! g); reflexivity.
  - unfold update_profile, bind, get_guest.
    destruct (guest_heap s !! g) as [guest |] eqn:Hg; [| left; reflexivity].
    right. apply (effect_profile s g guest); [exact Hg | reflexivity].
  - unfold set_loyalty_program, bind, get_guest.
    destruct (guest_heap s !! g) as [guest |] eqn:Hg; [| left; reflexivity].
    right. apply (effect_profile s g guest); [exact Hg | reflexivity].
  - unfold name_setter, bind, get_guest.
    destruct (guest_heap s !! g) as [guest |] eqn:Hg; [| left; reflexivity].
    right. apply (effect_profile s g guest); [exact Hg | reflexivity].
  - unfold contact_setter, bind, get_guest.
    destruct (guest_heap s !! g) as [guest |] eqn:Hg; [| left; reflexivity].
    right. apply (effect_profile s g guest); [exact Hg | reflexivity].
  - unfold email_setter, bind, get_guest.
    destruct (guest_heap s !! g) as [guest |] eqn:Hg; [| left; reflexivity].
    right. apply (effect_profile s g guest); [exact Hg | reflexivity].
Qed.

End Effects.

(** ** Rooms and the bookings that list them *)

Section Attachments.
Context {N : Type} `{Number N}.

Lemma remove_first_elem_of r (l : list room_ref) x : x ∈ remove_first r l -> x ∈ l.
Proof.
  induction l as [| y rest IH]; cbn; [tauto |].
  destruct (Nat.eqb y r).
  - intros Hin. apply elem_of_cons. right. exact Hin.
  - rewrite !elem_of_cons. intros [Heq | Hin]; [left; exact Heq | right; apply IH, Hin].
Qed.

Lemma remove_first_NoDup r (l : list room_ref) : NoDup l -> NoDup (remove_first r l).
Proof.
  induction l as [| y rest IH]; cbn; [tauto |].
  rewrite NoDup_cons. intros [Hnot Hrest]. destruct (Nat.eqb y r); [exact Hrest |].
  apply NoDup_cons. split; [| apply IH, Hrest].
  intros Hin. apply Hnot, (remove_first_elem_of r), Hin.
Qed.

(** A store whose bookings each list a part of what they listed, with the
    same dates, or nothing at all, and whose rooms kept their periods. *)
Lemma attachments_ok_frame (s s' : Store N) :
  attachments_ok s ->
  (forall b bk', booking_heap s' !! b = Some bk' ->
     _rooms bk' = [] \/
     exists bk, booking_heap s !! b = Some bk /\
       _check_in_date bk' = _check_in_date bk /\ _check_out_date bk' = _check_out_date bk /\
       (forall r, r ∈ _rooms bk' -> r ∈ _rooms bk) /\
       (NoDup (_rooms bk) -> NoDup (_rooms bk'))) ->
  (forall r room, room_heap s !! r = Some room ->
     exists room', room_heap s' !! r = Some room' /\
       forall p, p ∈ _bookings room -> p ∈ _bookings room') ->
  attachments_ok s'.
Proof.
  intros (Hres & Hdouble & Hdistinct & Hdated) Hbookings Hrooms.
  split; [| split; [| split]].
  - intros b bk' r Hb Hin.
    destruct (Hbookings b bk' Hb) as [Hnil | (bk & Hbk & Hci & Hco & Hsub & _)].
    { rewrite Hnil in Hin. apply elem_of_nil in Hin. contradiction. }
    destruct (Hres b bk r Hbk (Hsub r Hin)) as (room & Hr & Hp).
    destruct (Hrooms r room Hr) as (room' & Hr' & Hmono).
    exists room'. split; [exact Hr' |]. rewrite Hci, Hco. apply Hmono, Hp.
  - intros b1 b2 bk1' bk2' r Hne Hb1 Hb2 Hin1 Hin2.
    destruct (Hbookings b1 bk1' Hb1) as [Hnil | (bk1 & Hbk1 & Hci1 & Hco1 & Hsub1 & _)].
    { rewrite Hnil in Hin1. apply elem_of_nil in Hin1. contradiction. }
    destruct (Hbookings b2 bk2' Hb2) as [Hnil | (bk2 & Hbk2 & Hci2 & Hco2 & Hsub2 & _)].
    { rewrite Hnil in Hin2. apply elem_of_nil in Hin2. contradiction. }
    rewrite Hci1, Hco1, Hci2, Hco2.
    apply (Hdouble b1 b2 bk1 bk2 r Hne Hbk1 Hbk2 (Hsub1 r Hin1) (Hsub2 r Hin2)).
  - intros b bk' Hb.
    destruct (Hbookings b bk' Hb) as [Hnil | (bk & Hbk & _ & _ & _ & Hnodup)].
    { rewrite Hnil. constructor. }
    apply Hnodup, (Hdistinct b bk Hbk).
  - intros b bk' Hb Hsome.
    destruct (Hbookings b bk' Hb) as [Hnil | (bk & Hbk & Hci & Hco & Hsub & _)];
      [contradiction |].
    rewrite Hci, Hco. apply (Hdated b bk Hbk).
    destruct (_rooms bk') as [| r rest] eqn:Hrooms'; [contradiction |].
    intros Hnil. specialize (Hsub r). rewrite Hnil in Hsub.
    eapply elem_of_nil, Hsub. apply elem_of_cons. left. reflexivity.
Qed.

Lemma bookings_unchanged_frame (s : Store N) :
  forall b bk', booking_heap s !! b = Some bk' ->
    _rooms bk' = [] \/
    exists bk, booking_heap s !! b = Some bk /\
      _check_in_date bk' = _check_in_date bk /\ _check_out_date bk' = _check_out_date bk /\
      (forall r, r ∈ _rooms bk' -> r ∈ _rooms bk) /\
      (NoDup (_rooms bk) -> NoDup (_rooms bk')).
Proof. intros b bk' Hb. right. exists bk'. repeat split; auto. Qed.

Lemma booking_rewritten_frame (s : Store N) b bk new :
  booking_heap s !! b = Some bk ->
  _check_in_date new = _check_in_date bk -> _check_out_date new = _check_out_date bk ->
  (forall r, r ∈ _rooms new -> r ∈ _rooms bk) ->
  (NoDup (_rooms bk) -> NoDup (_rooms new)) ->
  forall b0 bk', <[b := new]> (booking_heap s) !! b0 = Some bk' ->
    _rooms bk' = [] \/
    exists bk0, booking_heap s !! b0 = Some bk0 /\
      _check_in_date bk' = _check_in_date bk0 /\ _check_out_date bk' = _check_out_date bk0 /\
      (forall r, r ∈ _rooms bk' -> r ∈ _rooms bk0) /\
      (NoDup (_rooms bk0) -> NoDup (_rooms bk')).
Proof.
  intros Hb Hci Hco Hsub Hnodup b0 bk'. destruct (decide (b = b0)) as [<- | Hne].
  - rewrite lookup_insert_eq. intros Heq. inversion Heq; subst bk'.
    right. exists bk. repeat split; auto.
  - rewrite lookup_insert_ne by exact Hne. apply bookings_unchanged_frame.
Qed.

Lemma rooms_unchanged_frame (s : Store N) :
  forall r room, room_heap s !! r = Some room ->
    exists room', room_heap s !! r = Some room' /\
      forall p, p ∈ _bookings room -> p ∈ _bookings room'.
Proof. intros r room Hr. exists room. split; [exact Hr | auto]. Qed.

Lemma room_rewritten_frame (s : Store N) r room new :
  room_heap s !! r = Some room ->
  (forall p, p ∈ _bookings room -> p ∈ _bookings new) ->
  forall r0 room0, room_heap s !! r0 = Some room0 ->
    exists room', <[r := new]> (room_heap s) !! r0 = Some room' /\
      forall p, p ∈ _bookings room0 -> p ∈ _bookings room'.
Proof.
  intros Hr Hmono r0 room0 Hr0. destruct (decide (r = r0)) as [<- | Hne].
  - rewrite lookup_insert_eq. exists new. split; [reflexivity |].
    rewrite Hr in Hr0. inversion Hr0; subst. exact Hmono.
  - rewrite lookup_insert_ne by exact Hne. exists room0. split; [exact Hr0 | auto].
Qed.

Lemma attachments_ok_attach (s : Store N) b bk r room total :
  attachments_ok s ->
  booking_heap s !! b = Some bk ->
  room_heap s !! r = Some room ->
  _check_in_date bk < _check_out_date bk ->
  ~ overlapping (_check_in_date bk) (_check_out_date bk) (_bookings room) ->
  attachments_ok
    (mkStore
       (<[r := set_bookings room
                 (_bookings room ++ [(_check_in_date bk, _check_out_date bk)])]>
          (room_heap s))
       (<[b := set_total_cost (set_rooms bk (_rooms bk ++ [r])) total]> (booking_heap s))
       (guest_heap s)).
Proof.
  intros (Hres & Hdouble & Hdistinct & Hdated) Hb Hr Hlt Hfree.
  assert (Hfresh : r ∉ _rooms bk).
  { intros Hin. destruct (Hres b bk r Hb Hin) as (room0 & Hr0 & Hp).
    rewrite Hr in Hr0. inversion Hr0; subst room0.
    apply Hfree. exists (_check_in_date bk), (_check_out_date bk). split; [exact Hp | lia]. }
  assert (Hothers : forall b0 bk0, b0 <> b -> booking_heap s !! b0 = Some bk0 ->
            r ∈ _rooms bk0 ->
            ~ (_check_in_date bk0 < _check_out_date bk /\
               _check_out_date bk0 > _check_in_date bk)).
  { intros b0 bk0 Hne Hb0 Hin Hov. destruct (Hres b0 bk0 r Hb0 Hin) as (room0 & Hr0 & Hp).
    rewrite Hr in Hr0. inversion Hr0; subst room0.
    apply Hfree. exists (_check_in_date bk0), (_check_out_date bk0). split; [exact Hp | lia]. }
  split; [| split; [| split]];
    unfold attached_reserved, no_double_booking, rooms_distinct, rooms_dated;
    cbn [room_heap booking_heap guest_heap].
  - intros b0 bk0 r0 Hb0 Hin.
    assert (Hold : (r0 = r /\ _check_in_date bk0 = _check_in_date bk /\
                    _check_out_date bk0 = _check_out_date bk /\ b0 = b) \/
                   exists room0, room_heap s !! r0 = Some room0 /\
                     (_check_in_date bk0, _check_out_date bk0) ∈ _bookings room0).
    { destruct (decide (b = b0)) as [<- | Hne].
      - rewrite lookup_insert_eq in Hb0. inversion Hb0; subst bk0. cbn in Hin |- *.
        apply elem_of_app in Hin as [Hin | Hin].
        + right. apply (Hres b bk r0 Hb Hin).
        + apply list_elem_of_singleton in Hin. left. repeat split; assumption.
      - rewrite lookup_insert_ne in Hb0 by exact Hne. right. apply (Hres b0 bk0 r0 Hb0 Hin). }
    destruct Hold as [(-> & Hci & Hco & _) | (room0 & Hr0 & Hp)].
    + rewrite lookup_insert_eq. eexists. split; [reflexivity |].
      cbn. rewrite Hci, Hco. apply elem_of_app. right. apply list_elem_of_singleton.
      reflexivity.
    + destruct (room_rewritten_frame s r room
                  (set_bookings room
                     (_bookings room ++ [(_check_in_date bk, _check_out_date bk)]))
                  Hr) with (r0 := r0) (room0 := room0) as (room' & Hr' & Hmono).
      * intros p Hp'. cbn. apply elem_of_app. left. exact Hp'.
      * exact Hr0.
      * exists room'. split; [exact Hr' | apply Hmono, Hp].
  - intros b1 b2 bk1 bk2 r0 Hne Hb1 Hb2 Hin1 Hin2.
    destruct (decide (b = b1)) as [<- | Hne1]; destruct (decide (b = b2)) as [<- | Hne2].
    + congruence.
    + rewrite lookup_insert_eq in Hb1. inversion Hb1; subst bk1.
      rewrite lookup_insert_ne in Hb2 by exact Hne2. cbn in Hin1 |- *.
      apply elem_of_app in Hin1 as [Hin1 | Hin1].
      * apply (Hdouble b b2 bk bk2 r0 Hne Hb Hb2 Hin1 Hin2).
      * apply list_elem_of_singleton in Hin1. subst r0.
        assert (Hno := Hothers b2 bk2 (not_eq_sym Hne2) Hb2 Hin2). lia.
    + rewrite lookup_insert_eq in Hb2. inversion Hb2; subst bk2.
      rewrite lookup_insert_ne in Hb1 by exact Hne1. cbn in Hin2 |- *.
      apply elem_of_app in Hin2 as [Hin2 | Hin2].
      * apply (Hdouble b1 b bk1 bk r0 Hne Hb1 Hb Hin1 Hin2).
      * apply list_elem_of_singleton in Hin2. subst r0.
        apply (Hothers b1 bk1 (not_eq_sym Hne1) Hb1 Hin1).
    + rewrite lookup_insert_ne in Hb1 by exact Hne1.
      rewrite lookup_insert_ne in Hb2 by exact Hne2.
      apply (Hdouble b1 b2 bk1 bk2 r0 Hne Hb1 Hb2 Hin1 Hin2).
  - intros b0 bk0 Hb0. destruct (decide (b = b0)) as [<- | Hne].
    + rewrite lookup_insert_eq in Hb0. inversion Hb0; subst bk0. cbn.
      apply NoDup_app. split; [apply (Hdistinct b bk Hb) |]. split; [| apply NoDup_singleton].
      intros x Hx Hxr. apply list_elem_of_singleton in Hxr. subst x. contradiction.
    + rewrite lookup_insert_ne in Hb0 by exact Hne. apply (Hdistinct b0 bk0 Hb0).
  - intros b0 bk0 Hb0 Hsome. destruct (decide (b = b0)) as [<- | Hne].
    + rewrite lookup_insert_eq in Hb0. inversion Hb0; subst bk0. exact Hlt.
    + rewrite lookup_insert_ne in Hb0 by exact Hne. apply (Hdated b0 bk0 Hb0 Hsome).
Qed.

Lemma attachments_ok_effect (s s' : Store N) :
  effect s s' -> attachments_ok s -> attachments_ok s'.
Proof.
  intros Heff Hok. destruct Heff.
  - apply (attachments_ok_frame s); [exact Hok | exact (bookings_unchanged_frame s) |];
      cbn [room_heap booking_heap guest_heap].
    intros r0 room0 Hr0. exists room0. split; [| auto].
    rewrite lookup_insert_ne; [exact Hr0 | congruence].
  - apply (attachments_ok_frame s);
      [exact Hok | exact (bookings_unchanged_frame s) | exact (rooms_unchanged_frame s)].
  - apply (attachments_ok_frame s); [exact Hok | | exact (rooms_unchanged_frame s)];
      cbn [room_heap booking_heap guest_heap].
    intros b0 bk'. destruct (decide (b = b0)) as [<- | Hne].
    + rewrite lookup_insert_eq. intros Heq. inversion Heq. left. reflexivity.
    + rewrite lookup_insert_ne by exact Hne. apply bookings_unchanged_frame.
  - apply (attachments_ok_frame s); [exact Hok | exact (bookings_unchanged_frame s) |];
      cbn [room_heap booking_heap guest_heap].
    apply (room_rewritten_frame s r room); [assumption |].
    intros p Hp. congruence.
  - apply (attachments_ok_frame s); [exact Hok | exact (bookings_unchanged_frame s) |];
      cbn [room_heap booking_heap guest_heap].
    apply (room_rewritten_frame s r room); [assumption | auto].
  - apply (attachments_ok_frame s); [exact Hok | exact (bookings_unchanged_frame s) |];
      cbn [room_heap booking_heap guest_heap].
    apply (room_rewritten_frame s r room); [assumption |].
    intros p Hp. cbn. apply elem_of_app. left. exact Hp.
  - apply attachments_ok_attach; assumption.
  - apply (attachments_ok_frame s); [exact Hok | | exact (rooms_unchanged_frame s)];
      cbn [room_heap booking_heap guest_heap].
    apply (booking_rewritten_frame s b bk); [assumption | reflexivity | reflexivity | |].
    + cbn. intros r0. apply remove_first_elem_of.
    + cbn. apply remove_first_NoDup.
  - apply (attachments_ok_frame s); [exact Hok | | exact (rooms_unchanged_frame s)];
      cbn [room_heap booking_heap guest_heap].
    apply (booking_rewritten_frame s b bk); [assumption | reflexivity | reflexivity | |]; auto.
  - apply (attachments_ok_frame s); [exact Hok | | exact (rooms_unchanged_frame s)];
      cbn [room_heap booking_heap guest_heap].
    apply (booking_rewritten_frame s b bk); [assumption | reflexivity | reflexivity | |]; auto.
  - apply (attachments_ok_frame s); [exact Hok | | exact (rooms_unchanged_frame s)];
      cbn [room_heap booking_heap guest_heap].
    apply (booking_rewritten_frame s b bk); [assumption | reflexivity | reflexivity | |]; auto.
  - apply (attachments_ok_frame s);
      [exact Hok | exact (bookings_unchanged_frame s) | exact (rooms_unchanged_frame s)].
  - apply (attachments_ok_frame s);
      [exact Hok | exact (bookings_unchanged_frame s) | exact (rooms_unchanged_frame s)].
Qed.

Lemma attachments_ok_run ops :
  forall s : Store N, well_formed s -> attachments_ok s -> attachments_ok (run ops s).
Proof.
  induction ops as [| op rest IH]; intros s Hwf Hok; cbn; [exact Hok |].
  apply IH; [apply well_formed_step, Hwf |].
  destruct (step_effect s op Hwf) as [-> | Heff]; [exact Hok |].
  apply (attachments_ok_effect s); assumption.
Qed.

Lemma attachments_ok_empty : attachments_ok (@empty_store N).
Proof.
  split; [| split; [| split]]; intros b; intros; cbn in *;
    match goal with Hb : ∅ !! _ = Some _ |- _ => rewrite lookup_empty in Hb; discriminate end.
Qed.

Lemma attachments_ok_reachable (ops : list (operation N)) :
  attachments_ok (run ops empty_store).
Proof.
  apply attachments_ok_run; [| apply attachments_ok_empty].
  intros b bk Hb. cbn in Hb. rewrite lookup_empty in Hb. discriminate.
Qed.

(** X1: in every store reached from the empty one, two different
    bookings that list the same room have dates that do not overlap under
    the half-open test: no room is double-booked. *)
Theorem no_room_is_double_booked (ops : list (operation N))
    (b1 b2 : booking_ref) (bk1 bk2 : Booking N) (r : room_ref) :
  b1 <> b2 ->
  booking_heap (run ops empty_store) !! b1 = Some bk1 ->
  booking_heap (run ops empty_store) !! b2 = Some bk2 ->
  r ∈ _rooms bk1 -> r ∈ _rooms bk2 ->
  ~ (_check_in_date bk1 < _check_out_date bk2 /\ _check_out_date bk1 > _check_in_date bk2).
Proof.
  destruct (attachments_ok_reachable ops) as (_ & Hdouble & _). apply Hdouble.
Qed.

(** X2: in every store reached from the empty one, a room listed by a
    booking is in the store, holds the booking's dates in its list of
    periods, the dates are a valid range, and check_availability answers
    False for them. *)
Theorem listed_room_is_reserved (ops : list (operation N))
    (b : booking_ref) (bk : Booking N) (r : room_ref) :
  booking_heap (run ops empty_store) !! b = Some bk ->
  r ∈ _rooms bk ->
  exists room,
    room_heap (run ops empty_store) !! r = Some room /\
    (_check_in_date bk, _check_out_date bk) ∈ _bookings room /\
    _check_in_date bk < _check_out_date bk /\
    check_availability r (_check_in_date bk) (_check_out_date bk) (run ops empty_store)
      = Returns false (run ops empty_store).
Proof.
  intros Hb Hin. destruct (attachments_ok_reachable ops) as (Hres & _ & _ & Hdated).
  destruct (Hres b bk r Hb Hin) as (room & Hr & Hp).
  assert (Hlt : _check_in_date bk < _check_out_date bk).
  { apply (Hdated b bk Hb). intros Hnil. rewrite Hnil in Hin.
    apply elem_of_nil in Hin. contradiction. }
  exists room. split; [exact Hr |]. split; [exact Hp |]. split; [exact Hlt |].
  rewrite (check_availability_valid _ r room) by assumption. f_equal.
  apply scan_bookings_false. exists (_check_in_date bk), (_check_out_date bk).
  split; [exact Hp | lia].
Qed.

(** X3: in every store reached from the empty one, no booking lists a
    room twice, and add_room of a room the booking lists already raises the
    room-unavailable error and leaves the store as it was. *)
Theorem listed_room_cannot_be_added_again (ops : list (operation N))
    (b : booking_ref) (bk : Booking N) :
  booking_heap (run ops empty_store) !! b = Some bk ->
  NoDup (_rooms bk) /\
  forall r, r ∈ _rooms bk ->
    exists room,
      room_heap (run ops empty_store) !! r = Some room /\
      add_room b r (run ops empty_store)
        = Raises (RoomUnavailableError (_room_number room)) (run ops empty_store).
Proof.
  intros Hb. destruct (attachments_ok_reachable ops) as (Hres & _ & Hdistinct & Hdated).
  split; [apply (Hdistinct b bk Hb) |].
  intros r Hin. destruct (Hres b bk r Hb Hin) as (room & Hr & Hp).
  exists room. split; [exact Hr |].
  assert (Hlt : _check_in_date bk < _check_out_date bk).
  { apply (Hdated b bk Hb). intros Hnil. rewrite Hnil in Hin.
    apply elem_of_nil in Hin. contradiction. }
  apply (add_room_overlapping _ b bk r room); [assumption .. |].
  exists (_check_in_date bk), (_check_out_date bk). split; [exact Hp | lia].
Qed.

(** X4: once a booking lists a room in a store reached from the empty
    one, the room answers False to check_availability for every valid range
    that overlaps the booking's dates, in that store and after any further
    calls, cancel_booking and remove_room among them. *)
Theorem listed_room_stays_blocked (ops later : list (operation N))
    (b : booking_ref) (bk : Booking N) (r : room_ref)
    (check_in_date check_out_date : datetime) :
  booking_heap (run ops empty_store) !! b = Some bk ->
  r ∈ _rooms bk ->
  check_in_date < check_out_date ->
  _check_in_date bk < check_out_date ->
  _check_out_date bk > check_in_date ->
  check_availability r check_in_date check_out_date (run later (run ops empty_store))
    = Returns false (run later (run ops empty_store)).
Proof.
  intros Hb Hin Hlt Hov1 Hov2.
  destruct (attachments_ok_reachable ops) as (Hres & _).
  destruct (Hres b bk r Hb Hin) as (room & Hr & Hp).
  destruct (run_ledgers_grow later (run ops empty_store)) as [_ Hgrow].
  destruct (Hgrow r room Hr) as (room' & Hr' & Hpre).
  rewrite (check_availability_valid _ r room') by assumption. f_equal.
  apply scan_bookings_false. exists (_check_in_date bk), (_check_out_date bk).
  split; [| lia]. apply (elem_of_prefix (_bookings room)); assumption.
Qed.

End Attachments.

Lemma no_room_is_double_booked_witness :
  ~ (day 5 < day 20 /\ day 8 > day 15).
Proof.
  apply (no_room_is_double_booked
           (setup ++ [OpNewBooking 1%nat "b0000002" 0%nat (day 15) (day 20);
                      OpAddRoom 1%nat 0%nat])
           0%nat 1%nat booking0
           (mkBooking "b0000002" 0%nat [0%nat] (day 15) (day 20) 500 false false)
           0%nat).
  - discriminate.
  - reflexivity.
  - reflexivity.
  - apply elem_of_cons. left. reflexivity.
  - apply elem_of_cons. left. reflexivity.
Defined.

Lemma listed_room_is_reserved_witness :
  exists room,
    room_heap store_booked !! 0%nat = Some room /\
    (day 5, day 8) ∈ _bookings room /\
    day 5 < day 8 /\
    check_availability 0%nat (day 5) (day 8) store_booked = Returns false store_booked.
Proof.
  apply (listed_room_is_reserved setup 0%nat booking0 0%nat).
  - reflexivity.
  - apply elem_of_cons. left. reflexivity.
Defined.

Lemma listed_room_cannot_be_added_again_witness :
  NoDup [0%nat] /\
  forall r, r ∈ [0%nat] ->
    exists room,
      room_heap store_booked !! r = Some room /\
      add_room 0%nat r store_booked
        = Raises (RoomUnavailableError (_room_number room)) store_booked.
Proof.
  apply (listed_room_cannot_be_added_again setup 0%nat booking0). reflexivity.
Defined.

Lemma listed_room_stays_blocked_witness :
  check_availability 0%nat (day 7) (day 10)
    (run [OpCreateBooking 0%nat; OpCancelBooking 0%nat; OpRemoveRoom 0%nat 0%nat]
       (run setup empty_store))
  = Returns false
      (run [OpCreateBooking 0%nat; OpCancelBooking 0%nat; OpRemoveRoom 0%nat 0%nat]
         (run setup empty_store)).
Proof.
  apply (listed_room_stays_blocked setup
           [OpCreateBooking 0%nat; OpCancelBooking 0%nat; OpRemoveRoom 0%nat 0%nat]
           0%nat booking0 0%nat (day 7) (day 10)).
  - reflexivity.
  - apply elem_of_cons. left. reflexivity.
  - vm_compute. reflexivity.
  - vm_compute. reflexivity.
  - vm_compute. reflexivity.
Defined.

(** ** Bookings and guest histories over whole runs *)

Section Lifecycle.
Context {N : Type} `{Number N}.

Lemma bookings_persist_refl (s : Store N) : bookings_persist s s.
Proof. intros b bk Hb. exists bk. repeat split; auto. Qed.

Lemma bookings_persist_trans (s1 s2 s3 : Store N) :
  bookings_persist s1 s2 -> bookings_persist s2 s3 -> bookings_persist s1 s3.
Proof.
  intros H12 H23 b bk Hb.
  destruct (H12 b bk Hb) as (bk2 & Hb2 & Hid2 & Hg2 & Hci2 & Hco2 & Hc2).
  destruct (H23 b bk2 Hb2) as (bk3 & Hb3 & Hid3 & Hg3 & Hci3 & Hco3 & Hc3).
  exists bk3. split; [exact Hb3 |]. repeat split; try congruence. auto.
Qed.

Lemma bookings_persist_same_heap (s s' : Store N) :
  booking_heap s' = booking_heap s -> bookings_persist s s'.
Proof. intros Heq b bk Hb. exists bk. rewrite Heq. repeat split; auto. Qed.

Lemma bookings_persist_rewritten (s : Store N) rh gh b bk new :
  booking_heap s !! b = Some bk ->
  _booking_id new = _booking_id bk -> _guest new = _guest bk ->
  _check_in_date new = _check_in_date bk -> _check_out_date new = _check_out_date bk ->
  (_is_canceled bk = true -> _is_canceled new = true) ->
  bookings_persist s (mkStore rh (<[b := new]> (booking_heap s)) gh).
Proof.
  intros Hb Hid Hg Hci Hco Hc b0 bk0 Hb0. cbn. destruct (decide (b = b0)) as [<- | Hne].
  - rewrite lookup_insert_eq. exists new. rewrite Hb in Hb0. inversion Hb0; subst bk0.
    repeat split; assumption.
  - rewrite lookup_insert_ne by exact Hne. exists bk0. repeat split; auto.
Qed.

Lemma bookings_persist_effect (s s' : Store N) : effect s s' -> bookings_persist s s'.
Proof.
  intros Heff. destruct Heff;
    try (apply bookings_persist_same_heap; reflexivity);
    try (apply (bookings_persist_rewritten s _ _ b bk);
         [assumption | reflexivity | reflexivity | reflexivity | reflexivity | cbn; auto]).
  intros b0 bk0 Hb0. cbn. exists bk0. split; [| repeat split; auto].
  rewrite lookup_insert_ne; [exact Hb0 | congruence].
Qed.

Lemma bookings_persist_run ops :
  forall s : Store N, well_formed s -> bookings_persist s (run ops s).
Proof.
  induction ops as [| op rest IH]; intros s Hwf; cbn; [apply bookings_persist_refl |].
  apply (bookings_persist_trans s (step s op)); [| apply IH, well_formed_step, Hwf].
  destruct (step_effect s op Hwf) as [-> | Heff];
    [apply bookings_persist_refl | apply bookings_persist_effect, Heff].
Qed.

Lemma histories_grow_refl (s : Store N) : histories_grow s s.
Proof. intros g guest Hg. exists guest. split; [exact Hg | reflexivity]. Qed.

Lemma histories_grow_trans (s1 s2 s3 : Store N) :
  histories_grow s1 s2 -> histories_grow s2 s3 -> histories_grow s1 s3.
Proof.
  intros H12 H23 g guest Hg.
  destruct (H12 g guest Hg) as (guest2 & Hg2 & Hp2).
  destruct (H23 g guest2 Hg2) as (guest3 & Hg3 & Hp3).
  exists guest3. split; [exact Hg3 | etrans; eassumption].
Qed.

Lemma histories_grow_same_heap (s s' : Store N) :
  guest_heap s' = guest_heap s -> histories_grow s s'.
Proof. intros Heq g guest Hg. exists guest. rewrite Heq. split; [exact Hg | reflexivity]. Qed.

Lemma histories_grow_rewritten (s : Store N) rh bh g guest new :
  guest_heap s !! g = Some guest ->
  _reservations guest `prefix_of` _reservations new ->
  histories_grow s (mkStore rh bh (<[g := new]> (guest_heap s))).
Proof.
  intros Hg Hpre g0 guest0 Hg0. cbn. destruct (decide (g = g0)) as [<- | Hne].
  - rewrite lookup_insert_eq. exists new. rewrite Hg in Hg0. inversion Hg0; subst guest0.
    split; [reflexivity | exact Hpre].
  - rewrite lookup_insert_ne by exact Hne. exists guest0. split; [exact Hg0 | reflexivity].
Qed.

Lemma histories_grow_effect (s s' : Store N) : effect s s' -> histories_grow s s'.
Proof.
  intros Heff. destruct Heff;
    try (apply histories_grow_same_heap; reflexivity).
  - intros g0 guest0 Hg0. cbn. exists guest0. split; [| reflexivity].
    rewrite lookup_insert_ne; [exact Hg0 | congruence].
  - apply (histories_grow_rewritten s _ _ (_guest bk) guest); [assumption |].
    cbn. apply prefix_app_r. reflexivity.
  - apply (histories_grow_rewritten s _ _ g guest); [assumption |].
    cbn. apply prefix_app_r. reflexivity.
  - apply (histories_grow_rewritten s _ _ g guest); [assumption |].
    match goal with Hres : _reservations _ = _reservations _ |- _ => rewrite Hres end.
    reflexivity.
Qed.

Lemma histories_grow_run ops :
  forall s : Store N, well_formed s -> histories_grow s (run ops s).
Proof.
  induction ops as [| op rest IH]; intros s Hwf; cbn; [apply histories_grow_refl |].
  apply (histories_grow_trans s (step s op)); [| apply IH, well_formed_step, Hwf].
  destruct (step_effect s op Hwf) as [-> | Heff];
    [apply histories_grow_refl | apply histories_grow_effect, Heff].
Qed.

(** Bookings that are confirmed in the new store were confirmed, with the
    same guest, in the old one. *)
Lemma confirmed_registered_frame (s s' : Store N) :
  confirmed_registered s ->
  histories_grow s s' ->
  (forall b bk', booking_heap s' !! b = Some bk' -> _is_confirmed bk' = true ->
     exists bk, booking_heap s !! b = Some bk /\ _is_confirmed bk = true /\
                _guest bk' = _guest bk) ->
  confirmed_registered s'.
Proof.
  intros Hreg Hgrow Hold b bk' Hb Hconf.
  destruct (Hold b bk' Hb Hconf) as (bk & Hbk & Hc & Hguest).
  destruct (Hreg b bk Hbk Hc) as (guest & Hg & Hin).
  destruct (Hgrow _ guest Hg) as (guest' & Hg' & Hpre).
  exists guest'. rewrite Hguest. split; [exact Hg' |].
  apply (elem_of_prefix (_reservations guest)); assumption.
Qed.

Lemma confirmed_same_heap (s s' : Store N) :
  booking_heap s' = booking_heap s ->
  forall b bk', booking_heap s' !! b = Some bk' -> _is_confirmed bk' = true ->
    exists bk, booking_heap s !! b = Some bk /\ _is_confirmed bk = true /\
               _guest bk' = _guest bk.
Proof. intros Heq b bk' Hb Hc. exists bk'. rewrite <- Heq. auto. Qed.

Lemma confirmed_rewritten (s : Store N) b bk new :
  booking_heap s !! b = Some bk ->
  _guest new = _guest bk ->
  (_is_confirmed new = true -> _is_confirmed bk = true) ->
  forall b0 bk', <[b := new]> (booking_heap s) !! b0 = Some bk' -> _is_confirmed bk' = true ->
    exists bk0, booking_heap s !! b0 = Some bk0 /\ _is_confirmed bk0 = true /\
                _guest bk' = _guest bk0.
Proof.
  intros Hb Hg Hflag b0 bk'. destruct (decide (b = b0)) as [<- | Hne].
  - rewrite lookup_insert_eq. intros Heq Hc. inversion Heq; subst bk'.
    exists bk. auto.
  - rewrite lookup_insert_ne by exact Hne. intros Hb0 Hc. exists bk'. auto.
Qed.

Lemma confirmed_registered_effect (s s' : Store N) :
  effect s s' -> confirmed_registered s -> confirmed_registered s'.
Proof.
  intros Heff Hreg.
  assert (Hgrow := histories_grow_effect s s' Heff).
  destruct Heff;
    try (apply (confirmed_registered_frame s); [exact Hreg | exact Hgrow |];
         cbn [booking_heap];
         first [ exact (confirmed_same_heap s s eq_refl)
               | solve [ apply (confirmed_rewritten s b bk);
                         [assumption | reflexivity
                         | cbn; intros; first [discriminate | assumption]] ] ]).
  - apply (confirmed_registered_frame s); [exact Hreg | exact Hgrow |].
    cbn [booking_heap]. intros b0 bk'. destruct (decide (b = b0)) as [<- | Hne].
    + rewrite lookup_insert_eq. intros Heq Hc. inversion Heq; subst bk'. discriminate.
    + rewrite lookup_insert_ne by exact Hne. intros Hb0 Hc. exists bk'. auto.
  - intros b0 bk0 Hb0 Hc. cbn [booking_heap guest_heap] in *.
    destruct (decide (b = b0)) as [<- | Hne].
    + rewrite lookup_insert_eq in Hb0. inversion Hb0; subst bk0. cbn.
      rewrite lookup_insert_eq. eexists. split; [reflexivity |].
      cbn. apply elem_of_app. right. apply list_elem_of_singleton. reflexivity.
    + rewrite lookup_insert_ne in Hb0 by exact Hne.
      destruct (Hreg b0 bk0 Hb0 Hc) as (guest0 & Hg0 & Hin).
      destruct (Hgrow _ guest0 Hg0) as (guest' & Hg' & Hpre).
      exists guest'. split; [exact Hg' |].
      apply (elem_of_prefix (_reservations guest0)); assumption.
Qed.

Lemma confirmed_registered_run ops :
  forall s : Store N, well_formed s -> confirmed_registered s ->
    confirmed_registered (run ops s).
Proof.
  induction ops as [| op rest IH]; intros s Hwf Hreg; cbn; [exact Hreg |].
  apply IH; [apply well_formed_step, Hwf |].
  destruct (step_effect s op Hwf) as [-> | Heff]; [exact Hreg |].
  apply (confirmed_registered_effect s); assumption.
Qed.

(** X5: a booking of a store reached from the empty one is still there
    after any further calls, with the identifier, guest and dates it had;
    and once its canceled flag is set the flag stays set, so cancel_booking
    answers False from then on. *)
Theorem booking_keeps_identity_and_cancellation (ops later : list (operation N))
    (b : booking_ref) (bk : Booking N) :
  booking_heap (run ops empty_store) !! b = Some bk ->
  exists bk',
    booking_heap (run later (run ops empty_store)) !! b = Some bk' /\
    _booking_id bk' = _booking_id bk /\ _guest bk' = _guest bk /\
    _check_in_date bk' = _check_in_date bk /\ _check_out_date bk' = _check_out_date bk /\
    (_is_canceled bk = true ->
       _is_canceled bk' = true /\
       cancel_booking b (run later (run ops empty_store))
         = Returns false (run later (run ops empty_store))).
Proof.
  intros Hb.
  destruct (bookings_persist_run later (run ops empty_store) (reachable_well_formed ops)
              b bk Hb) as (bk' & Hb' & Hid & Hg & Hci & Hco & Hc).
  exists bk'. repeat split; try assumption.
  - apply Hc. assumption.
  - apply (cancel_booking_canceled _ b bk'); [exact Hb' | apply Hc; assumption].
Qed.

(** X6: in every store reached from the empty one, a booking whose
    confirmed flag is set is in the reservation list of its guest. *)
Theorem confirmed_booking_is_in_history (ops : list (operation N))
    (b : booking_ref) (bk : Booking N) :
  booking_heap (run ops empty_store) !! b = Some bk ->
  _is_confirmed bk = true ->
  exists guest,
    guest_heap (run ops empty_store) !! _guest bk = Some guest /\
    b ∈ _reservations guest.
Proof.
  assert (Hreg : confirmed_registered (run ops (@empty_store N))).
  { apply confirmed_registered_run.
    - intros b0 bk0 Hb0. cbn in Hb0. rewrite lookup_empty in Hb0. discriminate.
    - intros b0 bk0 Hb0. cbn in Hb0. rewrite lookup_empty in Hb0. discriminate. }
  apply Hreg.
Qed.

(** X7: a guest of a store reached from the empty one is still there
    after any further calls, and the reservation list it had is a prefix of
    the one it has: entries are only ever appended. *)
Theorem history_only_grows (ops later : list (operation N))
    (g : guest_ref) (guest : Guest) :
  guest_heap (run ops empty_store) !! g = Some guest ->
  exists guest',
    guest_heap (run later (run ops (@empty_store N))) !! g = Some guest' /\
    _reservations guest `prefix_of` _reservations guest'.
Proof.
  apply (histories_grow_run later (run ops empty_store) (reachable_well_formed ops)).
Qed.

End Lifecycle.

Lemma booking_keeps_identity_and_cancellation_witness :
  exists bk',
    booking_heap (run [OpCreateBooking 0%nat; OpCalculateTotal 0%nat]
                    (run (setup ++ [OpCancelBooking 0%nat]) empty_store)) !! 0%nat
      = Some bk' /\
    _is_canceled bk' = true /\
    cancel_booking 0%nat (run [OpCreateBooking 0%nat; OpCalculateTotal 0%nat]
                            (run (setup ++ [OpCancelBooking 0%nat]) empty_store))
      = Returns false (run [OpCreateBooking 0%nat; OpCalculateTotal 0%nat]
                         (run (setup ++ [OpCancelBooking 0%nat]) empty_store)).
Proof.
  destruct (booking_keeps_identity_and_cancellation
              (setup ++ [OpCancelBooking 0%nat])
              [OpCreateBooking 0%nat; OpCalculateTotal 0%nat] 0%nat
              (mkBooking "b0000001" 0%nat [0%nat] (day 5) (day 8) 300 false true))
    as (bk' & Hb' & _ & _ & _ & _ & Hc).
  - reflexivity.
  - exists bk'. split; [exact Hb' |]. apply Hc. reflexivity.
Defined.

Lemma confirmed_booking_is_in_history_witness :
  exists guest,
    guest_heap store_confirmed !! 0%nat = Some guest /\ 0%nat ∈ _reservations guest.
Proof.
  apply (confirmed_booking_is_in_history (setup ++ [OpCreateBooking 0%nat]) 0%nat
           (set_is_confirmed booking0 true)); reflexivity.
Defined.

Lemma history_only_grows_witness :
  exists guest',
    guest_heap (run [OpCancelBooking 0%nat; OpCreateBooking 0%nat]
                  (run (setup ++ [OpCreateBooking 0%nat]) empty_store)) !! 0%nat
      = Some guest' /\
    [0%nat] `prefix_of` _reservations guest'.
Proof.
  apply (history_only_grows (setup ++ [OpCreateBooking 0%nat])
           [OpCancelBooking 0%nat; OpCreateBooking 0%nat] 0%nat
           (set_reservations guest0 [0%nat])).
  reflexivity.
Defined.

(** ** Totals while no price changes *)

Section Totals.
Context {N : Type} `{Number N}.

Lemma prices_kept_refl (s : Store N) : prices_kept s s.
Proof. intros r room Hr. exists room. split; [exact Hr | reflexivity]. Qed.

Lemma prices_kept_same_rooms (s s' : Store N) : same_rooms s s' -> prices_kept s s'.
Proof.
  unfold same_rooms. intros Heq r room Hr. exists room. rewrite Heq.
  split; [exact Hr | reflexivity].
Qed.

Lemma prices_kept_rewritten (s : Store N) bh gh r room new :
  room_heap s !! r = Some room ->
  _price_per_night new = _price_per_night room ->
  prices_kept s (mkStore (<[r := new]> (room_heap s)) bh gh).
Proof.
  intros Hr Hprice r0 room0 Hr0. cbn. destruct (decide (r = r0)) as [<- | Hne].
  - rewrite lookup_insert_eq. exists new. split; [reflexivity | congruence].
  - rewrite lookup_insert_ne by exact Hne. exists room0. split; [exact Hr0 | reflexivity].
Qed.

Lemma step_prices_kept (s : Store N) op :
  well_formed s -> reprices op = false -> prices_kept s (step s op).
Proof.
  intros Hwf Hop. destruct op; cbn [step reprices] in *; try discriminate;
    try (apply prices_kept_same_rooms;
         first [ apply same_rooms_new_guest | apply same_rooms_new_booking
               | apply same_rooms_check_availability | apply same_rooms_remove_room
               | apply same_rooms_create_booking | apply same_rooms_cancel_booking
               | apply same_rooms_send_confirmation | apply same_rooms_calculate_total
               | apply same_rooms_add_reservation | apply same_rooms_view_reservations
               | apply same_rooms_update_profile | apply same_rooms_set_loyalty_program
               | apply same_rooms_name_setter | apply same_rooms_contact_setter
               | apply same_rooms_email_setter ]).
  - unfold new_room. destruct (room_heap s !! r) eqn:Hr; [apply prices_kept_refl |].
    intros r0 room0 Hr0. cbn. exists room0. split; [| reflexivity].
    rewrite lookup_insert_ne; [exact Hr0 | congruence].
  - destruct (room_heap s !! r) as [room |] eqn:Hr.
    + destruct (Z_lt_ge_dec check_in_date check_out_date) as [Hlt | Hge].
      * destruct (scan_bookings check_in_date check_out_date (_bookings room)) eqn:Hscan.
        -- apply scan_bookings_true in Hscan.
           rewrite (add_booking_free s r room) by assumption. cbn [store_after].
           apply (prices_kept_rewritten s _ _ r room); [exact Hr | reflexivity].
        -- apply scan_bookings_false in Hscan.
           rewrite (add_booking_overlapping s r room) by assumption. apply prices_kept_refl.
      * rewrite (add_booking_invalid s r room) by assumption. apply prices_kept_refl.
    + unfold add_booking, bind, check_availability, bind, get_room. rewrite Hr.
      apply prices_kept_refl.
  - unfold update_status, bind, get_room.
    destruct (room_heap s !! r) as [room |] eqn:Hr; [| apply prices_kept_refl].
    apply (prices_kept_rewritten s _ _ r room); [exact Hr | reflexivity].
  - unfold amenities_setter, bind, get_room.
    destruct (room_heap s !! r) as [room |] eqn:Hr; [| apply prices_kept_refl].
    apply (prices_kept_rewritten s _ _ r room); [exact Hr | reflexivity].
  - destruct (booking_heap s !! b) as [bk |] eqn:Hb;
      [| rewrite add_room_no_booking by assumption; apply prices_kept_refl].
    destruct (room_heap s !! r) as [room |] eqn:Hr;
      [| rewrite (add_room_no_room s b bk) by assumption; apply prices_kept_refl].
    destruct (add_room_outcomes s b bk r room Hwf Hb Hr) as [Hout | [Hout | (s' & Hout & _)]];
      try (rewrite Hout; apply prices_kept_refl).
    destruct (well_formed_attached_prices s b bk Hwf Hb) as (prices & Hatt).
    destruct (Z_lt_ge_dec (_check_in_date bk) (_check_out_date bk)) as [Hlt | Hge];
      [| rewrite (add_room_invalid s b bk r room) in Hout by assumption; discriminate].
    destruct (scan_bookings (_check_in_date bk) (_check_out_date bk) (_bookings room))
      eqn:Hscan.
    + apply scan_bookings_true in Hscan.
      rewrite (add_room_free s b bk r room prices) by assumption. cbn [store_after].
      apply (prices_kept_rewritten s _ _ r room); [exact Hr | reflexivity].
    + apply scan_bookings_false in Hscan.
      rewrite (add_room_overlapping s b bk r room) in Hout by assumption. discriminate.
Qed.

Lemma attached_prices_kept (s s' : Store N) rooms prices :
  prices_kept s s' -> attached_prices s rooms prices -> attached_prices s' rooms prices.
Proof.
  intros Hkept Hatt. unfold attached_prices in *.
  eapply Forall2_impl; [exact Hatt |]. cbn. intros r p (room & Hr & Hp).
  destruct (Hkept r room Hr) as (room' & Hr' & Hprice).
  exists room'. split; [exact Hr' | congruence].
Qed.

Lemma totals_current_frame (s s' : Store N) :
  prices_kept s s' -> totals_current s ->
  (forall b bk', booking_heap s' !! b = Some bk' ->
     cost_is charges s' bk' \/
     exists bk, booking_heap s !! b = Some bk /\ _rooms bk' = _rooms bk /\
       nights_of bk' = nights_of bk /\ _total_cost bk' = _total_cost bk) ->
  totals_current s'.
Proof.
  intros Hkept Htot Hbk b bk' Hb.
  destruct (Hbk b bk' Hb) as [Hcost | (bk & Hb0 & Hrooms & Hnights & Htotal)];
    [exact Hcost |].
  destruct (Htot b bk Hb0) as (prices & Hatt & Heq).
  exists prices. rewrite Hrooms, Hnights, Htotal.
  split; [apply (attached_prices_kept s); assumption | exact Heq].
Qed.

Lemma totals_same_heap (s s' : Store N) :
  booking_heap s' = booking_heap s ->
  forall b bk', booking_heap s' !! b = Some bk' ->
    cost_is charges s' bk' \/
    exists bk, booking_heap s !! b = Some bk /\ _rooms bk' = _rooms bk /\
      nights_of bk' = nights_of bk /\ _total_cost bk' = _total_cost bk.
Proof. intros Heq b bk' Hb. right. exists bk'. rewrite <- Heq. auto. Qed.

Lemma totals_rewritten (s s' : Store N) b bk new :
  booking_heap s' = <[b := new]> (booking_heap s) ->
  booking_heap s !! b = Some bk ->
  (cost_is charges s' new \/
   _rooms new = _rooms bk /\ nights_of new = nights_of bk /\ _total_cost new = _total_cost bk) ->
  forall b0 bk', booking_heap s' !! b0 = Some bk' ->
    cost_is charges s' bk' \/
    exists bk0, booking_heap s !! b0 = Some bk0 /\ _rooms bk' = _rooms bk0 /\
      nights_of bk' = nights_of bk0 /\ _total_cost bk' = _total_cost bk0.
Proof.
  intros Heq Hb Hnew b0 bk'. rewrite Heq. destruct (decide (b = b0)) as [<- | Hne].
  - rewrite lookup_insert_eq. intros Hsome. inversion Hsome; subst bk'.
    destruct Hnew as [Hcost | Hsame]; [left; exact Hcost |]. right. exists bk. tauto.
  - rewrite lookup_insert_ne by exact Hne. intros Hb0. right. exists bk'. auto.
Qed.

Lemma totals_current_effect (s s' : Store N) :
  effect s s' -> prices_kept s s' -> totals_current s -> totals_current s'.
Proof.
  intros Heff Hkept Htot. apply (totals_current_frame s); [exact Hkept | exact Htot |].
  destruct Heff;
    try (apply totals_same_heap; reflexivity).
  - intros b0 bk'. cbn [booking_heap]. destruct (decide (b = b0)) as [<- | Hne].
    + rewrite lookup_insert_eq. intros Hsome. inversion Hsome; subst bk'.
      left. exists []. split; [constructor | reflexivity].
    + rewrite lookup_insert_ne by exact Hne. intros Hb0. right. exists bk'. auto.
  - eapply (totals_rewritten s _ b bk); [reflexivity | assumption |].
    left. exists (prices ++ [_price_per_night room]). split; [| reflexivity].
    cbn [_rooms set_total_cost set_rooms]. apply Forall2_app.
    + apply (attached_prices_kept s); assumption.
    + constructor; [| constructor]. cbn [room_heap]. rewrite lookup_insert_eq.
      eexists. split; reflexivity.
  - eapply (totals_rewritten s _ b bk); [reflexivity | assumption |].
    left. exists prices. split; [| reflexivity].
    apply (attached_prices_kept s); assumption.
  - eapply (totals_rewritten s _ b bk); [reflexivity | assumption |].
    right. repeat split; reflexivity.
  - eapply (totals_rewritten s _ b bk); [reflexivity | assumption |].
    right. repeat split; reflexivity.
  - eapply (totals_rewritten s _ b bk); [reflexivity | assumption |].
    left. exists prices. split; [| reflexivity].
    apply (attached_prices_kept s); assumption.
Qed.

Lemma totals_current_run ops :
  forall s : Store N,
    well_formed s -> forallb (fun op => negb (reprices op)) ops = true ->
    totals_current s -> totals_current (run ops s).
Proof.
  induction ops as [| op rest IH]; intros s Hwf Hops Htot; cbn in *; [exact Htot |].
  apply andb_true_iff in Hops as [Hop Hrest]. apply negb_true_iff in Hop.
  apply IH; [apply well_formed_step, Hwf | exact Hrest |].
  destruct (step_effect s op Hwf) as [Heq | Heff]; [rewrite Heq; exact Htot |].
  apply (totals_current_effect s); [exact Heff | apply step_prices_kept; assumption | exact Htot].
Qed.

(** X8: as long as no call assigns to a room's price, every booking of
    every store reached from the empty one carries a current total: the
    sum, over its rooms in list order, of the room's price times the nights
    of the booking; in exact arithmetic, nights times the sum of the
    prices. *)
Theorem totals_stay_current_without_repricing (ops : list (operation N))
    (b : booking_ref) (bk : Booking N) :
  forallb (fun op => negb (reprices op)) ops = true ->
  booking_heap (run ops empty_store) !! b = Some bk ->
  cost_is charges (run ops empty_store) bk /\
  (ExactNumber N -> cost_is spec_total (run ops empty_store) bk).
Proof.
  intros Hops Hb.
  assert (Hcost : cost_is charges (run ops empty_store) bk).
  { assert (Htot : totals_current (run ops (@empty_store N))).
    { apply totals_current_run; [| exact Hops |].
      - intros b0 bk0 Hb0. cbn in Hb0. rewrite lookup_empty in Hb0. discriminate.
      - intros b0 bk0 Hb0. cbn in Hb0. rewrite lookup_empty in Hb0. discriminate. }
    apply (Htot b bk Hb). }
  split; [exact Hcost |].
  intros Hexact. destruct Hcost as (prices & Hatt & Htotal).
  exists prices. split; [exact Hatt |]. rewrite Htotal. apply charges_exact.
Qed.

End Totals.

Lemma totals_stay_current_without_repricing_witness :
  cost_is spec_total
    (run (setup ++ [OpAddRoom 0%nat 1%nat; OpCreateBooking 0%nat; OpRemoveRoom 0%nat 0%nat])
       empty_store)
    (mkBooking "b0000001" 0%nat [1%nat] (day 5) (day 8) 450 true false).
Proof.
  apply (totals_stay_current_without_repricing
           (setup ++ [OpAddRoom 0%nat 1%nat; OpCreateBooking 0%nat; OpRemoveRoom 0%nat 0%nat])
           0%nat).
  - reflexivity.
  - reflexivity.
  - apply Z_ExactNumber.
Defined.

(** ** What the calls raise *)

Section Exceptions.
Context {N : Type} `{Number N}.

Lemma bind_raises {A B} (m : M N A) (k : A -> M N B) s e s' :
  bind m k s = Raises e s' ->
  m s = Raises e s' \/ exists a s1, m s = Returns a s1 /\ k a s1 = Raises e s'.
Proof.
  unfold bind. destruct (m s) as [a s1 | e1 s1 |]; [| | discriminate].
  - intros Hk. right. exists a, s1. split; [reflexivity | exact Hk].
  - intros Heq. left. inversion Heq. reflexivity.
Qed.

Lemma get_room_never_raises r (s : Store N) e s' : get_room r s <> Raises e s'.
Proof. unfold get_room. destruct (room_heap s !! r); discriminate. Qed.

Lemma get_booking_never_raises b (s : Store N) e s' : get_booking b s <> Raises e s'.
Proof. unfold get_booking. destruct (booking_heap s !! b); discriminate. Qed.

Lemma get_guest_never_raises g (s : Store N) e s' : get_guest g s <> Raises e s'.
Proof. unfold get_guest. destruct (guest_heap s !! g); discriminate. Qed.

Lemma sum_charges_never_raises nights rooms :
  forall acc (s : Store N) e s', sum_charges nights rooms acc s <> Raises e s'.
Proof.
  induction rooms as [| r rest IH]; intros acc s e s' Hsum; [discriminate |].
  cbn [sum_charges] in Hsum. apply bind_raises in Hsum as [Hget | (room & s1 & _ & Hrest)].
  - exact (get_room_never_raises _ _ _ _ Hget).
  - exact (IH _ _ _ _ Hrest).
Qed.

Lemma _update_total_cost_never_raises b (s : Store N) e s' :
  _update_total_cost b s <> Raises e s'.
Proof.
  intros Hup. unfold _update_total_cost in Hup.
  apply bind_raises in Hup as [Hget | (bk & s1 & _ & Hup)].
  - exact (get_booking_never_raises _ _ _ _ Hget).
  - apply bind_raises in Hup as [Hsum | (total & s2 & _ & Hput)].
    + exact (sum_charges_never_raises _ _ _ _ _ _ Hsum).
    + discriminate.
Qed.

Lemma check_availability_raises r ci co (s : Store N) e s' :
  check_availability r ci co s = Raises e s' ->
  e = InvalidRangeError /\ s' = s /\ ci >= co.
Proof.
  unfold check_availability, bind, get_room.
  destruct (room_heap s !! r); [| discriminate].
  destruct (Z.geb_spec ci co) as [Hge | Hlt]; [| discriminate].
  intros Heq. inversion Heq. repeat split. lia.
Qed.

Lemma check_availability_returns r ci co (s : Store N) available s' :
  check_availability r ci co s = Returns available s' ->
  s' = s /\ ci < co /\
  exists room, room_heap s !! r = Some room /\
               available = scan_bookings ci co (_bookings room).
Proof.
  unfold check_availability, bind, get_room.
  destruct (room_heap s !! r) as [room |]; [| discriminate].
  destruct (Z.geb_spec ci co) as [Hge | Hlt]; [discriminate |].
  intros Heq. inversion Heq. split; [reflexivity |]. split; [exact Hlt |].
  exists room. split; reflexivity.
Qed.

Lemma add_booking_raises r ci co (s : Store N) e s' :
  add_booking r ci co s = Raises e s' ->
  s' = s /\
  (e = InvalidRangeError /\ ci >= co \/
   exists room, room_heap s !! r = Some room /\
     e = RoomUnavailableError (_room_number room) /\
     ci < co /\ overlapping ci co (_bookings room)).
Proof.
  intros Hadd. unfold add_booking in Hadd.
  apply bind_raises in Hadd as [Hcheck | (available & s1 & Hcheck & Hadd)].
  - apply check_availability_raises in Hcheck as (-> & -> & Hge).
    split; [reflexivity |]. left. split; [reflexivity | exact Hge].
  - apply check_availability_returns in Hcheck as (-> & Hlt & room & Hr & ->).
    apply bind_raises in Hadd as [Hget | (room0 & s1 & Hget & Hadd)];
      [exfalso; exact (get_room_never_raises _ _ _ _ Hget) |].
    apply get_room_returns in Hget as [-> Hr0].
    rewrite Hr in Hr0. inversion Hr0; subst room0.
    destruct (scan_bookings ci co (_bookings room)) eqn:Hscan; cbn [negb] in Hadd.
    + apply bind_raises in Hadd as [Hput | (u & s1 & _ & Hret)]; discriminate.
    + inversion Hadd; subst. split; [reflexivity |]. right. exists room.
      split; [exact Hr |]. split; [reflexivity |]. split; [exact Hlt |].
      apply scan_bookings_false, Hscan.
Qed.

Lemma add_room_raises b r (s : Store N) e s' :
  add_room b r s = Raises e s' ->
  s' = s /\
  exists bk room,
    booking_heap s !! b = Some bk /\ room_heap s !! r = Some room /\
    (e = InvalidRangeError /\ _check_in_date bk >= _check_out_date bk \/
     e = RoomUnavailableError (_room_number room) /\
     _check_in_date bk < _check_out_date bk /\
     overlapping (_check_in_date bk) (_check_out_date bk) (_bookings room)).
Proof.
  intros Hadd. unfold add_room in Hadd.
  apply bind_raises in Hadd as [Hget | (bk & s1 & Hget & Hadd)];
    [exfalso; exact (get_booking_never_raises _ _ _ _ Hget) |].
  apply get_booking_returns in Hget as [-> Hb].
  apply bind_raises in Hadd as [Hcheck | (available & s1 & Hcheck & Hadd)].
  - assert (Hroom : exists room, room_heap s !! r = Some room).
    { unfold check_availability, bind, get_room in Hcheck.
      destruct (room_heap s !! r) as [room |]; [eexists; reflexivity | discriminate]. }
    destruct Hroom as (room & Hr).
    apply check_availability_raises in Hcheck as (-> & -> & Hge).
    split; [reflexivity |]. exists bk, room. split; [exact Hb |]. split; [exact Hr |].
    left. split; [reflexivity | exact Hge].
  - apply check_availability_returns in Hcheck as (-> & Hlt & room & Hr & ->).
    apply bind_raises in Hadd as [Hget | (room0 & s1 & Hget & Hadd)];
      [exfalso; exact (get_room_never_raises _ _ _ _ Hget) |].
    apply get_room_returns in Hget as [-> Hr0].
    rewrite Hr in Hr0. inversion Hr0; subst room0.
    destruct (scan_bookings (_check_in_date bk) (_check_out_date bk) (_bookings room))
      eqn:Hscan; cbn [negb] in Hadd.
    + exfalso. apply scan_bookings_true in Hscan.
      apply bind_raises in Hadd as [Hres | (v & s1 & _ & Hadd)];
        [rewrite (add_booking_free s r room) in Hres by assumption; discriminate |].
      apply bind_raises in Hadd as [Hget | (bk' & s2 & _ & Hadd)];
        [exact (get_booking_never_raises _ _ _ _ Hget) |].
      apply bind_raises in Hadd as [Hput | (u & s3 & _ & Hadd)]; [discriminate |].
      apply bind_raises in Hadd as [Hup | (u' & s4 & _ & Hret)]; [| discriminate].
      exact (_update_total_cost_never_raises _ _ _ _ Hup).
    + inversion Hadd; subst. split; [reflexivity |]. exists bk, room.
      split; [exact Hb |]. split; [exact Hr |]. right.
      split; [reflexivity |]. split; [exact Hlt |]. apply scan_bookings_false, Hscan.
Qed.

Lemma create_booking_raises b (s : Store N) e s' :
  create_booking b s = Raises e s' ->
  e = EmptyBookingError /\ s' = s /\
  exists bk, booking_heap s !! b = Some bk /\ _rooms bk = [].
Proof.
  intros Hcreate. unfold create_booking in Hcreate.
  apply bind_raises in Hcreate as [Hget | (bk & s1 & Hget & Hcreate)];
    [exfalso; exact (get_booking_never_raises _ _ _ _ Hget) |].
  apply get_booking_returns in Hget as [-> Hb].
  destruct (_rooms bk) eqn:Hrooms.
  - inversion Hcreate; subst. repeat split. exists bk. split; assumption.
  - exfalso. apply bind_raises in Hcreate as [Hput | (u & s1 & _ & Hcreate)]; [discriminate |].
    apply bind_raises in Hcreate as [Hreg | (v & s2 & _ & Hret)]; [| discriminate].
    unfold add_reservation in Hreg.
    apply bind_raises in Hreg as [Hget | (guest & s2 & _ & Hreg)];
      [exact (get_guest_never_raises _ _ _ _ Hget) |].
    apply bind_raises in Hreg as [Hput | (u' & s3 & _ & Hret)]; discriminate.
Qed.

Lemma send_confirmation_raises b (s : Store N) e s' :
  send_confirmation b s = Raises e s' ->
  e = UnconfirmedBookingError /\ s' = s /\
  exists bk, booking_heap s !! b = Some bk /\ _is_confirmed bk = false.
Proof.
  unfold send_confirmation, bind, get_booking, get_guest.
  destruct (booking_heap s !! b) as [bk |]; [| discriminate].
  destruct (_is_confirmed bk) eqn:Hc; cbn [negb].
  - destruct (guest_heap s !! _guest bk); discriminate.
  - intros Heq. inversion Heq. repeat split. exists bk. split; [reflexivity | exact Hc].
Qed.

Lemma price_per_night_setter_raises r v (s : Store N) e s' :
  price_per_night_setter r v s = Raises e s' ->
  e = NegativePriceError /\ s' = s /\ nnegative v = true.
Proof.
  unfold price_per_night_setter, bind, get_room.
  destruct (room_heap s !! r); [| discriminate].
  destruct (nnegative v); [| discriminate].
  intros Heq. inversion Heq. repeat split.
Qed.

Lemma remove_room_never_raises b r (s : Store N) e s' : remove_room b r s <> Raises e s'.
Proof.
  intros Hrem. unfold remove_room in Hrem.
  apply bind_raises in Hrem as [Hget | (bk & s1 & _ & Hrem)];
    [exact (get_booking_never_raises _ _ _ _ Hget) |].
  destruct (contains r (_rooms bk)); [| discriminate].
  apply bind_raises in Hrem as [Hput | (u & s2 & _ & Hrem)]; [discriminate |].
  apply bind_raises in Hrem as [Hup | (u' & s3 & _ & Hret)]; [| discriminate].
  exact (_update_total_cost_never_raises _ _ _ _ Hup).
Qed.

Lemma cancel_booking_never_raises b (s : Store N) e s' : cancel_booking b s <> Raises e s'.
Proof.
  unfold cancel_booking, bind, get_booking, put_booking.
  destruct (booking_heap s !! b) as [bk |]; [| discriminate].
  destruct (_is_canceled bk); discriminate.
Qed.

Lemma calculate_total_never_raises b (s : Store N) e s' : calculate_total b s <> Raises e s'.
Proof.
  intros Hcalc. unfold calculate_total in Hcalc.
  apply bind_raises in Hcalc as [Hup | (u & s1 & _ & Hcalc)];
    [exact (_update_total_cost_never_raises _ _ _ _ Hup) |].
  apply bind_raises in Hcalc as [Hget | (bk & s2 & _ & Hret)]; [| discriminate].
  exact (get_booking_never_raises _ _ _ _ Hget).
Qed.

(** X9: a call that raises leaves every object as it was, and each
    method raises only its own errors: check_availability the invalid-range
    error (exactly when check-in is not before check-out); add_booking and
    add_room that one or the room-unavailable error naming the room (for a
    valid range that overlaps a stored period); create_booking the
    empty-booking error (on an empty room list); send_confirmation the
    unconfirmed-booking error (confirmed flag not set); the price setter
    the negative-price error.  remove_room, cancel_booking and
    calculate_total never raise. *)
Theorem raising_calls_change_nothing (s s' : Store N) (e : ValueError) :
  (forall r ci co, check_availability r ci co s = Raises e s' ->
     e = InvalidRangeError /\ s' = s /\ ci >= co) /\
  (forall r ci co, add_booking r ci co s = Raises e s' ->
     s' = s /\
     (e = InvalidRangeError /\ ci >= co \/
      exists room, room_heap s !! r = Some room /\
        e = RoomUnavailableError (_room_number room) /\
        ci < co /\ overlapping ci co (_bookings room))) /\
  (forall b r, add_room b r s = Raises e s' ->
     s' = s /\
     exists bk room,
       booking_heap s !! b = Some bk /\ room_heap s !! r = Some room /\
       (e = InvalidRangeError /\ _check_in_date bk >= _check_out_date bk \/
        e = RoomUnavailableError (_room_number room) /\
        _check_in_date bk < _check_out_date bk /\
        overlapping (_check_in_date bk) (_check_out_date bk) (_bookings room))) /\
  (forall b, create_booking b s = Raises e s' ->
     e = EmptyBookingError /\ s' = s /\
     exists bk, booking_heap s !! b = Some bk /\ _rooms bk = []) /\
  (forall b, send_confirmation b s = Raises e s' ->
     e = UnconfirmedBookingError /\ s' = s /\
     exists bk, booking_heap s !! b = Some bk /\ _is_confirmed bk = false) /\
  (forall r v, price_per_night_setter r v s = Raises e s' ->
     e = NegativePriceError /\ s' = s /\ nnegative v = true) /\
  (forall b r, remove_room b r s <> Raises e s') /\
  (forall b, cancel_booking b s <> Raises e s') /\
  (forall b, calculate_total b s <> Raises e s').
Proof.
  split; [intros r ci co; apply check_availability_raises |].
  split; [intros r ci co; apply add_booking_raises |].
  split; [intros b r; apply add_room_raises |].
  split; [intros b; apply create_booking_raises |].
  split; [intros b; apply send_confirmation_raises |].
  split; [intros r v; apply price_per_night_setter_raises |].
  split; [intros b r; apply remove_room_never_raises |].
  split; [intros b; apply cancel_booking_never_raises |].
  intros b. apply calculate_total_never_raises.
Qed.

End Exceptions.

Lemma raising_calls_change_nothing_witness :
  store_two_bookings = store_two_bookings /\
  exists bk room,
    booking_heap store_two_bookings !! 1%nat = Some bk /\
    room_heap store_two_bookings !! 0%nat = Some room /\
    (RoomUnavailableError 101 = InvalidRangeError /\
     _check_in_date bk >= _check_out_date bk \/
     RoomUnavailableError 101 = RoomUnavailableError (_room_number room) /\
     _check_in_date bk < _check_out_date bk /\
     overlapping (_check_in_date bk) (_check_out_date bk) (_bookings room)).
Proof.
  destruct (raising_calls_change_nothing store_two_bookings store_two_bookings
              (RoomUnavailableError 101)) as (_ & _ & Hadd & _).
  apply (Hadd 1%nat 0%nat). vm_compute. reflexivity.
Defined.

(** ** Confirmation notices and emptied bookings *)

Section Notices.
Context {N : Type} `{Number N}.

Lemma send_confirmation_by_flag (s : Store N) b bk guest :
  booking_heap s !! b = Some bk -> guest_heap s !! _guest bk = Some guest ->
  send_confirmation b s
    = if _is_confirmed bk then Returns true s else Raises UnconfirmedBookingError s.
Proof.
  intros Hb Hg. unfold send_confirmation, bind, get_booking, get_guest. rewrite Hb.
  destruct (_is_confirmed bk); cbn [negb]; [rewrite Hg |]; reflexivity.
Qed.

(** X10: send_confirmation goes by the confirmed flag alone: it returns
    True when the flag is set and raises the unconfirmed-booking error when
    it is not, changing nothing; so it returns True right after a
    create_booking that succeeded and raises right after a cancel_booking
    that returned True. *)
Theorem send_confirmation_follows_the_flag (s : Store N) (b : booking_ref)
    (bk : Booking N) (guest : Guest) :
  booking_heap s !! b = Some bk ->
  guest_heap s !! _guest bk = Some guest ->
  send_confirmation b s
    = (if _is_confirmed bk then Returns true s else Raises UnconfirmedBookingError s) /\
  (forall s1, create_booking b s = Returns true s1 ->
     send_confirmation b s1 = Returns true s1) /\
  (forall s1, cancel_booking b s = Returns true s1 ->
     send_confirmation b s1 = Raises UnconfirmedBookingError s1).
Proof.
  intros Hb Hg. split; [apply (send_confirmation_by_flag s b bk guest); assumption |].
  split.
  - intros s1 Hcreate. destruct (_rooms bk) eqn:Hrooms.
    + rewrite (create_booking_empty s b bk) in Hcreate by assumption. discriminate.
    + rewrite (create_booking_rooms s b bk guest) in Hcreate;
        [| exact Hb | rewrite Hrooms; discriminate | exact Hg].
      inversion Hcreate; subst s1.
      rewrite (send_confirmation_by_flag _ b (set_is_confirmed bk true)
                 (set_reservations guest (_reservations guest ++ [b]))).
      * reflexivity.
      * cbn. apply lookup_insert_eq.
      * cbn. apply lookup_insert_eq.
  - intros s1 Hcancel. destruct (_is_canceled bk) eqn:Hc.
    + rewrite (cancel_booking_canceled s b bk) in Hcancel by assumption. discriminate.
    + rewrite (cancel_booking_live s b bk) in Hcancel by assumption.
      inversion Hcancel; subst s1.
      rewrite (send_confirmation_by_flag _ b
                 (set_is_confirmed (set_is_canceled bk true) false) guest).
      * reflexivity.
      * cbn. apply lookup_insert_eq.
      * exact Hg.
Qed.

(** X11: remove_room looks at neither flag: the booking it leaves has
    the flags it had.  Taking the only room out of a booking, confirmed or
    not, returns True and leaves it with no rooms and a total of zero, and
    create_booking on it then raises the empty-booking error. *)
Theorem remove_room_keeps_the_flags (s s1 : Store N) (b : booking_ref) (r : room_ref) :
  remove_room b r s = Returns true s1 ->
  exists bk bk1,
    booking_heap s !! b = Some bk /\ booking_heap s1 !! b = Some bk1 /\
    _is_confirmed bk1 = _is_confirmed bk /\ _is_canceled bk1 = _is_canceled bk /\
    _rooms bk1 = remove_first r (_rooms bk) /\
    (_rooms bk = [r] ->
       _rooms bk1 = [] /\ _total_cost bk1 = nzero /\
       create_booking b s1 = Raises EmptyBookingError s1).
Proof.
  intros Hrem. unfold remove_room in Hrem.
  apply bind_returns in Hrem as (bk & s0 & [-> Hb]%get_booking_returns & Hrem).
  destruct (contains r (_rooms bk)); [| discriminate].
  apply bind_returns in Hrem as (u & s2 & Hput & Hrem).
  unfold put_booking in Hput. inversion Hput; subst s2. clear Hput.
  apply bind_returns in Hrem as (u' & s3 & Hup & Hret).
  inversion Hret; subst s3. clear Hret.
  apply _update_total_cost_returns in Hup as (bk0 & prices & Hb0 & Hatt & ->).
  cbn [booking_heap] in Hb0. rewrite lookup_insert_eq in Hb0.
  inversion Hb0; subst bk0. clear Hb0.
  exists bk. eexists. split; [exact Hb |].
  split; [cbn [booking_heap]; apply lookup_insert_eq |].
  split; [reflexivity |]. split; [reflexivity |]. split; [reflexivity |].
  intros Hone. cbn [_rooms set_total_cost set_rooms] in *. rewrite Hone in *.
  cbn [remove_first] in *. rewrite Nat.eqb_refl in *.
  split; [reflexivity |]. split.
  - inversion Hatt. reflexivity.
  - eapply create_booking_empty; [cbn [booking_heap]; apply lookup_insert_eq |].
    cbn. rewrite ?Nat.eqb_refl. reflexivity.
Qed.

End Notices.

Lemma send_confirmation_follows_the_flag_witness :
  send_confirmation 0%nat store_booked = Raises UnconfirmedBookingError store_booked /\
  send_confirmation 0%nat store_confirmed = Returns true store_confirmed /\
  send_confirmation 0%nat store_canceled = Raises UnconfirmedBookingError store_canceled.
Proof.
  destruct (send_confirmation_follows_the_flag store_booked 0%nat booking0 guest0)
    as (Hnow & Hcreate & _); [reflexivity | reflexivity |].
  destruct (send_confirmation_follows_the_flag store_confirmed 0%nat
              (set_is_confirmed booking0 true) (set_reservations guest0 [0%nat]))
    as (_ & _ & Hcancel); [reflexivity | reflexivity |].
  split; [exact Hnow |]. split.
  - apply Hcreate. vm_compute. reflexivity.
  - apply Hcancel. vm_compute. reflexivity.
Defined.

Lemma remove_room_keeps_the_flags_witness :
  exists bk bk1,
    booking_heap store_confirmed !! 0%nat = Some bk /\
    booking_heap (run [OpRemoveRoom 0%nat 0%nat] store_confirmed) !! 0%nat = Some bk1 /\
    _is_confirmed bk1 = _is_confirmed bk /\ _is_canceled bk1 = _is_canceled bk /\
    _rooms bk1 = remove_first 0%nat (_rooms bk) /\
    (_rooms bk = [0%nat] ->
       _rooms bk1 = [] /\ _total_cost bk1 = nzero /\
       create_booking 0%nat (run [OpRemoveRoom 0%nat 0%nat] store_confirmed)
         = Raises EmptyBookingError (run [OpRemoveRoom 0%nat 0%nat] store_confirmed)).
Proof.
  apply (remove_room_keeps_the_flags store_confirmed
           (run [OpRemoveRoom 0%nat 0%nat] store_confirmed) 0%nat 0%nat).
  vm_compute. reflexivity.
Defined.

(** * Invoices and payments *)

Section InvoiceProperties.
Context {N : Type} `{Number N}.

Lemma room_charges_attached (s : Store N) nights rooms prices :
  attached_prices s rooms prices ->
  forall items0,
  exists items,
    invoice.room_charges s nights rooms items0 = Some (items0 ++ items) /\
    map invoice.amount items = map (fun p => nscale p nights) prices /\
    Forall2 (fun r item => exists room, room_heap s !! r = Some room /\
               invoice.amount item = nscale (_price_per_night room) nights)
            rooms items.
Proof.
  induction 1 as [| r p rooms prices (room & Hroom & Hp) _ IH]; intros items0.
  - exists []. cbn. rewrite app_nil_r. repeat split; constructor.
  - cbn [invoice.room_charges]. rewrite Hroom.
    destruct (IH (items0 ++
      [invoice.mkItem ("Room " +:+ pretty (_room_number room) +:+ " ("
                         +:+ RoomType_value (_room_type room) +:+ ") - "
                         +:+ pretty nights +:+ " nights")
                      (nscale (_price_per_night room) nights)]))
      as (items & Hrun & Hmap & Hall).
    eexists (_ :: items). rewrite Hrun, <- app_assoc. cbn [app].
    split; [reflexivity |]. split.
    + cbn [map]. f_equal; [cbn; rewrite Hp; reflexivity | exact Hmap].
    + constructor; [| exact Hall]. exists room. split; [exact Hroom | reflexivity].
Qed.

Lemma invoice_total_add_item (inv : invoice.Invoice N) description amount :
  invoice.calculate_total (invoice.add_item description amount inv)
    = nadd (invoice.calculate_total inv) amount.
Proof.
  unfold invoice.calculate_total, invoice.add_item. cbn [invoice._items invoice.set_items].
  rewrite map_app, fold_left_app. reflexivity.
Qed.

Lemma invoice_total_add_items (extras : list (string * N)) :
  forall inv : invoice.Invoice N,
    invoice.calculate_total
      (fold_left (fun i e => invoice.add_item (fst e) (snd e) i) extras inv)
    = fold_left nadd (map snd extras) (invoice.calculate_total inv).
Proof.
  induction extras as [| e extras IH]; intros inv; [reflexivity |].
  cbn [fold_left map]. rewrite IH, invoice_total_add_item. reflexivity.
Qed.

Lemma Invoice_init_attached (s : Store N) now invoice_id b p bk prices :
  booking_heap s !! b = Some bk ->
  attached_prices s (_rooms bk) prices ->
  exists inv,
    invoice.Invoice_init s now invoice_id b p = Some inv /\
    invoice._invoice_id inv = invoice_id /\
    invoice._booking inv = b /\
    invoice._issue_date inv = now /\ invoice._due_date inv = now /\
    Forall2 (fun r item => exists room, room_heap s !! r = Some room /\
               invoice.amount item = nscale (_price_per_night room) (nights_of bk))
            (_rooms bk) (invoice._items inv) /\
    invoice.calculate_total inv = charges (nights_of bk) prices.
Proof.
  intros Hb Hprices.
  destruct (room_charges_attached s (nights_of bk) _ _ Hprices [])
    as (items & Hrun & Hmap & Hall).
  unfold invoice.Invoice_init, invoice._generate_line_items.
  cbn [invoice._booking invoice._items]. rewrite Hb.
  fold (nights_of bk). rewrite Hrun. cbn [app].
  eexists. split; [reflexivity |].
  cbn [invoice.set_items invoice._invoice_id invoice._booking invoice._issue_date
       invoice._due_date invoice._items].
  repeat (split; [reflexivity |]). split; [exact Hall |].
  unfold invoice.calculate_total, charges. cbn [invoice._items invoice.set_items]. rewrite Hmap.
  reflexivity.
Qed.

Lemma calculate_total_charges (s s' : Store N) b total :
  calculate_total b s = Returns total s' ->
  exists bk prices,
    booking_heap s !! b = Some bk /\
    attached_prices s (_rooms bk) prices /\
    total = charges (nights_of bk) prices.
Proof.
  intros Hcall. pose proof Hcall as Hcall'.
  unfold calculate_total in Hcall'.
  apply bind_returns in Hcall' as (u & s1 & Hupd & _).
  apply _update_total_cost_returns in Hupd as (bk & prices & Hb & Hprices & _).
  exists bk, prices. split; [exact Hb |]. split; [exact Hprices |].
  rewrite (calculate_total_attached s b bk prices Hb Hprices) in Hcall.
  inversion Hcall. reflexivity.
Qed.

(** X12: an invoice made in a store where the booking's calculate_total
    returns has one line per room of the booking, in the booking's order,
    each with the room's price times the nights; its total is the value
    calculate_total returns, and items added later are added to that value
    in turn. *)
Theorem invoice_total_is_booking_total (s s' : Store N) (now : datetime)
    (invoice_id : string) (b : booking_ref) (p : payment_ref) (total : N)
    (extras : list (string * N)) :
  calculate_total b s = Returns total s' ->
  exists inv bk,
    booking_heap s !! b = Some bk /\
    invoice.Invoice_init s now invoice_id b p = Some inv /\
    Forall2 (fun r item => exists room, room_heap s !! r = Some room /\
               invoice.amount item = nscale (_price_per_night room) (nights_of bk))
            (_rooms bk) (invoice._items inv) /\
    invoice.calculate_total inv = total /\
    invoice.calculate_total
      (fold_left (fun i e => invoice.add_item (fst e) (snd e) i) extras inv)
    = fold_left nadd (map snd extras) total.
Proof.
  intros Hcall.
  destruct (calculate_total_charges _ _ _ _ Hcall) as (bk & prices & Hb & Hprices & ->).
  destruct (Invoice_init_attached s now invoice_id b p bk prices Hb Hprices)
    as (inv & Hinit & _ & _ & _ & _ & Hall & Htotal).
  exists inv, bk. repeat (split; [assumption |]).
  rewrite invoice_total_add_items, Htotal. reflexivity.
Qed.

End InvoiceProperties.

Lemma invoice_total_is_booking_total_witness :
  exists inv bk,
    booking_heap store_booked !! 0%nat = Some bk /\
    invoice.Invoice_init store_booked (day 9) "p0000001" 0%nat 0%nat = Some inv /\
    Forall2 (fun r item => exists room, room_heap store_booked !! r = Some room /\
               invoice.amount item = nscale (_price_per_night room) (nights_of bk))
            (_rooms bk) (invoice._items inv) /\
    invoice.calculate_total inv = 300 /\
    invoice.calculate_total
      (fold_left (fun i e => invoice.add_item (fst e) (snd e) i) [("Breakfast", 45)] inv)
    = fold_left nadd (map snd [("Breakfast", 45)]) 300.
Proof.
  apply (invoice_total_is_booking_total store_booked store_booked (day 9) "p0000001"
           0%nat 0%nat 300 [("Breakfast", 45)]).
  vm_compute. reflexivity.
Defined.

Section PaymentProperties.
Context {N : Type} `{Number N} `{Money N}.

Lemma listed_elem_of (method : string) (methods : list string) :
  payment.listed method methods = true <-> method ∈ methods.
Proof.
  induction methods as [| m rest IH]; cbn [payment.listed].
  - split; [discriminate | intros Hin; inversion Hin].
  - rewrite elem_of_cons. destruct (String.eqb m method) eqn:Heq.
    + apply String.eqb_eq in Heq. split; [intros _; left; congruence | reflexivity].
    + apply String.eqb_neq in Heq. rewrite IH.
      split; [right; assumption | intros [-> | Hin]; [contradiction | assumption]].
Qed.

(** X13: a payment is made only with one of the five listed methods,
    spelled as listed; any other raises ValueError with the list in its
    message.  A payment just made has no transaction date and cannot
    generate an invoice; once processed it has the date of processing, and
    in a store where the booking's calculate_total returns it generates an
    invoice that carries the payment's identifier and totals to the value
    calculate_total returns, whatever the payment's amount. *)
Theorem invoice_needs_a_processed_payment (s s' : Store N) (payment_id : string)
    (b : booking_ref) (amount : N) (payment_method : string)
    (details : option (list (string * string))) (pay : payment.Payment N)
    (now issued : datetime) (self_ref : payment_ref) (total : N) :
  payment.Payment_init payment_id b amount payment_method details = inr pay ->
  calculate_total b s = Returns total s' ->
  payment_method ∈ payment.PAYMENT_METHODS /\
  (forall other, other ∉ payment.PAYMENT_METHODS ->
     payment.Payment_init payment_id b amount other details
       = inl (PyValueError
           "Invalid payment method. Choose from: Credit Card, Debit Card, Cash, Mobile Wallet, Bank Transfer")) /\
  payment._transaction_date pay = None /\
  payment.generate_invoice s issued self_ref pay
    = Some (inl (PyValueError "Cannot generate invoice for an unsuccessful payment")) /\
  exists pay' inv,
    payment.process_payment now pay = Replied true pay' /\
    payment._transaction_date pay' = Some now /\
    payment._amount pay' = amount /\
    payment.generate_invoice s issued self_ref pay' = Some (inr inv) /\
    invoice._invoice_id inv = payment_id /\
    invoice._issue_date inv = issued /\
    invoice.calculate_total inv = total.
Proof.
  intros Hinit Hcall. unfold payment.Payment_init in Hinit.
  destruct (payment.listed payment_method payment.PAYMENT_METHODS) eqn:Hlisted;
    cbn [negb] in Hinit; [| discriminate].
  inversion Hinit as [Hpay]. clear Hinit.
  split; [apply listed_elem_of; exact Hlisted |].
  split.
  { intros other Hother. unfold payment.Payment_init.
    destruct (payment.listed other payment.PAYMENT_METHODS) eqn:Hl.
    - apply listed_elem_of in Hl. contradiction.
    - reflexivity. }
  split; [reflexivity |]. split; [reflexivity |].
  destruct (calculate_total_charges _ _ _ _ Hcall) as (bk & prices & Hb & Hprices & ->).
  destruct (Invoice_init_attached s issued payment_id b self_ref bk prices Hb Hprices)
    as (inv & Hinv & Hid & _ & Hissue & _ & _ & Htotal).
  eexists; exists inv. split; [reflexivity |].
  unfold payment.generate_invoice.
  cbn [payment._transaction_date payment._amount payment._is_successful
       payment._payment_id payment._booking negb].
  rewrite Hinv. repeat (split; [reflexivity || assumption |]). exact Htotal.
Qed.

End PaymentProperties.

Lemma invoice_needs_a_processed_payment_witness :
  "Cash" ∈ payment.PAYMENT_METHODS /\
  (forall other, other ∉ payment.PAYMENT_METHODS ->
     payment.Payment_init "p0000001" 0%nat 250 other None
       = inl (PyValueError
           "Invalid payment method. Choose from: Credit Card, Debit Card, Cash, Mobile Wallet, Bank Transfer")) /\
  payment._transaction_date (payment.mkPayment "p0000001" 0%nat 250 "Cash" None false [])
    = None /\
  payment.generate_invoice store_booked (day 10) 0%nat
      (payment.mkPayment "p0000001" 0%nat 250 "Cash" None false [])
    = Some (inl (PyValueError "Cannot generate invoice for an unsuccessful payment")) /\
  exists pay' inv,
    payment.process_payment (day 9)
        (payment.mkPayment "p0000001" 0%nat 250 "Cash" None false [])
      = Replied true pay' /\
    payment._transaction_date pay' = Some (day 9) /\
    payment._amount pay' = 250 /\
    payment.generate_invoice store_booked (day 10) 0%nat pay' = Some (inr inv) /\
    invoice._invoice_id inv = "p0000001" /\
    invoice._issue_date inv = day 10 /\
    invoice.calculate_total inv = 300.
Proof.
  apply (invoice_needs_a_processed_payment store_booked store_booked "p0000001" 0%nat
           250 "Cash" None _ (day 9) (day 10) 0%nat 300).
  - reflexivity.
  - vm_compute. reflexivity.
Defined.

Section Discounts.

Lemma try_discount_bounds (p : payment.Payment Z) (d : Z) :
  0 <= payment._amount p ->
  0 <= payment._amount (payment.try_discount p d) <= payment._amount p /\
  payment._payment_id (payment.try_discount p d) = payment._payment_id p /\
  payment._booking (payment.try_discount p d) = payment._booking p /\
  payment._payment_method (payment.try_discount p d) = payment._payment_method p /\
  payment._is_successful (payment.try_discount p d) = payment._is_successful p /\
  payment._transaction_date (payment.try_discount p d) = payment._transaction_date p.
Proof.
  intros Hamount. unfold payment.try_discount, payment.apply_discount.
  cbn [nnegative nless nsub Z_Number Z_Money].
  destruct (d <? 0) eqn:Hneg; [cbn; repeat split; lia || reflexivity |].
  destruct (payment._amount p <? d) eqn:Hover; [cbn; repeat split; lia || reflexivity |].
  apply Z.ltb_ge in Hneg, Hover.
  cbn. repeat split; lia || reflexivity.
Qed.


End Discounts.


(** * Loyalty programs *)

Section LoyaltyProperties.
Import loyalty_program.

Lemma tiers_sorted :
  sorted_by_threshold TIER_THRESHOLDS
    = [("Platinum", 10000); ("Gold", 5000); ("Silver", 1000); ("Bronze", 0)].
Proof. reflexivity. Qed.

Lemma _update_tier_fields (self : LoyaltyProgram) :
  _points (_update_tier self) = _points self /\
  _member_id (_update_tier self) = _member_id self /\
  _guest (_update_tier self) = _guest self.
Proof.
  unfold _update_tier.
  destruct (first_reached _ _); [| repeat split].
  destruct (negb _); repeat split.
Qed.

Lemma _update_tier_reached (self : LoyaltyProgram) :
  0 <= _points self ->
  _tier (_update_tier self) = tier_reached (_points self).
Proof.
  intros Hpoints. unfold _update_tier, tier_reached. rewrite tiers_sorted. cbn [first_reached].
  rewrite !Z.geb_leb.
  destruct (10000 <=? _points self);
    [| destruct (5000 <=? _points self);
       [| destruct (1000 <=? _points self);
          [| destruct (0 <=? _points self) eqn:H0; [| apply Z.leb_gt in H0; lia]]]];
    match goal with
    | |- context [String.eqb ?a ?b] =>
        destruct (String.eqb a b) eqn:Heq;
          [apply String.eqb_eq in Heq; cbn [negb]; exact Heq | reflexivity]
    end.
Qed.

Lemma _update_tier_below_zero (self : LoyaltyProgram) :
  _points self < 0 -> _update_tier self = self.
Proof.
  intros Hpoints. unfold _update_tier. rewrite tiers_sorted. cbn [first_reached].
  rewrite !Z.geb_leb.
  destruct (10000 <=? _points self) eqn:H1; [apply Z.leb_le in H1; lia |].
  destruct (5000 <=? _points self) eqn:H2; [apply Z.leb_le in H2; lia |].
  destruct (1000 <=? _points self) eqn:H3; [apply Z.leb_le in H3; lia |].
  destruct (0 <=? _points self) eqn:H4; [apply Z.leb_le in H4; lia |].
  reflexivity.
Qed.

Lemma tier_current_update (self : LoyaltyProgram) : tier_current (_update_tier self).
Proof.
  intros Hpoints. destruct (_update_tier_fields self) as (Hp & _).
  rewrite Hp in *. apply _update_tier_reached. exact Hpoints.
Qed.

Lemma perform_tier_current (self : LoyaltyProgram) (c : call) :
  tier_current self -> tier_current (perform self c).
Proof.
  intros Hinv. destruct c as [stay_value | points_to_redeem]; cbn [perform].
  - unfold earn_points. destruct (py_int stay_value); cbn [object_after];
      [exact Hinv | apply tier_current_update].
  - unfold redeem_points. destruct (points_to_redeem >? _points self);
      cbn [object_after]; [exact Hinv |].
    destruct (float_of_py_int points_to_redeem); cbn [object_after];
      [exact Hinv | apply tier_current_update].
Qed.

Lemma perform_identity (self : LoyaltyProgram) (c : call) :
  _member_id (perform self c) = _member_id self /\
  _guest (perform self c) = _guest self.
Proof.
  destruct c as [stay_value | points_to_redeem]; cbn [perform].
  - unfold earn_points. destruct (py_int stay_value); cbn [object_after];
      [split; reflexivity |].
    destruct (_update_tier_fields (set_points self (_points self + z))) as (_ & -> & ->).
    split; reflexivity.
  - unfold redeem_points. destruct (points_to_redeem >? _points self);
      cbn [object_after]; [split; reflexivity |].
    destruct (float_of_py_int points_to_redeem); cbn [object_after];
      [split; reflexivity |].
    destruct (_update_tier_fields (set_points self (_points self - points_to_redeem)))
      as (_ & -> & ->).
    split; reflexivity.
Qed.

Lemma history_snoc (calls : list call) (c : call) (self : LoyaltyProgram) :
  history (calls ++ [c]) self = perform (history calls self) c.
Proof. unfold history. rewrite fold_left_app. reflexivity. Qed.

(** X15: whatever a member earns and redeems from the start, with errors
    caught, a balance that is not negative always carries the tier of the
    highest threshold it reaches, so a redemption can lower the tier; the
    member number and the guest never change. *)
Theorem tier_follows_the_balance (member_id : Z) (guest : guest_ref) (calls : list call) :
  let self := history calls (LoyaltyProgram_init member_id guest) in
  _member_id self = member_id /\ _guest self = guest /\
  (0 <= _points self ->
   _tier self = (if 10000 <=? _points self then "Platinum"
                 else if 5000 <=? _points self then "Gold"
                 else if 1000 <=? _points self then "Silver"
                 else "Bronze")).
Proof.
  cbn zeta. induction calls as [| c calls IH] using rev_ind.
  - cbn. repeat split.
  - rewrite history_snoc. destruct IH as (Hm & Hg & Htier).
    destruct (perform_identity (history calls (LoyaltyProgram_init member_id guest)) c)
      as (-> & ->).
    repeat (split; [assumption |]).
    apply (perform_tier_current _ c Htier).
Qed.

(** X16: redeem_points refuses with ValueError exactly the amounts above
    the balance; a call that raises changes nothing; a redemption that
    returns takes the amount off the balance, leaves a balance that is not
    negative, and returns a tenth of the amount as a float. *)
Theorem redemption_never_overdraws (self self' : LoyaltyProgram) (points_to_redeem : Z) :
  (points_to_redeem > _points self <->
   redeem_points points_to_redeem self
     = Threw (PyValueError "Insufficient points for redemption") self) /\
  (forall e, redeem_points points_to_redeem self = Threw e self' -> self' = self) /\
  (forall redemption_value,
     redeem_points points_to_redeem self = Replied redemption_value self' ->
     points_to_redeem <= _points self /\
     _points self' = _points self - points_to_redeem /\
     0 <= check_balance self' /\
     exists p, float_of_py_int points_to_redeem = inr p /\
               redemption_value = PrimFloat.mul p 0x1.999999999999ap-4%float).
Proof.
  unfold redeem_points.
  destruct (points_to_redeem >? _points self) eqn:Hguard.
  - apply Z.gtb_lt in Hguard. split; [split; [reflexivity | lia] |].
    split; [intros e Heq; inversion Heq; reflexivity | intros v Heq; discriminate].
  - assert (Hle : points_to_redeem <= _points self).
    { destruct (Z.gtb_spec points_to_redeem (_points self)); [discriminate | lia]. }
    split.
    { split; [lia |]. unfold float_of_py_int.
      destruct (PrimFloat.is_infinity _); discriminate. }
    destruct (float_of_py_int points_to_redeem) as [e | p].
    + split; [intros e' Heq; inversion Heq; reflexivity | intros v Heq; discriminate].
    + split; [intros e' Heq; discriminate |].
      intros v Heq. inversion Heq as [[Hv Hself]].
      destruct (_update_tier_fields (set_points self (_points self - points_to_redeem)))
        as (Hp & _).
      unfold check_balance. rewrite Hp. cbn [set_points _points].
      split; [exact Hle |]. split; [reflexivity |]. split; [lia |].
      exists p. split; reflexivity.
Qed.

Lemma history_balance (calls : list call) :
  forall self,
    forallb (fun c => negb (earns_negative c)) calls = true ->
    0 <= _points self -> 0 <= _points (history calls self).
Proof.
  induction calls as [| c calls IH]; intros self Hcalls Hpoints; [exact Hpoints |].
  cbn [forallb] in Hcalls. apply andb_true_iff in Hcalls as [Hc Hcalls].
  unfold history. cbn [fold_left]. apply IH; [exact Hcalls |].
  destruct c as [stay_value | points_to_redeem]; cbn [perform earns_negative] in *.
  - unfold earn_points. destruct (py_int stay_value) as [e | k]; cbn [object_after];
      [exact Hpoints |].
    destruct (_update_tier_fields (set_points self (_points self + k))) as (-> & _).
    cbn [set_points _points]. apply negb_true_iff, Z.ltb_ge in Hc. lia.
  - unfold redeem_points. destruct (points_to_redeem >? _points self) eqn:Hguard;
      cbn [object_after]; [exact Hpoints |].
    destruct (float_of_py_int points_to_redeem); cbn [object_after]; [exact Hpoints |].
    destruct (_update_tier_fields (set_points self (_points self - points_to_redeem)))
      as (-> & _).
    cbn [set_points _points].
    destruct (Z.gtb_spec points_to_redeem (_points self)); [discriminate | lia].
Qed.

(** X17: as long as no stay value below zero is earned, the balance of a
    member is never negative, whatever is redeemed, amounts below zero
    among them. *)
Theorem balance_is_never_negative (member_id : Z) (guest : guest_ref) (calls : list call) :
  forallb (fun c => negb (earns_negative c)) calls = true ->
  0 <= check_balance (history calls (LoyaltyProgram_init member_id guest)).
Proof.
  intros Hcalls. unfold check_balance. apply history_balance; [exact Hcalls |].
  cbn. lia.
Qed.

End LoyaltyProperties.

Lemma tier_follows_the_balance_witness :
  let self := loyalty_program.history
                [loyalty_program.Earn (Float 5200.75%float); loyalty_program.Redeem 4500]
                (loyalty_program.LoyaltyProgram_init 7 0%nat) in
  loyalty_program._member_id self = 7 /\ loyalty_program._guest self = 0%nat /\
  (0 <= loyalty_program._points self ->
   loyalty_program._tier self
     = (if 10000 <=? loyalty_program._points self then "Platinum"
        else if 5000 <=? loyalty_program._points self then "Gold"
        else if 1000 <=? loyalty_program._points self then "Silver"
        else "Bronze")).
Proof.
  apply (tier_follows_the_balance 7 0%nat
           [loyalty_program.Earn (Float 5200.75%float); loyalty_program.Redeem 4500]).
Defined.

Lemma redemption_never_overdraws_witness :
  let self := loyalty_program.mkLoyaltyProgram 7 1200 "Silver" 0%nat in
  let self' := loyalty_program.mkLoyaltyProgram 7 700 "Bronze" 0%nat in
  (500 > loyalty_program._points self <->
   loyalty_program.redeem_points 500 self
     = Threw (PyValueError "Insufficient points for redemption") self) /\
  (forall e, loyalty_program.redeem_points 500 self = Threw e self' -> self' = self) /\
  (forall redemption_value,
     loyalty_program.redeem_points 500 self = Replied redemption_value self' ->
     500 <= loyalty_program._points self /\
     loyalty_program._points self' = loyalty_program._points self - 500 /\
     0 <= loyalty_program.check_balance self' /\
     exists p, float_of_py_int 500 = inr p /\
               redemption_value = PrimFloat.mul p 0x1.999999999999ap-4%float).
Proof.
  apply (redemption_never_overdraws
           (loyalty_program.mkLoyaltyProgram 7 1200 "Silver" 0%nat)
           (loyalty_program.mkLoyaltyProgram 7 700 "Bronze" 0%nat) 500).
Defined.

Lemma balance_is_never_negative_witness :
  0 <= loyalty_program.check_balance
         (loyalty_program.history
            [loyalty_program.Earn (Int 1200); loyalty_program.Redeem 2000;
             loyalty_program.Redeem (-30); loyalty_program.Redeem 1230]
            (loyalty_program.LoyaltyProgram_init 7 0%nat)).
Proof.
  apply (balance_is_never_negative 7 0%nat
           [loyalty_program.Earn (Int 1200); loyalty_program.Redeem 2000;
            loyalty_program.Redeem (-30); loyalty_program.Redeem 1230]).
  reflexivity.
Defined.

(** * Service requests *)

Section ServiceProperties.
Import guest_service.

Lemma ServiceStatus_eqb_eq (a b : ServiceStatus) :
  ServiceStatus_eqb a b = true <-> a = b.
Proof. destruct a, b; cbn; split; congruence. Qed.

Lemma service_history_snoc (calls : list (datetime * call)) c (self : GuestService) :
  history (calls ++ [c]) self = perform (history calls self) c.
Proof. unfold history. rewrite fold_left_app. reflexivity. Qed.

(** What a call leaves of the request: the fields set at construction, a
    completion time whenever the status is COMPLETED, and no completion time
    but the one it had or the clock of the call. *)
Lemma perform_completion (self : GuestService) (now : datetime) (c : call) :
  let self' := perform self (now, c) in
  (_service_id self' = _service_id self /\ _guest self' = _guest self /\
   _room_number self' = _room_number self /\ _service_type self' = _service_type self /\
   _description self' = _description self /\ _request_time self' = _request_time self) /\
  ((_status self = COMPLETED -> is_Some (_completion_time self)) ->
   _status self' = COMPLETED -> is_Some (_completion_time self')) /\
  (_completion_time self' = _completion_time self \/ _completion_time self' = Some now) /\
  (is_Some (_completion_time self) -> is_Some (_completion_time self')).
Proof.
  destruct c as [new_status | staff_name | |]; cbn [perform].
  - destruct new_status; cbn; repeat split; eauto; try discriminate.
  - cbn. repeat split; eauto; discriminate.
  - unfold complete_service. destruct (ServiceStatus_eqb (_status self) COMPLETED) eqn:Heq.
    + cbn. repeat split; eauto.
    + cbn. repeat split; eauto.
  - unfold cancel_service. destruct (ServiceStatus_eqb (_status self) COMPLETED) eqn:Heq.
    + cbn. repeat split; eauto.
    + cbn. repeat split; eauto; discriminate.
Qed.

(** X18: whatever calls are made on a service request from its creation,
    its identifier, guest, room, type, description and request time stay
    as given; a request whose status is COMPLETED has a completion time;
    and a completion time, once there, is never taken away and is always
    the clock of one of the calls. *)
Theorem completed_request_has_its_time (service_id : string) (requested : datetime)
    (guest : guest_ref) (room_number : Z) (service_type : ServiceType)
    (description : string) (calls later : list (datetime * call)) :
  let created := GuestService_init service_id requested guest room_number service_type
                                   description in
  let self := history calls created in
  (_service_id self = service_id /\ _guest self = guest /\
   _room_number self = room_number /\ _service_type self = service_type /\
   _description self = description /\ _request_time self = requested) /\
  (_status self = COMPLETED -> is_Some (_completion_time self)) /\
  (forall t, _completion_time self = Some t -> t ∈ map fst calls) /\
  (is_Some (_completion_time self) -> is_Some (_completion_time (history later self))).
Proof.
  cbn zeta. split; [| split; [| split]].
  - induction calls as [| [now c] calls IH] using rev_ind; [cbn; repeat split |].
    rewrite service_history_snoc.
    destruct (perform_completion
                (history calls (GuestService_init service_id requested guest room_number
                                                  service_type description)) now c)
      as ((-> & -> & -> & -> & -> & ->) & _).
    exact IH.
  - induction calls as [| [now c] calls IH] using rev_ind; [cbn; discriminate |].
    rewrite service_history_snoc.
    destruct (perform_completion
                (history calls (GuestService_init service_id requested guest room_number
                                                  service_type description)) now c)
      as (_ & Hdone & _).
    exact (Hdone IH).
  - induction calls as [| [now c] calls IH] using rev_ind; [cbn; discriminate |].
    rewrite service_history_snoc, map_app. intros t Ht. apply elem_of_app.
    destruct (perform_completion
                (history calls (GuestService_init service_id requested guest room_number
                                                  service_type description)) now c)
      as (_ & _ & [Hsame | Hnow] & _).
    + left. apply IH. rewrite <- Hsame. exact Ht.
    + right. rewrite Hnow in Ht. inversion Ht. cbn. apply list_elem_of_singleton.
      reflexivity.
  - generalize (history calls (GuestService_init service_id requested guest room_number
                                                 service_type description)).
    induction later as [| [now c] later IH] using rev_ind; intros self Hset;
      [exact Hset |].
    rewrite service_history_snoc.
    destruct (perform_completion (history later self) now c) as (_ & _ & _ & Hkeep).
    apply Hkeep, IH, Hset.
Qed.


End ServiceProperties.

Lemma completed_request_has_its_time_witness :
  let created := guest_service.GuestService_init "s0000001" (day 5) 0%nat 101
                   guest_service.HOUSEKEEPING "Extra towels" in
  let self := guest_service.history
                [(day 6, guest_service.AssignStaff "Amal");
                 (day 7, guest_service.CompleteService)] created in
  (guest_service._service_id self = "s0000001" /\ guest_service._guest self = 0%nat /\
   guest_service._room_number self = 101 /\
   guest_service._service_type self = guest_service.HOUSEKEEPING /\
   guest_service._description self = "Extra towels" /\
   guest_service._request_time self = day 5) /\
  (guest_service._status self = guest_service.COMPLETED ->
   is_Some (guest_service._completion_time self)) /\
  (forall t, guest_service._completion_time self = Some t ->
     t ∈ map fst [(day 6, guest_service.AssignStaff "Amal");
                  (day 7, guest_service.CompleteService)]) /\
  (is_Some (guest_service._completion_time self) ->
   is_Some (guest_service._completion_time
              (guest_service.history [(day 8, guest_service.CancelService)] self))).
Proof.
  apply (completed_request_has_its_time "s0000001" (day 5) 0%nat 101
           guest_service.HOUSEKEEPING "Extra towels"
           [(day 6, guest_service.AssignStaff "Amal");
            (day 7, guest_service.CompleteService)]
           [(day 8, guest_service.CancelService)]).
Defined.


(** * Feedback *)

Section FeedbackProperties.
Import feedback.

Lemma invalid_rating_false (rating : Z) :
  invalid_rating rating = false <-> 1 <= rating <= 5.
Proof.
  unfold invalid_rating. rewrite orb_false_iff, Z.ltb_ge.
  split.
  - intros [Hlow Hhigh]. destruct (Z.gtb_spec rating 5); [discriminate | lia].
  - intros [Hlow Hhigh]. split; [exact Hlow |].
    destruct (Z.gtb_spec rating 5); [lia | reflexivity].
Qed.

Lemma rate_category_replied (self : Feedback) (category : string) (rating : Z) :
  has_key category (_categories self) = true ->
  invalid_rating rating = false ->
  rate_category category rating self
    = Replied true (set_categories self (set_key category rating (_categories self))).
Proof. intros Hkey Hvalid. unfold rate_category. rewrite Hkey, Hvalid. reflexivity. Qed.

Lemma rate_category_refused (self : Feedback) (category : string) (rating : Z) :
  has_key category (_categories self) = true ->
  invalid_rating rating = true ->
  rate_category category rating self
    = Threw (PyValueError "Rating must be an integer between 1 and 5") self.
Proof. intros Hkey Hbad. unfold rate_category. rewrite Hkey, Hbad. reflexivity. Qed.

Lemma set_key_keys (category : string) (rating : Z) (d : list (string * Z)) :
  map fst (set_key category rating d) = map fst d.
Proof.
  induction d as [| [k v] rest IH]; [reflexivity |].
  cbn [set_key]. destruct (String.eqb k category); cbn [map fst]; [reflexivity |].
  rewrite IH. reflexivity.
Qed.

Lemma set_key_values (P : Z -> Prop) (category : string) (rating : Z)
    (d : list (string * Z)) :
  P rating -> Forall P (map snd d) -> Forall P (map snd (set_key category rating d)).
Proof.
  intros Hrating. induction d as [| [k v] rest IH]; intros Hall; [constructor |].
  cbn [set_key]. cbn [map snd] in Hall. inversion Hall as [| ? ? Hv Hrest]; subst.
  destruct (String.eqb k category); cbn [map snd]; constructor; auto.
Qed.

(** The mean of five ratings, rounded as [round] does: a sum of whole
    fifths is never half-way between two integers. *)
Lemma mean_of_five (n : Z) :
  5 <= n <= 25 ->
  match true_divide n 5 with
  | inl e => inl e
  | inr mean => py_round mean
  end = inr ((2 * n + 5) / 10).
Proof.
  intros Hn.
  assert (Hcases : n = 5 \/ n = 6 \/ n = 7 \/ n = 8 \/ n = 9 \/ n = 10 \/ n = 11 \/
                   n = 12 \/ n = 13 \/ n = 14 \/ n = 15 \/ n = 16 \/ n = 17 \/ n = 18 \/
                   n = 19 \/ n = 20 \/ n = 21 \/ n = 22 \/ n = 23 \/ n = 24 \/ n = 25)
    by lia.
  repeat (destruct Hcases as [-> | Hcases]; [vm_compute; reflexivity |]).
  subst n. vm_compute. reflexivity.
Qed.

Lemma rounded_mean_bounds (n : Z) :
  5 <= n <= 25 -> 1 <= (2 * n + 5) / 10 <= 5.
Proof.
  intros Hn. split.
  - apply Z.div_le_lower_bound; lia.
  - assert ((2 * n + 5) / 10 < 6) by (apply Z.div_lt_upper_bound; lia). lia.
Qed.

Lemma categories_shape (d : list (string * Z)) :
  map fst d = ["cleanliness"; "comfort"; "staff"; "value"; "location"] ->
  exists v1 v2 v3 v4 v5,
    d = [("cleanliness", v1); ("comfort", v2); ("staff", v3); ("value", v4);
         ("location", v5)].
Proof.
  intros Hkeys.
  destruct d as [| [k1 v1] [| [k2 v2] [| [k3 v3] [| [k4 v4] [| [k5 v5] [| ? ?]]]]]];
    try discriminate.
  cbn in Hkeys. inversion Hkeys; subst. exists v1, v2, v3, v4, v5. reflexivity.
Qed.

Lemma rate_experience_valid (self : Feedback) (v1 v2 v3 v4 v5 : Z)
    (cleanliness comfort staff value location : Z) :
  _categories self = [("cleanliness", v1); ("comfort", v2); ("staff", v3);
                      ("value", v4); ("location", v5)] ->
  1 <= cleanliness <= 5 -> 1 <= comfort <= 5 -> 1 <= staff <= 5 ->
  1 <= value <= 5 -> 1 <= location <= 5 ->
  rate_experience cleanliness comfort staff value location self
    = Replied true
        (set_rating
           (set_categories self
              [("cleanliness", cleanliness); ("comfort", comfort); ("staff", staff);
               ("value", value); ("location", location)])
           ((2 * (cleanliness + comfort + staff + value + location) + 5) / 10)).
Proof.
  intros Hshape H1 H2 H3 H4 H5.
  apply invalid_rating_false in H1 as V1. apply invalid_rating_false in H2 as V2.
  apply invalid_rating_false in H3 as V3. apply invalid_rating_false in H4 as V4.
  apply invalid_rating_false in H5 as V5.
  destruct self as [fid g b rating comment date cats]. cbn [_categories] in Hshape.
  subst cats. unfold rate_experience.
  rewrite rate_category_replied by first [reflexivity | assumption]. cbn [and_then].
  rewrite rate_category_replied by first [reflexivity | assumption]. cbn [and_then].
  rewrite rate_category_replied by first [reflexivity | assumption]. cbn [and_then].
  rewrite rate_category_replied by first [reflexivity | assumption]. cbn [and_then].
  rewrite rate_category_replied by first [reflexivity | assumption]. cbn [and_then].
  match goal with
  | |- context [average_rating ?X] =>
      change X with (mkFeedback fid g b rating comment date
                       [("cleanliness", cleanliness); ("comfort", comfort);
                        ("staff", staff); ("value", value); ("location", location)])
  end.
  unfold average_rating. cbn [_categories map snd fold_left length].
  change (Z.of_nat 5) with 5.
  rewrite mean_of_five by lia.
  unfold set_rating, set_categories. cbn [_feedback_id _guest _booking _rating _comment
                                          _submission_date _categories].
  reflexivity.
Qed.

Lemma rate_experience_refused (self : Feedback) (v1 v2 v3 v4 v5 : Z)
    (cleanliness comfort staff value location : Z) :
  _categories self = [("cleanliness", v1); ("comfort", v2); ("staff", v3);
                      ("value", v4); ("location", v5)] ->
  existsb invalid_rating [cleanliness; comfort; staff; value; location] = true ->
  let ok1 := negb (invalid_rating cleanliness) in
  let ok2 := ok1 && negb (invalid_rating comfort) in
  let ok3 := ok2 && negb (invalid_rating staff) in
  let ok4 := ok3 && negb (invalid_rating value) in
  rate_experience cleanliness comfort staff value location self
    = Threw (PyValueError "Rating must be an integer between 1 and 5")
        (set_categories self
           [("cleanliness", if ok1 then cleanliness else v1);
            ("comfort", if ok2 then comfort else v2);
            ("staff", if ok3 then staff else v3);
            ("value", if ok4 then value else v4);
            ("location", v5)]).
Proof.
  intros Hshape Hbad. cbn zeta.
  destruct self as [fid g b rating comment date cats]. cbn [_categories] in Hshape.
  subst cats. cbn [existsb] in Hbad. unfold rate_experience.
  destruct (invalid_rating cleanliness) eqn:V1.
  { rewrite rate_category_refused by first [reflexivity | assumption]. reflexivity. }
  rewrite rate_category_replied by first [reflexivity | assumption]. cbn [and_then].
  destruct (invalid_rating comfort) eqn:V2.
  { rewrite rate_category_refused by first [reflexivity | assumption]. reflexivity. }
  rewrite rate_category_replied by first [reflexivity | assumption]. cbn [and_then].
  destruct (invalid_rating staff) eqn:V3.
  { rewrite rate_category_refused by first [reflexivity | assumption]. reflexivity. }
  rewrite rate_category_replied by first [reflexivity | assumption]. cbn [and_then].
  destruct (invalid_rating value) eqn:V4.
  { rewrite rate_category_refused by first [reflexivity | assumption]. reflexivity. }
  rewrite rate_category_replied by first [reflexivity | assumption]. cbn [and_then].
  destruct (invalid_rating location) eqn:V5; [| discriminate].
  rewrite rate_category_refused by first [reflexivity | assumption]. reflexivity.
Qed.


(** X21: on a feedback with the five categories of the constructor,
    rate_experience with a rating outside 1 to 5 raises ValueError at the
    first such rating, in the order cleanliness, comfort, staff, value,
    location: the categories before it hold their new ratings already, the
    ones from it on and the overall rating are as they were. *)
Theorem rate_experience_stops_at_the_first_bad_rating (self : Feedback)
    (v1 v2 v3 v4 v5 : Z) (cleanliness comfort staff value location : Z) :
  _categories self = [("cleanliness", v1); ("comfort", v2); ("staff", v3);
                      ("value", v4); ("location", v5)] ->
  existsb invalid_rating [cleanliness; comfort; staff; value; location] = true ->
  let ok1 := negb (invalid_rating cleanliness) in
  let ok2 := ok1 && negb (invalid_rating comfort) in
  let ok3 := ok2 && negb (invalid_rating staff) in
  let ok4 := ok3 && negb (invalid_rating value) in
  rate_experience cleanliness comfort staff value location self
    = Threw (PyValueError "Rating must be an integer between 1 and 5")
        (mkFeedback (_feedback_id self) (_guest self) (_booking self) (_rating self)
           (_comment self) (_submission_date self)
           [("cleanliness", if ok1 then cleanliness else v1);
            ("comfort", if ok2 then comfort else v2);
            ("staff", if ok3 then staff else v3);
            ("value", if ok4 then value else v4);
            ("location", v5)]).
Proof.
  intros Hshape Hbad. exact (rate_experience_refused self v1 v2 v3 v4 v5 _ _ _ _ _ Hshape Hbad).
Qed.

Lemma perform_fixed (self : Feedback) (c : call) :
  _feedback_id (perform self c) = _feedback_id self /\
  _guest (perform self c) = _guest self /\
  _booking (perform self c) = _booking self /\
  _submission_date (perform self c) = _submission_date self.
Proof.
  destruct c as [category rating | c1 c2 c3 c4 c5 | value]; cbn [perform].
  - unfold rate_category. destruct (negb _); [repeat split |].
    destruct (invalid_rating rating); repeat split.
  - unfold rate_experience, rate_category.
    repeat match goal with
           | |- context [if ?b then _ else _] => destruct b; cbn; try (repeat split; fail)
           end.
    destruct (average_rating _); cbn; repeat split.
  - repeat split.
Qed.

Lemma perform_feedback_ok (self : Feedback) (c : call) :
  feedback_ok self -> feedback_ok (perform self c).
Proof.
  intros (Hrating & Hkeys & Hvalues).
  destruct c as [category rating | c1 c2 c3 c4 c5 | value]; cbn [perform].
  - unfold rate_category. destruct (negb _); [exact (conj Hrating (conj Hkeys Hvalues)) |].
    destruct (invalid_rating rating) eqn:Hvalid; [exact (conj Hrating (conj Hkeys Hvalues)) |].
    apply invalid_rating_false in Hvalid. cbn [object_after].
    unfold feedback_ok, set_categories. cbn [_rating _categories].
    split; [exact Hrating |]. split; [rewrite set_key_keys; exact Hkeys |].
    apply set_key_values; [lia | exact Hvalues].
  - destruct (categories_shape _ Hkeys) as (v1 & v2 & v3 & v4 & v5 & Hshape).
    rewrite Hshape in Hvalues. cbn [map snd] in Hvalues.
    repeat match goal with
           | Hall : Forall _ (_ :: _) |- _ =>
               let Hv := fresh "Hv" in
               apply Forall_cons in Hall as [Hv Hall]
           end.
    destruct (existsb invalid_rating [c1; c2; c3; c4; c5]) eqn:Hbad.
    + rewrite (rate_experience_refused self v1 v2 v3 v4 v5 _ _ _ _ _ Hshape Hbad).
      cbn [object_after]. unfold feedback_ok, set_categories.
      cbn [_rating _categories map fst snd].
      split; [exact Hrating |]. split; [reflexivity |].
      destruct (invalid_rating c1) eqn:V1; destruct (invalid_rating c2) eqn:V2;
        destruct (invalid_rating c3) eqn:V3; destruct (invalid_rating c4) eqn:V4;
        cbn [negb andb];
        rewrite ?invalid_rating_false in *;
        repeat (constructor; [lia |]); constructor.
    + cbn [existsb] in Hbad. rewrite !orb_false_iff in Hbad.
      destruct Hbad as (V1 & V2 & V3 & V4 & V5 & _).
      rewrite invalid_rating_false in V1, V2, V3, V4, V5.
      rewrite (rate_experience_valid self v1 v2 v3 v4 v5 _ _ _ _ _ Hshape V1 V2 V3 V4 V5).
      cbn [object_after]. unfold feedback_ok, set_rating, set_categories.
      cbn [_rating _categories map fst snd].
      split; [apply rounded_mean_bounds; lia |]. split; [reflexivity |].
      repeat (constructor; [lia |]); constructor.
  - exact (conj Hrating (conj Hkeys Hvalues)).
Qed.

Lemma feedback_history_snoc (calls : list call) (c : call) (self : Feedback) :
  history (calls ++ [c]) self = perform (history calls self) c.
Proof. unfold history. rewrite fold_left_app. reflexivity. Qed.

(** X22: a feedback is made only with an overall rating from 1 to 5, and
    whatever ratings and comments are then given, refused ones among them,
    the overall rating stays from 1 to 5, the categories stay the five of
    the constructor, each holding 0 or a rating from 1 to 5, and the
    identifier, guest, booking and submission date stay as given. *)
Theorem feedback_ratings_stay_in_range (feedback_id : string) (now : datetime)
    (guest : guest_ref) (booking : booking_ref) (rating : Z) (comment : string)
    (created : Feedback) (calls : list call) :
  Feedback_init feedback_id now guest booking rating comment = inr created ->
  let self := history calls created in
  1 <= rating <= 5 /\
  1 <= _rating self <= 5 /\
  map fst (_categories self) = ["cleanliness"; "comfort"; "staff"; "value"; "location"] /\
  Forall (fun v => 0 <= v <= 5) (map snd (_categories self)) /\
  _feedback_id self = feedback_id /\ _guest self = guest /\ _booking self = booking /\
  _submission_date self = now.
Proof.
  intros Hinit. cbn zeta. unfold Feedback_init in Hinit.
  destruct (invalid_rating rating) eqn:Hvalid; [discriminate |].
  apply invalid_rating_false in Hvalid. inversion Hinit as [Hcreated]. clear Hinit.
  split; [exact Hvalid |].
  induction calls as [| c calls IH] using rev_ind.
  - cbn. repeat split; try lia. repeat (constructor; [lia |]). constructor.
  - rewrite feedback_history_snoc.
    destruct IH as (Hr & Hk & Hv & Hid & Hg & Hb & Hd).
    destruct (perform_fixed (history calls
                (mkFeedback feedback_id guest booking rating comment now
                   [("cleanliness", 0); ("comfort", 0); ("staff", 0); ("value", 0);
                    ("location", 0)])) c) as (-> & -> & -> & ->).
    destruct (perform_feedback_ok _ c (conj Hr (conj Hk Hv))) as (Hr' & Hk' & Hv').
    repeat (split; [assumption |]). assumption.
Qed.

End FeedbackProperties.


Lemma rate_experience_stops_at_the_first_bad_rating_witness :
  let self := feedback.mkFeedback "f0000001" 0%nat 0%nat 4 "Lovely stay" (day 9)
                [("cleanliness", 1); ("comfort", 2); ("staff", 3); ("value", 4);
                 ("location", 5)] in
  feedback.rate_experience 5 4 6 3 2 self
    = Threw (PyValueError "Rating must be an integer between 1 and 5")
        (feedback.mkFeedback "f0000001" 0%nat 0%nat 4 "Lovely stay" (day 9)
           [("cleanliness", 5); ("comfort", 4); ("staff", 3); ("value", 4);
            ("location", 5)]).
Proof.
  apply (rate_experience_stops_at_the_first_bad_rating
           (feedback.mkFeedback "f0000001" 0%nat 0%nat 4 "Lovely stay" (day 9)
              [("cleanliness", 1); ("comfort", 2); ("staff", 3); ("value", 4);
               ("location", 5)]) 1 2 3 4 5 5 4 6 3 2);
    reflexivity.
Defined.

Lemma feedback_ratings_stay_in_range_witness :
  let created := feedback.mkFeedback "f0000001" 0%nat 0%nat 4 "Lovely stay" (day 9)
                   [("cleanliness", 0); ("comfort", 0); ("staff", 0); ("value", 0);
                    ("location", 0)] in
  let self := feedback.history
                [feedback.RateCategory "staff" 5; feedback.RateCategory "pool" 3;
                 feedback.RateExperience 5 4 9 3 2; feedback.SetComment "Noisy"]
                created in
  1 <= 4 <= 5 /\
  1 <= feedback._rating self <= 5 /\
  map fst (feedback._categories self)
    = ["cleanliness"; "comfort"; "staff"; "value"; "location"] /\
  Forall (fun v => 0 <= v <= 5) (map snd (feedback._categories self)) /\
  feedback._feedback_id self = "f0000001" /\ feedback._guest self = 0%nat /\
  feedback._booking self = 0%nat /\
  feedback._submission_date self = day 9.
Proof.
  apply (feedback_ratings_stay_in_range "f0000001" (day 9) 0%nat 0%nat 4 "Lovely stay"
           (feedback.mkFeedback "f0000001" 0%nat 0%nat 4 "Lovely stay" (day 9)
              [("cleanliness", 0); ("comfort", 0); ("staff", 0); ("value", 0);
               ("location", 0)])
           [feedback.RateCategory "staff" 5; feedback.RateCategory "pool" 3;
            feedback.RateExperience 5 4 9 3 2; feedback.SetComment "Noisy"]).
  reflexivity.
Defined.

Section InvoicesOfReachableStores.
Context {N : Type} `{Number N}.

Lemma attached_prices_unique (s : Store N) rooms :
  forall prices prices',
    attached_prices s rooms prices -> attached_prices s rooms prices' -> prices = prices'.
Proof.
  induction rooms as [| r rooms IH]; intros prices prices' Hp Hp';
    inversion Hp as [| ? p ? ps (room & Hroom & Hprice) Hrest]; subst;
    inversion Hp' as [| ? p' ? ps' (room' & Hroom' & Hprice') Hrest']; subst;
    [reflexivity |].
  rewrite Hroom in Hroom'. inversion Hroom'; subst room'.
  f_equal. apply IH; assumption.
Qed.

(** X23: for every booking of a store reached from the empty one an
    invoice can be made, with one line per room of the booking; and as long
    as no call has assigned to a room's price, the invoice totals to the
    total cost the booking stores. *)
Theorem invoice_matches_the_stored_total (ops : list (operation N)) (b : booking_ref)
    (bk : Booking N) (now : datetime) (invoice_id : string) (p : payment_ref) :
  booking_heap (run ops empty_store) !! b = Some bk ->
  exists inv,
    invoice.Invoice_init (run ops empty_store) now invoice_id b p = Some inv /\
    length (invoice._items inv) = length (_rooms bk) /\
    (forallb (fun op => negb (reprices op)) ops = true ->
     invoice.calculate_total inv = _total_cost bk).
Proof.
  intros Hb.
  destruct (well_formed_attached_prices _ b bk (reachable_well_formed ops) Hb)
    as (prices & Hprices).
  destruct (Invoice_init_attached _ now invoice_id b p bk prices Hb Hprices)
    as (inv & Hinit & _ & _ & _ & _ & Hall & Htotal).
  exists inv. split; [exact Hinit |].
  split; [symmetry; exact (Forall2_length _ _ _ Hall) |].
  intros Hops.
  assert (Htot : totals_current (run ops (@empty_store N))).
  { apply totals_current_run; [| exact Hops |].
    - intros b0 bk0 Hb0. cbn in Hb0. rewrite lookup_empty in Hb0. discriminate.
    - intros b0 bk0 Hb0. cbn in Hb0. rewrite lookup_empty in Hb0. discriminate. }
  destruct (Htot b bk Hb) as (prices' & Hprices' & Hcost).
  rewrite Htotal, Hcost, (attached_prices_unique _ _ _ _ Hprices Hprices').
  reflexivity.
Qed.

End InvoicesOfReachableStores.

Lemma invoice_matches_the_stored_total_witness :
  exists inv,
    invoice.Invoice_init (run setup empty_store) (day 9) "p0000001" 0%nat 0%nat
      = Some inv /\
    length (invoice._items inv) = length (_rooms booking0) /\
    (forallb (fun op => negb (reprices op)) setup = true ->
     invoice.calculate_total inv = _total_cost booking0).
Proof.
  apply (invoice_matches_the_stored_total setup 0%nat booking0 (day 9) "p0000001" 0%nat).
  vm_compute. reflexivity.
Defined.

(** * The availability flag of a room *)

Section StatusFlag.
Context {N : Type} `{Number N}.

(** X24: update_status sets the room's availability flag and nothing
    else, and no availability check reads the flag: for a valid range
    check_availability gives the same answer before and after, and when
    that answer is True add_booking still books the room, a room just
    marked unavailable included. *)
Theorem availability_ignores_the_status_flag (s s1 : Store N) (r : room_ref)
    (is_available : bool) (u : unit) (check_in_date check_out_date : datetime) :
  update_status r is_available s = Returns u s1 ->
  check_in_date < check_out_date ->
  exists room room1 available,
    room_heap s !! r = Some room /\ room_heap s1 !! r = Some room1 /\
    room1 = set_is_available room is_available /\
    _bookings room1 = _bookings room /\
    booking_heap s1 = booking_heap s /\ guest_heap s1 = guest_heap s /\
    check_availability r check_in_date check_out_date s = Returns available s /\
    check_availability r check_in_date check_out_date s1 = Returns available s1 /\
    (available = true ->
     exists s2, add_booking r check_in_date check_out_date s1 = Returns true s2).
Proof.
  intros Hcall Hlt. unfold update_status in Hcall.
  apply bind_returns in Hcall as (room & s0 & Hget & Hput).
  apply get_room_returns in Hget as [-> Hroom].
  unfold put_room in Hput. inversion Hput as [Hs1]. clear Hput.
  assert (Hroom1 : room_heap
            (mkStore (<[r := set_is_available room is_available]> (room_heap s))
                     (booking_heap s) (guest_heap s)) !! r
          = Some (set_is_available room is_available)).
  { cbn [room_heap]. apply lookup_insert_eq. }
  exists room, (set_is_available room is_available),
    (scan_bookings check_in_date check_out_date (_bookings room)).
  split; [exact Hroom |]. split; [exact Hroom1 |].
  repeat (split; [reflexivity |]).
  split; [apply check_availability_valid; assumption |].
  split; [exact (check_availability_valid _ r _ _ _ Hroom1 Hlt) |].
  intros Havailable. unfold add_booking, bind.
  rewrite (check_availability_valid _ r _ _ _ Hroom1 Hlt).
  unfold get_room. rewrite Hroom1.
  cbn [set_is_available _bookings]. rewrite Havailable. cbn [negb].
  eexists. reflexivity.
Qed.

End StatusFlag.

Lemma availability_ignores_the_status_flag_witness :
  exists room room1 available,
    room_heap store_booked !! 1%nat = Some room /\
    room_heap (store_after store_booked (update_status 1%nat false store_booked)) !! 1%nat
      = Some room1 /\
    room1 = set_is_available room false /\
    _bookings room1 = _bookings room /\
    booking_heap (store_after store_booked (update_status 1%nat false store_booked))
      = booking_heap store_booked /\
    guest_heap (store_after store_booked (update_status 1%nat false store_booked))
      = guest_heap store_booked /\
    check_availability 1%nat (day 5) (day 8) store_booked = Returns available store_booked /\
    check_availability 1%nat (day 5) (day 8)
        (store_after store_booked (update_status 1%nat false store_booked))
      = Returns available
          (store_after store_booked (update_status 1%nat false store_booked)) /\
    (available = true ->
     exists s2,
       add_booking 1%nat (day 5) (day 8)
           (store_after store_booked (update_status 1%nat false store_booked))
         = Returns true s2).
Proof.
  apply (availability_ignores_the_status_flag store_booked
           (store_after store_booked (update_status 1%nat false store_booked))
           1%nat false tt (day 5) (day 8)).
  - vm_compute. reflexivity.
  - vm_compute. reflexivity.
Defined.
